(** * hcaptcha-click-solver: a shallow embedding of the solve engine

    The development follows the three core modules of the repository:
    - [core/api_service.py]  (module [ApiService]): the request/poll client;
    - [core/motion.py]       (module [Motion]): the pointer controller and
      the path builder;
    - [core/solver.py]       (module [Solver]): answer interpretation and the
      attempt loop.

    Python floats are idealised as exact rationals ([Q]); Python exceptions
    are an explicit [Raise] result; the browser page and the HTTP transport
    are oracles that the code queries and whose calls are recorded in a
    trace. *)

From Stdlib Require Import List String Ascii ZArith QArith Qround Lia Lqa Bool.
Import ListNotations.
Local Open Scope string_scope.
Local Open Scope list_scope.
Set Warnings "-register-all".

(** ** Python values and exceptions *)

Module Py.

(** Decoded JSON, as Python's [json] gives it: [None], [bool], [int],
    [float], [str], [list] and [dict] (insertion-ordered, here an
    association list looked up from the front). *)
Inductive value : Type :=
| VNone
| VBool (b : bool)
| VInt (z : Z)
| VFloat (q : Q)
| VStr (s : string)
| VList (l : list value)
| VDict (d : list (string * value)).

Inductive exn : Type :=
| TypeError
| ValueError
| AttributeError
| IndexError
| KeyError
| TransportError
| AutomationError.

Inductive result (A : Type) : Type :=
| Ok (a : A)
| Raise (e : exn).
Arguments Ok {A} a.
Arguments Raise {A} e.

Definition rbind {A B} (r : result A) (f : A -> result B) : result B :=
  match r with
  | Ok a => f a
  | Raise e => Raise e
  end.

Definition Qnonzero (q : Q) : bool := negb (Qeq_bool q 0).

(** Python truthiness ([bool(v)], what [if v] and [not v] test). *)
Definition truthy (v : value) : bool :=
  match v with
  | VNone => false
  | VBool b => b
  | VInt z => negb (Z.eqb z 0)
  | VFloat q => Qnonzero q
  | VStr s => negb (String.eqb s "")
  | VList l => match l with [] => false | _ => true end
  | VDict d => match d with [] => false | _ => true end
  end.

Fixpoint assoc (k : string) (d : list (string * value)) : option value :=
  match d with
  | [] => None
  | (k', v) :: d' => if String.eqb k k' then Some v else assoc k d'
  end.

(** [d.get(k)] on a dict: the value, or [None] when the key is absent. *)
Definition dict_get (d : list (string * value)) (k : string) : value :=
  match assoc k d with
  | Some v => v
  | None => VNone
  end.

(** [data.get(k)] on an arbitrary decoded value: only a dict has [get]. *)
Definition get (data : value) (k : string) : result value :=
  match data with
  | VDict d => Ok (dict_get d k)
  | _ => Raise AttributeError
  end.

(** [isinstance(v, (list, tuple))]: decoded JSON has no tuples. *)
Definition is_list (v : value) : bool :=
  match v with VList _ => true | _ => false end.

Definition is_dict (v : value) : bool :=
  match v with VDict _ => true | _ => false end.

(** [a or b] on values. *)
Definition or_else (a b : value) : value := if truthy a then a else b.

(** [int(q)] on a float truncates toward zero. *)
Definition trunc (q : Q) : Z := Z.quot (Qnum q) (Zpos (Qden q)).

Section Conversions.
(** [float(s)] and [int(s)] on a string parse it; the parsers are taken
    as given. *)
Variable str_to_float : string -> option Q.
Variable str_to_int : string -> option Z.

(** [float(v)]. *)
Definition to_float (v : value) : result Q :=
  match v with
  | VNone => Raise TypeError
  | VBool b => Ok (if b then 1 else 0)
  | VInt z => Ok (inject_Z z)
  | VFloat q => Ok q
  | VStr s => match str_to_float s with
              | Some q => Ok q
              | None => Raise ValueError
              end
  | VList _ => Raise TypeError
  | VDict _ => Raise TypeError
  end.

(** [int(v)]. *)
Definition to_int (v : value) : result Z :=
  match v with
  | VNone => Raise TypeError
  | VBool b => Ok (if b then 1 else 0)%Z
  | VInt z => Ok z
  | VFloat q => Ok (trunc q)
  | VStr s => match str_to_int s with
              | Some z => Ok z
              | None => Raise ValueError
              end
  | VList _ => Raise TypeError
  | VDict _ => Raise TypeError
  end.
End Conversions.

(** [xs[i]] on a list of length [n]: a negative index counts from the end,
    anything outside [-n, n) raises [IndexError]. *)
Definition index {A : Type} (xs : list A) (i : Z) : result A :=
  let n := Z.of_nat (List.length xs) in
  let j := (if i <? 0 then i + n else i)%Z in
  if ((0 <=? j) && (j <? n))%Z
  then match nth_error xs (Z.to_nat j) with
       | Some x => Ok x
       | None => Raise IndexError
       end
  else Raise IndexError.

(** [xs[-1]] as an option. *)
Definition last_opt {A : Type} (xs : list A) : option A :=
  match xs with
  | [] => None
  | x :: xs' => Some (last xs' x)
  end.

(** Python's [max(a, b)] and [min(a, b)] on floats: the first argument
    wins a tie. *)
Definition fmax (a b : Q) : Q := if Qle_bool b a then a else b.
Definition fmin (a b : Q) : Q := if Qle_bool a b then a else b.

(** [range(lo, hi)]. *)
Definition range (lo hi : Z) : list Z :=
  map (fun k => (lo + Z.of_nat k)%Z) (seq 0 (Z.to_nat (hi - lo))).

(** Effectful code: a state is threaded and an exception stops the run. *)
Definition Eff (S A : Type) : Type := S -> result A * S.

Definition ret {S A} (a : A) : Eff S A := fun st => (Ok a, st).
Definition bind {S A B} (m : Eff S A) (f : A -> Eff S B) : Eff S B :=
  fun st => match m st with
            | (Ok a, st') => f a st'
            | (Raise e, st') => (Raise e, st')
            end.
Definition lift {S A} (r : result A) : Eff S A := fun st => (r, st).

(** [try: m except Exception: handler]. *)
Definition try_except {S A} (m : Eff S A) (handler : Eff S A) : Eff S A :=
  fun st => match m st with
            | (Ok a, st') => (Ok a, st')
            | (Raise _, st') => handler st'
            end.

End Py.
Import Py.

Notation "x <- m ;; k" := (bind m (fun x => k))
  (at level 61, m at next level, right associativity).
Notation "m ;;; k" := (bind m (fun _ => k))
  (at level 61, right associativity).

(** ** core/api_service.py *)

Module ApiService.

Record response : Type := mkResponse {
  resp_ok : bool;               (* response.ok *)
  resp_status : Z;              (* response.status *)
  resp_json : result value      (* await response.json() *)
}.

Record request : Type := mkRequest {
  req_url : string;
  req_payload : value
}.

Inductive event : Type :=
| Post (r : request)
| Sleep (seconds : Q)
| LogFailure (msg : string).

(** The state the client threads: how many requests were sent (the oracle
    answers the k-th one) and what happened so far. *)
Record net : Type := mkNet {
  posts : nat;
  trace : list event
}.

Definition M : Type -> Type := Eff net.

Definition emit (e : event) : M unit :=
  fun st => (Ok tt, mkNet (posts st) (trace st ++ [e])).
Definition log_failure (msg : string) : M unit := emit (LogFailure msg).
Definition sleep (d : Q) : M unit := emit (Sleep d).

Section Client.
Variable transport : nat -> request -> result response.
Variable api_key : string.
Variable base_url : string.
Variable poll_interval : Q.
Variable max_wait_time : Q.
Variable str_to_float : string -> option Q.

(** [await self._request_context.post(...)]: the request is recorded,
    the oracle answers (or raises). *)
Definition post (r : request) : M response :=
  fun st => (transport (posts st) r,
             mkNet (S (posts st)) (trace st ++ [Post r])).

Definition create_request (task_type : string) (task_payload : value) : request :=
  mkRequest (String.append base_url "/createTask/index.php")
    (VDict [("clientKey", VStr api_key); ("type", VStr task_type);
            ("task", task_payload)]).

Definition fetch_request (task_id : value) : request :=
  mkRequest (String.append base_url "/getTaskResult/index.php")
    (VDict [("clientKey", VStr api_key); ("taskId", task_id)]).

(** [create_task]: the [try] covers the [post] only. *)
Definition create_task (task_payload : value) (task_type : string)
  : M (option value) :=
  fun st =>
    match post (create_request task_type task_payload) st with
    | (Raise _, st1) =>
        (log_failure "Failed to create task" ;;; ret None) st1
    | (Ok resp, st1) =>
        (if negb (resp_ok resp) then
           log_failure "Multibot API returned HTTP" ;;; ret None
         else
           data <- lift (resp_json resp) ;;
           error_id <- lift (get data "errorId") ;;
           if truthy error_id then
             log_failure "createTask error" ;;; ret None
           else
             task_id <- lift (get data "taskId") ;;
             if negb (truthy task_id) then
               log_failure "Multibot API response did not include taskId" ;;;
               ret None
             else ret (Some task_id)) st1
    end.

(** [_fetch_result]. *)
Definition _fetch_result (task_id : value) : M (option value) :=
  fun st =>
    match post (fetch_request task_id) st with
    | (Raise _, st1) =>
        (log_failure "Failed to fetch task result" ;;; ret None) st1
    | (Ok resp, st1) =>
        (if negb (resp_ok resp) then
           log_failure "HTTP error while retrieving result" ;;; ret None
         else
           data <- lift (resp_json resp) ;;
           error_id <- lift (get data "errorId") ;;
           if truthy error_id then
             log_failure "getTaskResult error" ;;; ret None
           else ret (Some data)) st1
    end.

Definition is_str (v : value) (s : string) : bool :=
  match v with VStr s' => String.eqb s' s | _ => false end.

(** The [while elapsed <= self.max_wait_time] loop of [wait_for_result];
    [fuel] bounds the number of iterations the model unfolds, [None] is
    "still looping". *)
Fixpoint wait_loop (fuel : nat) (task_id : value) (return_raw : bool)
    (elapsed : Q) (st : net) : option (result (option value) * net) :=
  match fuel with
  | O => None
  | S fuel' =>
      if Qle_bool elapsed max_wait_time then
        match _fetch_result task_id st with
        | (Raise e, st1) => Some (Raise e, st1)
        | (Ok None, st1) => Some (Ok None, st1)
        | (Ok (Some result), st1) =>
            match get result "status" with
            | Raise e => Some (Raise e, st1)
            | Ok status =>
                if is_str status "ready" then
                  if return_raw then Some (Ok (Some result), st1)
                  else
                    match get result "answers" with
                    | Raise e => Some (Raise e, st1)
                    | Ok VNone =>
                        Some ((log_failure "Multibot returned an empty answers payload" ;;;
                               ret None) st1)
                    | Ok answers => Some (Ok (Some answers), st1)
                    end
                else if is_str status "failed" then
                  Some ((log_failure "Multibot failed to solve the challenge" ;;;
                         ret None) st1)
                else
                  match sleep poll_interval st1 with
                  | (_, st2) =>
                      wait_loop fuel' task_id return_raw
                        (elapsed + poll_interval) st2
                  end
            end
        end
      else
        Some ((log_failure "Timed out waiting for task" ;;; ret None) st)
  end.

Definition wait_for_result (fuel : nat) (task_id : value) (return_raw : bool)
    (st : net) : option (result (option value) * net) :=
  wait_loop fuel task_id return_raw 0 st.

(** One [entry] of a segment's path, lines 155-165 of the source:
    [None] is the [continue] of the structural check. *)
Definition normalize_entry (entry : value) : result (option (Q * Q * Q)) :=
  match entry with
  | VList items =>
      if (List.length items <? 2)%nat then Ok None
      else
        rbind (index items 0) (fun e0 =>
        rbind (to_float str_to_float e0) (fun x =>
        rbind (index items 1) (fun e1 =>
        rbind (to_float str_to_float e1) (fun y =>
        let delay_ms :=
          if (2 <? List.length items)%nat then
            match index items 2 with
            | Ok VNone => 0
            | Ok e2 => match to_float str_to_float e2 with
                       | Ok d => d
                       | Raise _ => 0
                       end
            | Raise _ => 0
            end
          else 0 in
        Ok (Some (x, y, delay_ms))))))
  | _ => Ok None
  end.

(** [for entry in path: ...] appending to [normalized]. *)
Fixpoint normalize_path (path : list value) (normalized : list (Q * Q * Q))
  : result (list (Q * Q * Q)) :=
  match path with
  | [] => Ok normalized
  | entry :: rest =>
      match normalize_entry entry with
      | Raise e => Raise e
      | Ok None => normalize_path rest normalized
      | Ok (Some p) => normalize_path rest (normalized ++ [p])
      end
  end.

(** [for segment in answers: ...]. *)
Fixpoint normalize_segments (answers : list value)
    (normalized : list (Q * Q * Q)) : result (list (Q * Q * Q)) :=
  match answers with
  | [] => Ok normalized
  | segment :: rest =>
      match segment with
      | VDict d =>
          match dict_get d "path" with
          | VList path =>
              match normalize_path path normalized with
              | Raise e => Raise e
              | Ok normalized' => normalize_segments rest normalized'
              end
          | _ => normalize_segments rest normalized
          end
      | _ => normalize_segments rest normalized
      end
  end.

(** Lines 135-171 of [request_human_move]: what is done with the raw
    result of the poll. *)
Definition human_move_result (result : option value)
  : M (option (list (Q * Q * Q))) :=
  match result with
  | None => ret None
  | Some result =>
      if negb (truthy result) then ret None
      else if negb (is_dict result) then
        log_failure "Multibot returned a non-dict payload for humanMove" ;;;
        ret None
      else
        answers <- lift (get result "answers") ;;
        match answers with
        | VList ((_ :: _) as segments) =>
            normalized <- lift (normalize_segments segments []) ;;
            match normalized with
            | [] =>
                log_failure "Failed to normalize humanMove trajectory" ;;;
                ret None
            | _ => ret (Some normalized)
            end
        | _ =>
            log_failure "Multibot returned an empty answers list for humanMove" ;;;
            ret None
        end
  end.

Definition move_payload (route : list (Q * Q)) : value :=
  VList [VDict [("type", VStr "move");
                ("patch", VList (map (fun point =>
                   VList [VFloat (fst point); VFloat (snd point)]) route))]].

Definition request_human_move (fuel : nat) (route : list (Q * Q)) (st : net)
  : option (result (option (list (Q * Q * Q))) * net) :=
  match create_task (move_payload route) "humanMove" st with
  | (Raise e, st1) => Some (Raise e, st1)
  | (Ok None, st1) => Some (Ok None, st1)
  | (Ok (Some task_id), st1) =>
      match wait_for_result fuel task_id true st1 with
      | None => None
      | Some (Raise e, st2) => Some (Raise e, st2)
      | Some (Ok result, st2) => Some (human_move_result result st2)
      end
  end.

End Client.

End ApiService.

(** ** core/motion.py *)

Module Motion.

Record Point : Type := mkPoint { px : Q; py : Q }.

(** What the controller asks of the page and of the clock. *)
Inductive page_call : Type :=
| MouseMove (x y : Q) (steps : Z)
| MouseDown
| MouseUp
| AsyncSleep (seconds : Q).

Record motion : Type := mkMotion {
  _position : option Point;                 (* self._position *)
  _human_trace : option (list (Q * Q));     (* self._human_trace *)
  draws : nat;                             (* random numbers drawn so far *)
  calls : list page_call                   (* page calls and sleeps so far *)
}.

Definition M : Type -> Type := Eff motion.

Definition current_position (st : motion) : option (Q * Q) :=
  match _position st with
  | None => None
  | Some p => Some (px p, py p)
  end.

Definition set_position (x y : Q) : M unit :=
  fun st => (Ok tt, mkMotion (Some (mkPoint x y)) (_human_trace st)
                      (draws st) (calls st)).

Definition set_human_trace (t : option (list (Q * Q))) : M unit :=
  fun st => (Ok tt, mkMotion (_position st) t (draws st) (calls st)).

Definition get_position : M (option Point) :=
  fun st => (Ok (_position st), st).

Definition asyncio_sleep (d : Q) : M unit :=
  fun st => (Ok tt, mkMotion (_position st) (_human_trace st) (draws st)
                      (calls st ++ [AsyncSleep d])).

Section Controller.
(** [page.viewport_size], when it is set: width and height. *)
Variable viewport : option (Q * Q).
(** The k-th call of [random.uniform(a, b)]. *)
Variable uniform : nat -> Q -> Q -> Q.
(** Whether the page raises on the call made after [k] recorded ones. *)
Variable page_raises : nat -> bool.
(** [math.dist((x1, y1), (x2, y2))], [math.cos], [math.sin], [math.atan2]. *)
Variable math_dist : Q -> Q -> Q -> Q -> Q.
Variable math_cos : Q -> Q.
Variable math_sin : Q -> Q.
Variable math_atan2 : Q -> Q -> Q.

Definition random_uniform (a b : Q) : M Q :=
  fun st => (Ok (uniform (draws st) a b),
             mkMotion (_position st) (_human_trace st) (S (draws st)) (calls st)).

Definition page (c : page_call) : M unit :=
  fun st =>
    if page_raises (List.length (calls st)) then (Raise AutomationError, st)
    else (Ok tt, mkMotion (_position st) (_human_trace st) (draws st)
                   (calls st ++ [c])).

Definition mouse_move (x y : Q) (steps : Z) : M unit := page (MouseMove x y steps).
Definition mouse_down : M unit := page MouseDown.
Definition mouse_up : M unit := page MouseUp.

(** [_init_position]. *)
Definition _init_position : M Point :=
  start <- match viewport with
           | Some (width, height) =>
               x <- random_uniform (width * 0.2) (width * 0.8) ;;
               y <- random_uniform (height * 0.2) (height * 0.8) ;;
               ret (mkPoint x y)
           | None =>
               x <- random_uniform 200 600 ;;
               y <- random_uniform 200 500 ;;
               ret (mkPoint x y)
           end ;;
  mouse_move (px start) (py start) 1 ;;;
  set_position (px start) (py start) ;;;
  ret start.

Definition default_step_count (distance : Q) : Z :=
  Z.max 12 (Z.min 45 (trunc (distance / 12))).

(** [steps or max(12, min(45, int(distance / 12)))]. *)
Definition step_count_of (steps : option Z) (distance : Q) : Z :=
  match steps with
  | Some s => if (s =? 0)%Z then default_step_count distance else s
  | None => default_step_count distance
  end.

Definition bezier (t p0 p1 p2 p3 : Q) : Q :=
  (1 - t) ^ 3 * p0 + 3 * (1 - t) ^ 2 * t * p1
  + 3 * (1 - t) * t ^ 2 * p2 + t ^ 3 * p3.

(** The [for i in range(1, step_count + 1)] loop of [_build_path]. *)
Fixpoint sample_points (distance : Q) (step_count : Z)
    (start control1 control2 end_ : Point) (indices : list Z)
    (path : list Point) : M (list Point) :=
  match indices with
  | [] => ret path
  | i :: rest =>
      let t := inject_Z i / inject_Z step_count in
      let x := bezier t (px start) (px control1) (px control2) (px end_) in
      let y := bezier t (py start) (py control1) (py control2) (py end_) in
      let jitter := fmin 6 (fmax 1.2 (distance / 60)) in
      jx <- random_uniform (- jitter) jitter ;;
      jy <- random_uniform (- jitter) jitter ;;
      sample_points distance step_count start control1 control2 end_ rest
        (path ++ [mkPoint (x + jx) (y + jy)])
  end.

(** [_build_path]. *)
Definition _build_path (start end_ : Point) (steps : option Z) : M (list Point) :=
  let distance := math_dist (px start) (py start) (px end_) (py end_) in
  let step_count := step_count_of steps distance in
  let control_scale := fmax (distance * 0.25) 40 in
  let angle := math_atan2 (py end_ - py start) (px end_ - px start) in
  u <- random_uniform (- 0.9) 0.9 ;;
  let control_angle := angle + u in
  let control1 := mkPoint (px start + math_cos control_angle * control_scale)
                          (py start + math_sin control_angle * control_scale) in
  let control2 := mkPoint (px end_ - math_cos control_angle * control_scale)
                          (py end_ - math_sin control_angle * control_scale) in
  path <- sample_points distance step_count start control1 control2 end_
            (range 1 (step_count + 1)) [] ;;
  ret (path ++ [end_]).

(** [for point in path: await self.page.mouse.move(point.x, point.y, steps=1)]. *)
Fixpoint move_along (path : list Point) : M unit :=
  match path with
  | [] => ret tt
  | point :: rest => mouse_move (px point) (py point) 1 ;;; move_along rest
  end.

(** [move_to]. *)
Definition move_to (x y : Q) (record_trace : bool) : M unit :=
  let target := mkPoint x y in
  current <- get_position ;;
  start <- match current with
           | Some p => ret p
           | None => _init_position
           end ;;
  path <- _build_path start target None ;;
  set_human_trace
    (if record_trace
     then Some ((px start, py start) :: map (fun point => (px point, py point)) path)
     else None) ;;;
  move_along path ;;;
  set_position (px target) (py target).

(** [move_direct]: [delay or 0.0] and [steps or 1]. *)
Definition move_direct (x y : Q) (delay : option Q) (steps : option Z) : M unit :=
  current <- get_position ;;
  match current with
  | None => _init_position ;;; ret tt
  | Some _ => ret tt
  end ;;;
  let target := mkPoint x y in
  let pause := fmax 0 (match delay with
                       | Some d => if Qnonzero d then d else 0
                       | None => 0
                       end) in
  (if Qle_bool pause 0 then ret tt else asyncio_sleep pause) ;;;
  let step_count := match steps with
                    | Some s => if (s =? 0)%Z then 1%Z else s
                    | None => 1%Z
                    end in
  mouse_move (px target) (py target) step_count ;;;
  set_position (px target) (py target).

(** [move_points]. *)
Fixpoint move_points (points : list (Q * Q * option Q)) : M unit :=
  match points with
  | [] => ret tt
  | (x, y, delay) :: rest => move_direct x y delay None ;;; move_points rest
  end.

(** [click_here]. *)
Definition click_here (delay_before delay_after : Q) : M unit :=
  (if Qle_bool delay_before 0 then ret tt else asyncio_sleep delay_before) ;;;
  mouse_down ;;;
  mouse_up ;;;
  (if Qle_bool delay_after 0 then ret tt else asyncio_sleep delay_after).

(** [click]. *)
Definition click (x y : Q) (delay_before delay_after : Q) (record_trace : bool)
  : M unit :=
  move_to x y record_trace ;;;
  (if Qle_bool delay_before 0 then ret tt else asyncio_sleep delay_before) ;;;
  mouse_down ;;;
  mouse_up ;;;
  (if Qle_bool delay_after 0 then ret tt else asyncio_sleep delay_after).

(** [drag_and_drop]: [max(10, int(steps * 1.2))] steps on the dragged leg. *)
Definition drag_and_drop (start end_ : Point) (steps : Z) : M unit :=
  move_to (px start) (py start) false ;;;
  mouse_down ;;;
  path <- _build_path start end_
            (Some (Z.max 10 (trunc (inject_Z steps * 1.2)))) ;;
  move_along path ;;;
  mouse_up ;;;
  set_position (px end_) (py end_).

End Controller.

End Motion.

(** ** core/solver.py: answer interpretation *)

Module Solver.

Import Motion.

(** A bounding box as the page reports it: [x], [y], [width], [height]. *)
Record box : Type := mkBox { bx : Q; by_ : Q; bw : Q; bh : Q }.

(** An element handle: its bounding box, when it has one, and the boxes of
    the tiles found under it by [query_selector_all]. *)
Record element : Type := mkElement {
  bounding_box : option box;
  tile_boxes : list (option box)
}.

(** What the queries of [_execute_actions] and of the flat answer paths find
    in the challenge frame. *)
Record frame : Type := mkFrame {
  task_grid : option element;          (* query_selector(".task-grid") *)
  canvases : list element;             (* query_selector_all("canvas") *)
  button_submit : option element;      (* query_selector(".button-submit") *)
  submit_fallback : option element;    (* query_selector('button[type="submit"]') *)
  frame_box : result (option box)      (* frame_element() and its bounding_box() *)
}.

Record solver : Type := mkSolver {
  motion_state : motion;               (* self.motion *)
  last_mouse_position : Q * Q;         (* self.last_mouse_position *)
  token : option string;               (* self.token *)
  _token_event : bool;                  (* self._token_event.is_set() *)
  _response_listener_attached : bool;   (* self._response_listener_attached *)
  failures : list string               (* what log.failure was given *)
}.

Definition S : Type -> Type := Eff solver.

Definition with_motion (ms : motion) (st : solver) : solver :=
  mkSolver ms (last_mouse_position st) (token st) (_token_event st)
    (_response_listener_attached st) (failures st).

(** Run a controller operation on [self.motion]. *)
Definition on_motion {A} (m : Motion.M A) : S A :=
  fun st => match m (motion_state st) with
            | (r, ms) => (r, with_motion ms st)
            end.

Definition _set_last_mouse_position (x y : Q) : S unit :=
  fun st => (Ok tt, mkSolver (motion_state st) (x, y) (token st)
                      (_token_event st) (_response_listener_attached st)
                      (failures st)).

Definition get_token : S (option string) := fun st => (Ok (token st), st).

Definition set_token (t : option string) : S unit :=
  fun st => (Ok tt, mkSolver (motion_state st) (last_mouse_position st) t
                      (_token_event st) (_response_listener_attached st)
                      (failures st)).



Definition log_failure (msg : string) : S unit :=
  fun st => (Ok tt, mkSolver (motion_state st) (last_mouse_position st)
                      (token st) (_token_event st)
                      (_response_listener_attached st) (failures st ++ [msg])).

(** [if self.token]: a token that is set and not the empty string. *)
Definition token_truthy (t : option string) : bool :=
  match t with
  | Some s => negb (String.eqb s "")
  | None => false
  end.

Definition Qlt_bool (a b : Q) : bool := negb (Qle_bool b a).

(** [_point_inside_box]. *)
Definition _point_inside_box (b : box) (x y : Q) : bool :=
  let left := bx b in
  let top := by_ b in
  let right := left + bw b in
  let bottom := top + bh b in
  Qle_bool left x && Qle_bool x right && Qle_bool top y && Qle_bool y bottom.

(** [_find_primary_canvas]: the first canvas with a box of at least
    100 by 100. *)
Fixpoint _find_primary_canvas (cs : list element) : option element :=
  match cs with
  | [] => None
  | canvas :: rest =>
      match bounding_box canvas with
      | None => _find_primary_canvas rest
      | Some b =>
          if Qlt_bool (bw b) 100 || Qlt_bool (bh b) 100
          then _find_primary_canvas rest
          else Some canvas
      end
  end.

Definition string_of_ascii (c : ascii) : string := String c EmptyString.

(** [for entry in v]: a list gives its items, a string its characters, a
    dict its keys; anything else is not iterable. *)
Definition iterate (v : value) : result (list value) :=
  match v with
  | VList l => Ok l
  | VStr s => Ok (map (fun c => VStr (string_of_ascii c)) (list_ascii_of_string s))
  | VDict d => Ok (map (fun kv => VStr (fst kv)) d)
  | _ => Raise TypeError
  end.

(** [isinstance(v, (list, tuple)) and len(v) >= 2], with the items. *)
Definition pair_items (v : value) : option (value * value * list value) :=
  match v with
  | VList (a :: b :: rest) => Some (a, b, rest)
  | _ => None
  end.

Section Interpretation.
Variable str_to_float : string -> option Q.
Variable str_to_int : string -> option Z.

Definition float : value -> result Q := to_float str_to_float.

(** The innermost loop of [_is_canvas_path_relative]: [false] is the
    [return False], [true] lets the scan go on. *)
Fixpoint entries_within (threshold_x threshold_y : Q) (candidates : list value)
  : bool :=
  match candidates with
  | [] => true
  | entry :: rest =>
      match pair_items entry with
      | None => entries_within threshold_x threshold_y rest
      | Some (e0, e1, _) =>
          match float e0 with
          | Raise _ => entries_within threshold_x threshold_y rest
          | Ok px =>
              match float e1 with
              | Raise _ => entries_within threshold_x threshold_y rest
              | Ok py =>
                  if Qlt_bool px (-80) || Qlt_bool py (-80)
                     || Qlt_bool threshold_x px || Qlt_bool threshold_y py
                  then false
                  else entries_within threshold_x threshold_y rest
              end
          end
      end
  end.

(** The choice of [candidates] for one key. *)
Definition candidates_of (points : value) : result (list value) :=
  match points with
  | VList (first :: _) =>
      if is_list first then Ok (match points with VList l => l | _ => [] end)
      else Ok [points]
  | _ => if truthy points then iterate points else Ok []
  end.

(** [for key in ("path", "start", "end")] on one action. *)
Fixpoint keys_within (threshold_x threshold_y : Q) (action : value)
    (keys : list string) : result bool :=
  match keys with
  | [] => Ok true
  | key :: rest =>
      rbind (get action key) (fun points =>
      match points with
      | VNone => keys_within threshold_x threshold_y action rest
      | _ =>
          rbind (candidates_of points) (fun candidates =>
          if entries_within threshold_x threshold_y candidates
          then keys_within threshold_x threshold_y action rest
          else Ok false)
      end)
  end.

Fixpoint actions_within (threshold_x threshold_y : Q) (actions : list value)
  : result bool :=
  match actions with
  | [] => Ok true
  | action :: rest =>
      rbind (keys_within threshold_x threshold_y action ["path"; "start"; "end"])
        (fun ok => if ok then actions_within threshold_x threshold_y rest
                   else Ok false)
  end.

(** [_is_canvas_path_relative]. *)
Definition _is_canvas_path_relative (actions : list value) (root_box : box)
  : result bool :=
  let width := bw root_box in
  let height := bh root_box in
  if Qle_bool width 0 || Qle_bool height 0 then Ok false
  else actions_within (width + 80) (height + 80) actions.

Definition is_canvas_type (request_type : string) : bool :=
  String.eqb request_type "Canvas" || String.eqb request_type "Drag".

(** [point_converter], the closure of [_execute_actions], on converted
    floats. *)
Definition convert_point (request_type : string) (root_box : box)
    (frame_offset_x frame_offset_y : Q) (canvas_relative : bool) (x y : Q)
  : Q * Q :=
  let grid_margin_x := bw root_box * 0.25 + 40 in
  let grid_margin_y := bh root_box * 0.25 + 40 in
  if String.eqb request_type "Grid" then
    let within_x := Qle_bool (- grid_margin_x) x
                    && Qle_bool x (bw root_box + grid_margin_x) in
    let within_y := Qle_bool (- grid_margin_y) y
                    && Qle_bool y (bh root_box + grid_margin_y) in
    if within_x && within_y then (bx root_box + x, by_ root_box + y)
    else (frame_offset_x + x, frame_offset_y + y)
  else if is_canvas_type request_type then
    (if canvas_relative then bx root_box + x else frame_offset_x + x,
     if canvas_relative then by_ root_box + y else frame_offset_y + y)
  else (frame_offset_x + x, frame_offset_y + y).

(** [point_converter(px, py)]: [float] may raise. *)
Definition point_converter (request_type : string) (root_box : box)
    (frame_offset_x frame_offset_y : Q) (canvas_relative : bool)
    (px py : value) : result (Q * Q) :=
  rbind (float px) (fun x =>
  rbind (float py) (fun y =>
  Ok (convert_point request_type root_box frame_offset_x frame_offset_y
        canvas_relative x y))).

(** [_convert_action_path] on the entries of the path. *)
Fixpoint convert_entries (converter : value -> value -> result (Q * Q))
    (entries : list value) : list (Q * Q * option Q) :=
  match entries with
  | [] => []
  | entry :: rest =>
      match pair_items entry with
      | None => convert_entries converter rest
      | Some (e0, e1, tail) =>
          match converter e0 e1 with
          | Raise _ => convert_entries converter rest
          | Ok (x, y) =>
              let delay :=
                match tail with
                | [] => None
                | e2 :: _ =>
                    match float e2 with
                    | Ok d => Some (fmax 0 (d / 1000))
                    | Raise _ => None
                    end
                end in
              (x, y, delay) :: convert_entries converter rest
          end
      end
  end.

Definition _convert_action_path (converter : value -> value -> result (Q * Q))
    (path : value) : result (list (Q * Q * option Q)) :=
  rbind (iterate path) (fun entries => Ok (convert_entries converter entries)).

(** The pointer controller the solver owns, on the solver's page. *)
Variable viewport : option (Q * Q).
Variable uniform : nat -> Q -> Q -> Q.
Variable page_raises : nat -> bool.
Variable math_dist : Q -> Q -> Q -> Q -> Q.
Variable math_cos : Q -> Q.
Variable math_sin : Q -> Q.
Variable math_atan2 : Q -> Q -> Q.

Definition motion_move_direct (x y : Q) (delay : option Q) : S unit :=
  on_motion (Motion.move_direct viewport uniform page_raises x y delay None).
Definition motion_move_points (points : list (Q * Q * option Q)) : S unit :=
  on_motion (Motion.move_points viewport uniform page_raises points).
Definition motion_click_here : S unit :=
  on_motion (Motion.click_here page_raises 0 0).
Definition motion_click (x y : Q) : S unit :=
  on_motion (Motion.click viewport uniform page_raises math_dist math_cos
               math_sin math_atan2 x y 0 0 false).
Definition motion_drag_and_drop (start end_ : Point) (steps : Z) : S unit :=
  on_motion (Motion.drag_and_drop viewport uniform page_raises math_dist
               math_cos math_sin math_atan2 start end_ steps).
Definition page_mouse_down : S unit := on_motion (Motion.mouse_down page_raises).
Definition page_mouse_up : S unit := on_motion (Motion.mouse_up page_raises).
Definition random_uniform (a b : Q) : S Q :=
  on_motion (Motion.random_uniform uniform a b).

(** [_perform_drag_action]; the loop over [path_points[1:]] is the loop of
    [move_points]. *)
Definition _perform_drag_action (path_points : list (Q * Q * option Q)) : S unit :=
  match path_points with
  | [] => ret tt
  | (first_x, first_y, first_delay) :: rest =>
      let initial_delay := match first_delay with Some d => d | None => 0 end in
      motion_move_direct first_x first_y (Some initial_delay) ;;;
      page_mouse_down ;;;
      motion_move_points rest ;;;
      page_mouse_up ;;;
      match last rest (first_x, first_y, first_delay) with
      | (last_x, last_y, _) => _set_last_mouse_position last_x last_y
      end
  end.

(** [_find_grid_tile]: the box of the first tile that contains the point. *)
Fixpoint _find_grid_tile (tiles : list (option box)) (x y : Q) : option box :=
  match tiles with
  | [] => None
  | None :: rest => _find_grid_tile rest x y
  | Some b :: rest =>
      let within_x := Qle_bool (bx b) x && Qle_bool x (bx b + bw b) in
      let within_y := Qle_bool (by_ b) y && Qle_bool y (by_ b + bh b) in
      if within_x && within_y then Some b else _find_grid_tile rest x y
  end.

(** [_click_grid_coordinate]. *)
Definition _click_grid_coordinate (grid : element) (x y : Q) : S unit :=
  match _find_grid_tile (tile_boxes grid) x y with
  | Some b =>
      let target_x := bx b + bw b / 2 in
      let target_y := by_ b + bh b / 2 in
      motion_move_direct target_x target_y None ;;;
      motion_click_here ;;;
      _set_last_mouse_position target_x target_y
  | None =>
      motion_move_direct x y None ;;;
      motion_click_here ;;;
      _set_last_mouse_position x y
  end.

Definition lower_ascii (c : ascii) : ascii :=
  let n := nat_of_ascii c in
  if ((65 <=? n) && (n <=? 90))%nat then ascii_of_nat (n + 32) else c.

Fixpoint lower (s : string) : string :=
  match s with
  | EmptyString => EmptyString
  | String c s' => String (lower_ascii c) (lower s')
  end.

(** [str(action.get("type", "")).lower() == "drag"]: the [str] of a value
    that is not a string never reads [drag]. *)
Definition is_drag_type (type_field : value) : bool :=
  match type_field with
  | VStr s => String.eqb (lower s) "drag"
  | _ => false
  end.

(** The two-point path a drag without [path] gets from [start] and [end]. *)
Definition drag_raw_path (action raw_path : value) : result value :=
  rbind (get action "start") (fun start =>
  rbind (get action "end") (fun end_ =>
  match pair_items start, pair_items end_ with
  | Some (s0, s1, _), Some (e0, e1, _) =>
      rbind (float s0) (fun sx =>
      rbind (float s1) (fun sy =>
      rbind (float e0) (fun ex =>
      rbind (float e1) (fun ey =>
      Ok (VList [VList [VFloat sx; VFloat sy; VInt 20];
                 VList [VFloat ex; VFloat ey; VInt 20]])))))
  | _, _ => Ok raw_path
  end)).

(** The fallback of an action whose path converted to nothing. *)
Definition fallback_path (converter : value -> value -> result (Q * Q))
    (action : value) : result (list (Q * Q * option Q)) :=
  rbind (get action "start") (fun fallback =>
  match pair_items fallback with
  | None => Ok []
  | Some (f0, f1, _) =>
      rbind (converter f0 f1) (fun s =>
      rbind (get action "end") (fun end_fallback =>
      match pair_items end_fallback with
      | None => Ok [(fst s, snd s, Some 0.02)]
      | Some (g0, g1, _) =>
          rbind (converter g0 g1) (fun e =>
          Ok [(fst s, snd s, Some 0.02); (fst e, snd e, Some 0.02)])
      end))
  end).

(** The converted path of one action, lines 654-680. *)
Definition converted_path_of (converter : value -> value -> result (Q * Q))
    (action : value) : result (bool * list (Q * Q * option Q)) :=
  rbind (get action "type") (fun type_field =>
  let is_drag := is_drag_type type_field in
  rbind (get action "path") (fun path_field =>
  let raw_path0 := or_else path_field (VList []) in
  rbind (if is_drag && negb (truthy raw_path0)
         then drag_raw_path action raw_path0 else Ok raw_path0) (fun raw_path =>
  rbind (_convert_action_path converter raw_path) (fun converted =>
  match converted with
  | [] => rbind (fallback_path converter action) (fun fb => Ok (is_drag, fb))
  | _ => Ok (is_drag, converted)
  end)))).

(** One turn of [for action in actions], on the loop variables
    [did_anything] and [last_position]. *)
Definition execute_action (request_type : string) (target_root : element)
    (submit_box : box) (converter : value -> value -> result (Q * Q))
    (action : value) (vars : bool * option (Q * Q))
  : S (bool * option (Q * Q)) :=
  c <- lift (converted_path_of converter action) ;;
  let '(is_drag, converted_path) := c in
  if is_drag then
    _perform_drag_action converted_path ;;;
    ret (match last_opt converted_path with
         | Some (last_x, last_y, _) => (true, Some (last_x, last_y))
         | None => vars
         end)
  else
    match last_opt converted_path with
    | Some (last_x, last_y, _) =>
        motion_move_points converted_path ;;;
        if _point_inside_box submit_box last_x last_y then
          motion_move_direct last_x last_y None ;;;
          motion_click_here ;;;
          _set_last_mouse_position last_x last_y ;;;
          ret (true, Some (last_x, last_y))
        else if String.eqb request_type "Grid" then
          _click_grid_coordinate target_root last_x last_y ;;;
          ret (true, Some (last_x, last_y))
        else
          motion_move_direct last_x last_y None ;;;
          motion_click_here ;;;
          ret (true, Some (last_x, last_y))
    | None =>
        target <- lift (get action "target") ;;
        match pair_items target with
        | Some (t0, t1, _) =>
            t <- lift (converter t0 t1) ;;
            motion_move_direct (fst t) (snd t) None ;;;
            motion_click_here ;;;
            ret (true, Some (fst t, snd t))
        | None => ret vars
        end
    end.

Fixpoint execute_loop (request_type : string) (target_root : element)
    (submit_box : box) (converter : value -> value -> result (Q * Q))
    (actions : list value) (vars : bool * option (Q * Q))
  : S (bool * option (Q * Q)) :=
  match actions with
  | [] => ret vars
  | action :: rest =>
      vars' <- execute_action request_type target_root submit_box converter
                 action vars ;;
      execute_loop request_type target_root submit_box converter rest vars'
  end.

(** The frame offsets: zero unless the frame element reports a box. *)
Definition frame_offset (fr : frame) : Q * Q :=
  match frame_box fr with
  | Ok (Some b) => (bx b, by_ b)
  | _ => (0, 0)
  end.

(** [canvas_relative], computed once before the loop. *)
Definition canvas_relative_of (request_type : string) (actions : list value)
    (root_box : box) : result bool :=
  if is_canvas_type request_type
  then _is_canvas_path_relative actions root_box
  else Ok false.

(** [_execute_actions]. *)
Definition _execute_actions (fr : frame) (request_type : string)
    (actions : list value) : S bool :=
  match actions with
  | [] => ret false
  | _ =>
      let target_root := if String.eqb request_type "Grid" then task_grid fr
                         else _find_primary_canvas (canvases fr) in
      match target_root, button_submit fr with
      | Some root, Some submit =>
          match bounding_box root, bounding_box submit with
          | Some root_box, Some submit_box =>
              let offset := frame_offset fr in
              canvas_relative <- lift (canvas_relative_of request_type actions root_box) ;;
              let converter := point_converter request_type root_box
                                 (fst offset) (snd offset) canvas_relative in
              vars <- execute_loop request_type root submit_box converter
                        actions (false, None) ;;
              match snd vars with
              | Some last_position =>
                  _set_last_mouse_position (fst last_position) (snd last_position)
              | None => ret tt
              end ;;;
              ret (fst vars)
          | _, _ => ret false
          end
      | _, _ => ret false
      end
  end.

(** The body of [for index in indices] in [_click_grid_tiles]. *)
Fixpoint click_tiles (tiles : list (option box)) (indices : list Z) : S unit :=
  match indices with
  | [] => ret tt
  | i :: rest =>
      if (Z.of_nat (List.length tiles) <=? i)%Z then click_tiles tiles rest
      else
        tile <- lift (index tiles i) ;;
        match tile with
        | None => click_tiles tiles rest
        | Some b =>
            offset_x <- random_uniform (- 10) 10 ;;
            offset_y <- random_uniform (- 10) 10 ;;
            let target_x := bx b + bw b / 2 + offset_x in
            let target_y := by_ b + bh b / 2 + offset_y in
            motion_move_direct target_x target_y None ;;;
            motion_click_here ;;;
            _set_last_mouse_position target_x target_y ;;;
            click_tiles tiles rest
        end
  end.

(** [_click_grid_tiles]. *)
Definition _click_grid_tiles (fr : frame) (indices : list Z) : S unit :=
  match task_grid fr with
  | None => ret tt
  | Some grid => click_tiles (tile_boxes grid) indices
  end.

(** [len(v)] and [v[i]] on a decoded value. *)
Definition py_len (v : value) : result nat :=
  match v with
  | VList l => Ok (List.length l)
  | VStr s => Ok (String.length s)
  | VDict d => Ok (List.length d)
  | _ => Raise TypeError
  end.

Definition subscript (v : value) (i : Z) : result value :=
  match v with
  | VList l => index l i
  | VStr s => index (map (fun c => VStr (string_of_ascii c)) (list_ascii_of_string s)) i
  | VDict _ => Raise KeyError
  | _ => Raise TypeError
  end.

Fixpoint click_points (b : box) (points : list value) : S unit :=
  match points with
  | [] => ret tt
  | point :: rest =>
      n <- lift (py_len point) ;;
      if (n <? 2)%nat then click_points b rest
      else
        p0 <- lift (rbind (subscript point 0) float) ;;
        p1 <- lift (rbind (subscript point 1) float) ;;
        let x := bx b + p0 in
        let y := by_ b + p1 in
        motion_click x y ;;;
        _set_last_mouse_position x y ;;;
        click_points b rest
  end.

(** [_click_canvas_points]. *)
Definition _click_canvas_points (fr : frame) (points : list value) : S unit :=
  match _find_primary_canvas (canvases fr) with
  | None => ret tt
  | Some canvas =>
      match bounding_box canvas with
      | None => ret tt
      | Some b => click_points b points
      end
  end.

(** The loop of [_drag_canvas_pairs]: coordinates are taken two at a time,
    a last one without a partner ends the loop. *)
Fixpoint drag_pairs (b : box) (coordinates : list value) : S unit :=
  match coordinates with
  | start_point :: end_point :: rest =>
      match pair_items start_point, pair_items end_point with
      | Some (s0, s1, _), Some (e0, e1, _) =>
          sx <- lift (float s0) ;;
          sy <- lift (float s1) ;;
          ex <- lift (float e0) ;;
          ey <- lift (float e1) ;;
          let start := mkPoint (bx b + sx) (by_ b + sy) in
          let end_ := mkPoint (bx b + ex) (by_ b + ey) in
          motion_drag_and_drop start end_ 35 ;;;
          _set_last_mouse_position (px end_) (py end_) ;;;
          drag_pairs b rest
      | _, _ => drag_pairs b rest
      end
  | _ => ret tt
  end.

(** [_drag_canvas_pairs]. *)
Definition _drag_canvas_pairs (fr : frame) (coordinates : list value) : S unit :=
  match _find_primary_canvas (canvases fr) with
  | None => ret tt
  | Some canvas =>
      match bounding_box canvas with
      | None => ret tt
      | Some b => drag_pairs b coordinates
      end
  end.

(** [isinstance(v, Sequence)] on a decoded value: lists and strings. *)
Definition is_sequence (v : value) : bool :=
  match v with
  | VList _ => true
  | VStr _ => true
  | _ => false
  end.

(** [[int(index) for index in answers]]. *)
Fixpoint to_indices (items : list value) : result (list Z) :=
  match items with
  | [] => Ok []
  | v :: rest =>
      rbind (to_int str_to_int v) (fun i =>
      rbind (to_indices rest) (fun is_ => Ok (i :: is_)))
  end.

(** Lines 571-590 of [_apply_answers], once [answers] is no dict. *)
Definition apply_sequence (fr : frame) (request_type : string) (answers : value)
  : S bool :=
  if negb (is_sequence answers) then ret false
  else
    items <- lift (iterate answers) ;;
    if match items with first :: _ => is_dict first | [] => false end then
      _execute_actions fr request_type items
    else if String.eqb request_type "Grid" then
      indices <- lift (to_indices items) ;;
      _click_grid_tiles fr indices ;;;
      ret true
    else if String.eqb request_type "Canvas" then
      _click_canvas_points fr items ;;;
      ret true
    else if String.eqb request_type "Drag" then
      _drag_canvas_pairs fr items ;;;
      ret true
    else ret false.

(** [_apply_answers]: any exception of the body gives [False]. *)
Definition _apply_answers (fr : frame) (request_type : string) (answers : value)
  : S bool :=
  try_except
    (match answers with
     | VDict d =>
         let actions := or_else (dict_get d "actions") (dict_get d "steps") in
         if is_sequence actions then
           items <- lift (iterate actions) ;;
           _execute_actions fr request_type items
         else
           let answers_list := dict_get d "answers" in
           if is_sequence answers_list then
             items <- lift (iterate answers_list) ;;
             apply_sequence fr request_type (VList items)
           else ret false
     | _ => apply_sequence fr request_type answers
     end)
    (ret false).

End Interpretation.

(** ** core/solver.py: the attempt loop *)

Definition is_space (c : ascii) : bool :=
  let n := nat_of_ascii c in
  ((9 <=? n) && (n <=? 13) || (28 <=? n) && (n <=? 32))%nat.

Fixpoint lstrip (s : string) : string :=
  match s with
  | EmptyString => EmptyString
  | String c s' => if is_space c then lstrip s' else s
  end.

Definition rev_string (s : string) : string :=
  string_of_list_ascii (rev (list_ascii_of_string s)).

(** [s.strip()] on ASCII text. *)
Definition strip (s : string) : string :=
  rev_string (lstrip (rev_string (lstrip s))).


Section AttemptLoop.
Variable api_key : string.
Variable attempt : Z.
Variable intercept_token : bool.
Variable checkbox_frame : Type.

(** What the page and the network listener do while the solver waits; each
    may change the solver's state, the token included. *)
Variable page_route : S unit.                        (* page.route(...) *)
Variable await_token_event : option Q -> S unit.     (* wait_for(event.wait()) *)
Variable page_wait_for_token : Z -> S (option string).
Variable race_sleep_token : Q -> S unit.             (* asyncio.wait(..., FIRST_COMPLETED) *)
Variable _find_challenge_visual_frame : S (option frame).
Variable _find_checkbox_frame : S (option checkbox_frame).
Variable checkbox_click : checkbox_frame -> S unit.
Variable _handle_challenge_round : frame -> S bool.
Variable _click_submit_button : frame -> S unit.

Definition asyncio_sleep (d : Q) : S unit := on_motion (Motion.asyncio_sleep d).


(** [_token_aware_sleep]. *)
Definition _token_aware_sleep (delay : Q) : S unit :=
  fun st =>
    if Qle_bool delay 0 then (Ok tt, st)
    else if negb intercept_token then asyncio_sleep delay st
    else if token_truthy (token st) || _token_event st then (Ok tt, st)
    else race_sleep_token delay st.


(** [_handle_checkbox]: every path with a checkbox frame returns [True]. *)
Definition _handle_checkbox (cf : option checkbox_frame) : S bool :=
  match cf with
  | None => ret false
  | Some f => checkbox_click f ;;; ret true
  end.



End AttemptLoop.

End Solver.

(** ** core/solver.py: what the solver reads off the page *)

Module SolverPage.

Import Motion Solver.

(** [needle in text] on strings. *)
Fixpoint contains (needle text : string) : bool :=
  if String.prefix needle text then true
  else match text with
       | EmptyString => false
       | String _ rest => contains needle rest
       end.

(** [if s] on an optional string: set and not empty. *)
Definition str_truthy (s : option string) : bool :=
  match s with
  | Some text => negb (String.eqb text "")
  | None => false
  end.

Definition set_token_event : S unit :=
  fun st => (Ok tt, mkSolver (motion_state st) (last_mouse_position st)
                      (token st) true (_response_listener_attached st)
                      (failures st)).

(** *** [__init__] *)

(** [random.random()] is an oracle indexed by the number of draws made so
    far; the optional [last_mouse_position] is a dict that may lack [x] or
    [y]. Both draws are made whether or not the default is used. *)
Definition __init__ (viewport : option (Q * Q)) (random_random : nat -> Q)
    (drawn : nat) (last_mouse_position : option (option Q * option Q))
  : solver :=
  let width := match viewport with
               | Some (w, _) => if Qnonzero w then w else 1920
               | None => 1920
               end in
  let height := match viewport with
                | Some (_, h) => if Qnonzero h then h else 1080
                | None => 1080
                end in
  let default_x := width * 0.45 + random_random drawn * width * 0.1 in
  let default_y := height * 0.45 + random_random (Datatypes.S drawn) * height * 0.1 in
  let position :=
    match last_mouse_position with
    | Some (x, y) =>
        (match x with Some v => v | None => default_x end,
         match y with Some v => v | None => default_y end)
    | None => (default_x, default_y)
    end in
  mkSolver (mkMotion None None 0 []) position None false false [].

(** *** The route handler of [_ensure_network_listener] *)

(** What the handler does with the intercepted request. *)
Inductive route_action : Type :=
| RouteContinue
| RouteAbort (error_code : string).

(** [_route_handler]: [url] is [request.url], [fetched] is the outcome of
    [route.fetch()] and, inside it, of [api_response.json()]. *)
Definition _route_handler (url : option string)
    (fetched : result (result value)) : S route_action :=
  let url := match url with Some u => u | None => "" end in
  if negb (contains "checkcaptcha" url) then ret RouteContinue
  else
    match fetched with
    | Raise _ => ret (RouteAbort "failed")
    | Ok (Raise _) => ret (RouteAbort "failed")
    | Ok (Ok data) =>
        token <- lift (get data "generated_pass_UUID") ;;
        match token with
        | VStr text =>
            if negb (String.eqb (strip text) "") then
              set_token (Some (strip text)) ;;; set_token_event
            else ret tt
        | _ => ret tt
        end ;;;
        ret (RouteAbort "failed")
    end.

(** *** Collecting the challenge *)

(** The challenge frame as [_collect_challenge_data] sees it: the elements
    of the frame, the text of the prompt, the number of
    [.task-grid .image] elements, whether there is a [.challenge-header],
    what [_element_to_base64] gives for an element at a quality (none when
    the screenshot fails) and what [_collect_example_images] gives for a
    selector. *)
Record challenge : Type := mkChallenge {
  dom : frame;
  prompt_text : option string;
  grid_images : nat;
  challenge_header : bool;
  _element_to_base64 : element -> Z -> option string;
  _collect_example_images : string -> list string
}.

Section Collect.
(** [round(x, 2)]. *)
Variable round2 : Q -> Q.

(** [_build_human_move_payload]. *)
Definition _build_human_move_payload (fr : frame)
  : S (option (list (list Q))) :=
  fun st =>
    let frame_offset_x := fst (frame_offset fr) in
    let frame_offset_y := snd (frame_offset fr) in
    let '(start_x, start_y) :=
      match current_position (motion_state st) with
      | Some current => current
      | None => last_mouse_position st
      end in
    let submit_button := match button_submit fr with
                         | Some e => Some e
                         | None => submit_fallback fr
                         end in
    match submit_button with
    | None => (Ok None, st)
    | Some submit_button =>
        match bounding_box submit_button with
        | None => (Ok None, st)
        | Some submit_box =>
            let submit_center_x := bx submit_box + bw submit_box / 2 in
            let submit_center_y := by_ submit_box + bh submit_box / 2 in
            let start_point :=
              [fmax 0 (round2 (start_x - frame_offset_x));
               fmax 0 (round2 (start_y - frame_offset_y))] in
            let end_point :=
              [fmax 0 (round2 (submit_center_x - frame_offset_x));
               fmax 0 (round2 (submit_center_y - frame_offset_y))] in
            (Ok (Some [start_point; end_point]), st)
        end
    end.

(** [_collect_grid_challenge]. *)
Definition _collect_grid_challenge (c : challenge) (question : string)
  : S (option (list (string * value))) :=
  match task_grid (dom c) with
  | None => ret None
  | Some grid =>
      if negb (grid_images c =? 9)%nat then ret None
      else
        asyncio_sleep 1 ;;;
        let body := _element_to_base64 c grid 90 in
        if negb (str_truthy body) then ret None
        else
          let examples := _collect_example_images c ".challenge-example .image" in
          ret (Some [("question", VStr question);
                     ("request_type", VStr "Grid");
                     ("body", VStr (match body with Some b => b | None => "" end));
                     ("examples", VList (map VStr examples))])
  end.

(** [_collect_canvas_challenge]. *)
Definition _collect_canvas_challenge (c : challenge) (question : string)
  : S (option (list (string * value))) :=
  match _find_primary_canvas (canvases (dom c)) with
  | None => ret None
  | Some canvas =>
      asyncio_sleep 1 ;;;
      let body := _element_to_base64 c canvas 92 in
      if negb (str_truthy body) then ret None
      else
        let has_header := challenge_header c in
        let question_lower := lower question in
        let is_canvas := has_header && negb (contains "drag" question_lower) in
        let request_type := if is_canvas then "Canvas" else "Drag" in
        let examples := _collect_example_images c ".example-wrapper .image" in
        ret (Some [("question", VStr question);
                   ("request_type", VStr request_type);
                   ("body", VStr (match body with Some b => b | None => "" end));
                   ("examples", VList (map VStr examples))])
  end.

(** [_collect_challenge_data]: [self.challenge_frame] is the argument. *)
Definition _collect_challenge_data (challenge_frame : option challenge)
  : S (option (list (string * value))) :=
  match challenge_frame with
  | None => ret None
  | Some c =>
      if negb (str_truthy (prompt_text c)) then ret None
      else
        let question := match prompt_text c with Some q => q | None => "" end in
        grid_payload <- _collect_grid_challenge c question ;;
        payload <- match grid_payload with
                   | Some p => ret (Some p)
                   | None => _collect_canvas_challenge c question
                   end ;;
        match payload with
        | None => ret None
        | Some p =>
            human_move_payload <- _build_human_move_payload (dom c) ;;
            match human_move_payload with
            | Some points =>
                ret (Some (p ++ [("humanMove",
                                  VList (map (fun point => VList (map VFloat point))
                                           points))]))
            | None => ret (Some p)
            end
        end
  end.

End Collect.

Section Submit.
Variable viewport : option (Q * Q).
Variable uniform : nat -> Q -> Q -> Q.
Variable page_raises : nat -> bool.
Variable math_dist : Q -> Q -> Q -> Q -> Q.
Variable math_cos : Q -> Q.
Variable math_sin : Q -> Q.
Variable math_atan2 : Q -> Q -> Q.

(** [_click_submit_button]. *)
Definition _click_submit_button (fr : frame) : S unit :=
  let submit := match button_submit fr with
                | Some e => Some e
                | None => submit_fallback fr
                end in
  match submit with
  | None => ret tt
  | Some submit =>
      match bounding_box submit with
      | None => ret tt
      | Some b =>
          let target_x := bx b + bw b / 2 in
          let target_y := by_ b + bh b / 2 in
          motion_click viewport uniform page_raises math_dist math_cos
            math_sin math_atan2 target_x target_y ;;;
          _set_last_mouse_position target_x target_y
      end
  end.

End Submit.

(** *** [_handle_checkbox], with the service and the pointer *)

(** The attempt loop above takes the click on the checkbox as a step of
    the page; here the body of the method is followed call by call. *)

(** The [#checkbox] element: its [aria-checked] attribute and its box. *)
Record checkbox : Type := mkCheckbox {
  aria_checked : option string;
  checkbox_box : option box
}.

(** The solver together with its API client's side of the network. *)
Record world : Type := mkWorld {
  solver_of : solver;
  net_of : ApiService.net
}.

(** Run a step of the solver in the world. *)
Definition in_solver {A} (m : S A) : Eff world A :=
  fun w => match m (solver_of w) with
           | (r, s) => (r, mkWorld s (net_of w))
           end.

Section Checkbox.
Variable transport : nat -> ApiService.request -> result ApiService.response.
Variable api_key : string.
Variable base_url : string.
Variable poll_interval : Q.
Variable max_wait_time : Q.
Variable str_to_float : string -> option Q.
Variable viewport : option (Q * Q).
Variable uniform : nat -> Q -> Q -> Q.
Variable page_raises : nat -> bool.
Variable math_dist : Q -> Q -> Q -> Q -> Q.
Variable math_cos : Q -> Q.
Variable math_sin : Q -> Q.
Variable math_atan2 : Q -> Q -> Q.

(** [[(px, py, (delay_ms or 0.0) / 1_000) for px, py, delay_ms in human_path]]. *)
Definition trace_of (human_path : list (Q * Q * Q)) : list (Q * Q * option Q) :=
  map (fun entry =>
         match entry with
         | (px, py, delay_ms) =>
             (px, py, Some ((if Qnonzero delay_ms then delay_ms else 0) / 1000))
         end) human_path.

(** [_handle_checkbox]: [self.checkbox_frame] is the argument, none when
    there is no frame, and inside it the [#checkbox] element when the frame
    has one. [fuel] bounds the polls of [request_human_move] as in
    [wait_for_result]; the result is none when it runs out. *)
Definition _handle_checkbox (fuel : nat)
    (checkbox_frame : option (option checkbox)) (w : world)
  : option (result bool * world) :=
  match checkbox_frame with
  | None => Some (Ok false, w)
  | Some None =>
      Some ((in_solver (asyncio_sleep 0.5) ;;; ret true) w)
  | Some (Some checkbox) =>
      if match aria_checked checkbox with
         | Some a => String.eqb a "true"
         | None => false
         end
      then Some ((in_solver (asyncio_sleep 0.5) ;;; ret true) w)
      else
        match checkbox_box checkbox with
        | None => Some ((in_solver (asyncio_sleep 0.5) ;;; ret true) w)
        | Some b =>
            let target_x := bx b + bw b / 2 in
            let target_y := by_ b + bh b / 2 in
            let '(start_x, start_y) := last_mouse_position (solver_of w) in
            match ApiService.request_human_move transport api_key base_url
                    poll_interval max_wait_time str_to_float fuel
                    [(start_x, start_y); (target_x, target_y)] (net_of w) with
            | None => None
            | Some (Raise e, n) => Some (Raise e, mkWorld (solver_of w) n)
            | Some (Ok human_path, n) =>
                Some ((in_solver
                         (match human_path with
                          | Some ((first :: rest) as path) =>
                              on_motion (mouse_move page_raises start_x start_y 1) ;;;
                              on_motion (set_position start_x start_y) ;;;
                              motion_move_points viewport uniform page_raises
                                (trace_of path) ;;;
                              motion_click_here page_raises ;;;
                              match last rest first with
                              | (last_x, last_y, _) =>
                                  _set_last_mouse_position last_x last_y
                              end
                          | _ =>
                              motion_click viewport uniform page_raises
                                math_dist math_cos math_sin math_atan2
                                target_x target_y ;;;
                              _set_last_mouse_position target_x target_y
                          end ;;;
                          asyncio_sleep 0.8) ;;;
                       ret true) (mkWorld (solver_of w) n))
            end
        end
  end.

End Checkbox.

(** *** [_handle_challenge_round] *)

(** What the three [evaluate] calls of a round give: the text of the
    language button (or null), the click on the English option, and
    whether the last crumb is lit; each may raise. *)
Record round_view : Type := mkRoundView {
  display_language : result (option string);
  select_english : result unit;
  last_crumb : result bool
}.

(** [_ensure_english_language]: every exception is swallowed. *)
Definition _ensure_english_language (view : round_view) : S unit :=
  try_except
    (current_lang <- lift (display_language view) ;;
     if match current_lang with
        | Some text => String.eqb text "EN"
        | None => false
        end
     then ret tt
     else lift (select_english view) ;;; asyncio_sleep 0.2)
    (ret tt).

(** [_is_last_task]: [True] when the evaluation raises. *)
Definition _is_last_task (view : round_view) : S bool :=
  try_except (lift (last_crumb view)) (ret true).

(** Run a step of the API client in the world. *)
Definition in_net {A} (m : ApiService.M A) : Eff world A :=
  fun w => match m (net_of w) with
           | (r, n) => (r, mkWorld (solver_of w) n)
           end.

Section Round.
Variable transport : nat -> ApiService.request -> result ApiService.response.
Variable api_key : string.
Variable base_url : string.
Variable poll_interval : Q.
Variable max_wait_time : Q.
Variable str_to_float : string -> option Q.
Variable str_to_int : string -> option Z.
Variable viewport : option (Q * Q).
Variable uniform : nat -> Q -> Q -> Q.
Variable page_raises : nat -> bool.
Variable math_dist : Q -> Q -> Q -> Q -> Q.
Variable math_cos : Q -> Q.
Variable math_sin : Q -> Q.
Variable math_atan2 : Q -> Q -> Q.
Variable round2 : Q -> Q.
Variable intercept_token : bool.
Variable race_sleep_token : Q -> S unit.
(** [str(v)] of a value that is no string. *)
Variable py_str : value -> string.
(** What the route handler has done to the solver by the time the round
    reads [self.token] for the k-th time: it runs while the round awaits. *)
Variable listener : nat -> solver -> solver.

Definition heard (k : nat) : S unit := fun st => (Ok tt, listener k st).

(** The round from [if self.token] after the answers arrived. *)
Definition apply_and_rest (c : challenge) (view : round_view)
    (request_type : string) (answers : value) : S bool :=
  heard 0 ;;;
  tok <- get_token ;;
  if token_truthy tok then ret true
  else
    applied <- _apply_answers str_to_float str_to_int viewport uniform
                 page_raises math_dist math_cos math_sin math_atan2
                 (dom c) request_type answers ;;
    if negb applied then ret false
    else
      heard 1 ;;;
      tok <- get_token ;;
      if token_truthy tok then ret true
      else
        last_task <- _is_last_task view ;;
        let delay := if last_task then 5 else 1 in
        heard 2 ;;;
        tok <- get_token ;;
        if token_truthy tok then ret true
        else
          _token_aware_sleep intercept_token race_sleep_token delay ;;;
          ret true.

(** [_handle_challenge_round]: [self.challenge_frame] is the argument;
    [fuel] bounds the polls of [wait_for_result], the result is none when
    it runs out. *)
Definition _handle_challenge_round (fuel : nat)
    (challenge_frame : option challenge) (view : round_view) (w : world)
  : option (result bool * world) :=
  match challenge_frame with
  | None => Some (Ok false, w)
  | Some c =>
      match in_solver (_ensure_english_language view ;;;
                       _collect_challenge_data round2 challenge_frame) w with
      | (Raise e, w1) => Some (Raise e, w1)
      | (Ok None, w1) => Some (Ok false, w1)
      | (Ok (Some []), w1) => Some (Ok false, w1)
      | (Ok (Some task_payload), w1) =>
          let request_type :=
            match or_else (dict_get task_payload "request_type") (VStr "") with
            | VStr text => text
            | other => py_str other
            end in
          match in_net (ApiService.create_task transport api_key base_url
                          (VDict task_payload) "hCaptchaBase64") w1 with
          | (Raise e, w2) => Some (Raise e, w2)
          | (Ok None, w2) => Some (Ok false, w2)
          | (Ok (Some task_id), w2) =>
              if negb (truthy task_id) then Some (Ok false, w2)
              else
                match ApiService.wait_for_result transport api_key base_url
                        poll_interval max_wait_time fuel task_id false
                        (net_of w2) with
                | None => None
                | Some (Raise e, n) => Some (Raise e, mkWorld (solver_of w2) n)
                | Some (Ok None, n) =>
                    Some (Ok false, mkWorld (solver_of w2) n)
                | Some (Ok (Some answers), n) =>
                    if negb (truthy answers)
                    then Some (Ok false, mkWorld (solver_of w2) n)
                    else Some (in_solver
                                 (apply_and_rest c view request_type answers)
                                 (mkWorld (solver_of w2) n))
                end
          end
      end
  end.

End Round.

End SolverPage.


(** * Properties *)

(** ** Vocabulary of the statements *)

Module Claims.

Import ApiService.



Definition answers_of (r : result response) : value :=
  match r with
  | Ok resp => match resp_json resp with
               | Ok (VDict d) => dict_get d "answers"
               | _ => VNone
               end
  | Raise _ => VNone
  end.




(** A service that answers every request with status [processing]. *)
Definition always_processing (k : nat) (r : request) : result response :=
  Ok (mkResponse true 200 (Ok (VDict [("status", VStr "processing")]))).







(** A service that creates task [t1] and answers the first poll with the
    given segments. *)
Definition human_move_service (segments : list value) (k : nat) (r : request)
  : result response :=
  match k with
  | O => Ok (mkResponse true 200 (Ok (VDict [("taskId", VStr "t1")])))
  | _ => Ok (mkResponse true 200
               (Ok (VDict [("status", VStr "ready");
                           ("answers", VList segments)])))
  end.


(** A path with two well-formed entries among three that fail the check,
    and a segment that is no object. *)
Definition mixed_segments : list value :=
  [VDict [("path", VList [VList [VInt 10; VInt 10; VInt 0];
                          VInt 7;
                          VList [VInt 50];
                          VNone;
                          VList [VInt 50; VInt 60; VInt 120]])];
   VStr "junk"].

(** A service that answers with HTTP 200 and the JSON body [[]]. *)
Definition list_body_service (k : nat) (r : request) : result response :=
  Ok (mkResponse true 200 (Ok (VList []))).


(** [clamp(v, lo, hi)]. *)
Definition clamp (v lo hi : Z) : Z := Z.max lo (Z.min hi v).

(** The pointer operations that move the pointer, with their arguments. *)
Inductive pointer_op : Type :=
| OpMoveTo (x y : Q) (record_trace : bool)
| OpMoveDirect (x y : Q) (delay : option Q) (steps : option Z)
| OpMovePoints (points : list (Q * Q * option Q))
| OpClick (x y : Q) (delay_before delay_after : Q) (record_trace : bool)
| OpDragAndDrop (start end_ : Motion.Point) (steps : Z).

(** The point the operation is asked to reach; replaying an empty list of
    points asks for none. *)
Definition target_of (op : pointer_op) : option Motion.Point :=
  match op with
  | OpMoveTo x y _ => Some (Motion.mkPoint x y)
  | OpMoveDirect x y _ _ => Some (Motion.mkPoint x y)
  | OpMovePoints points =>
      match last_opt points with
      | Some (x, y, _) => Some (Motion.mkPoint x y)
      | None => None
      end
  | OpClick x y _ _ _ => Some (Motion.mkPoint x y)
  | OpDragAndDrop _ end_ _ => Some end_
  end.

Section PointerOps.
Variable viewport : option (Q * Q).
Variable uniform : nat -> Q -> Q -> Q.
Variable page_raises : nat -> bool.
Variable math_dist : Q -> Q -> Q -> Q -> Q.
Variable math_cos : Q -> Q.
Variable math_sin : Q -> Q.
Variable math_atan2 : Q -> Q -> Q.

Definition run_op (op : pointer_op) : Motion.M unit :=
  match op with
  | OpMoveTo x y record_trace =>
      Motion.move_to viewport uniform page_raises math_dist math_cos math_sin
        math_atan2 x y record_trace
  | OpMoveDirect x y delay steps =>
      Motion.move_direct viewport uniform page_raises x y delay steps
  | OpMovePoints points =>
      Motion.move_points viewport uniform page_raises points
  | OpClick x y delay_before delay_after record_trace =>
      Motion.click viewport uniform page_raises math_dist math_cos math_sin
        math_atan2 x y delay_before delay_after record_trace
  | OpDragAndDrop start end_ steps =>
      Motion.drag_and_drop viewport uniform page_raises math_dist math_cos
        math_sin math_atan2 start end_ steps
  end.
End PointerOps.

(** A page that never raises, a generator that draws the lower bound, and
    flat stand-ins for the functions of [math]. *)
Definition calm_page (k : nat) : bool := false.
Definition draw_low (k : nat) (a b : Q) : Q := a.
Definition manhattan (x1 y1 x2 y2 : Q) : Q :=
  fmax (x2 - x1) (x1 - x2) + fmax (y2 - y1) (y1 - y2).
Definition flat (x : Q) : Q := 0.
Definition flat2 (y x : Q) : Q := 0.






Section Representation.
Variable str_to_float : string -> option Q.




End Representation.

(** Inside the grid's bounds expanded, on each side, by 25% of the
    dimension plus 40 units. *)
Definition in_expanded_grid (grid : Solver.box) (x y : Q) : Prop :=
  - (0.25 * Solver.bw grid + 40) <= x
  /\ x <= Solver.bw grid + (0.25 * Solver.bw grid + 40)
  /\ - (0.25 * Solver.bh grid + 40) <= y
  /\ y <= Solver.bh grid + (0.25 * Solver.bh grid + 40).

(** A challenge frame at (3, 4): a 100 by 100 grid at (10, 20) with two
    tiles, a 300 by 200 canvas at (10, 20), the submit control at
    (200, 400), 80 by 30. *)
Definition demo_frame : Solver.frame :=
  Solver.mkFrame
    (Some (Solver.mkElement (Some (Solver.mkBox 10 20 100 100))
             [Some (Solver.mkBox 10 20 30 30); Some (Solver.mkBox 45 20 30 30)]))
    [Solver.mkElement (Some (Solver.mkBox 10 20 300 200)) []]
    (Some (Solver.mkElement (Some (Solver.mkBox 200 400 80 30)) []))
    None
    (Ok (Some (Solver.mkBox 3 4 400 600))).

Definition demo_grid : Solver.element :=
  Solver.mkElement (Some (Solver.mkBox 10 20 100 100))
    [Some (Solver.mkBox 10 20 30 30); Some (Solver.mkBox 45 20 30 30)].

Definition demo_submit_box : Solver.box := Solver.mkBox 200 400 80 30.

(** A solver whose pointer rests at (1, 1). *)
Definition demo_solver : Solver.solver :=
  Solver.mkSolver (Motion.mkMotion (Some (Motion.mkPoint 1 1)) None 0 [])
    (1, 1) None false false [].

(** A click whose path ends, frame-relative, on the submit control. *)
Definition click_onto_submit : value :=
  VDict [("type", VStr "click");
         ("path", VList [VList [VInt 5; VInt 5]; VList [VInt 207; VInt 406]])].

(** A drag whose path ends, frame-relative, on the submit control. *)
Definition drag_onto_submit : value :=
  VDict [("type", VStr "drag");
         ("path", VList [VList [VInt 5; VInt 5]; VList [VInt 207; VInt 406]])].



Definition no_parse (s : string) : option Q := None.
Definition no_parse_int (s : string) : option Z := None.


Definition idle_for (d : Q) : Solver.S unit := ret tt.





(** A poll answer that reports [ready], with answers or without. *)
Definition reports_ready (r : result response) : bool :=
  match r with
  | Ok resp =>
      resp_ok resp &&
      match resp_json resp with
      | Ok (VDict d) =>
          negb (truthy (dict_get d "errorId"))
          && is_str (dict_get d "status") "ready"
      | _ => false
      end
  | Raise _ => false
  end.


(** The decoded body of a successful response, when it is an object. *)
Definition body_of (r : result response) : value :=
  match r with
  | Ok resp => match resp_json resp with
               | Ok data => data
               | Raise _ => VNone
               end
  | Raise _ => VNone
  end.

Definition is_log (e : event) : bool :=
  match e with
  | LogFailure _ => true
  | _ => false
  end.

(** A service that creates task [t1], answers [processing] to the first
    poll and [failed] to the second. *)
Definition failing_service (k : nat) (r : request) : result response :=
  match k with
  | 0%nat => Ok (mkResponse true 200 (Ok (VDict [("taskId", VStr "t1")])))
  | 1%nat => always_processing k r
  | _ => Ok (mkResponse true 200 (Ok (VDict [("status", VStr "failed")])))
  end.

(** A service whose first answer is [ready] with no answers field. *)
Definition ready_without_answers (k : nat) (r : request) : result response :=
  Ok (mkResponse true 200 (Ok (VDict [("status", VStr "ready")]))).

(** [random.uniform(a, b)] stays between its bounds. *)
Definition uniform_in_range (uniform : nat -> Q -> Q -> Q) : Prop :=
  forall (k : nat) (a b : Q), a <= b -> a <= uniform k a b /\ uniform k a b <= b.

(** One single-step low-level move per point. *)
Definition moves_of (path : list Motion.Point) : list Motion.page_call :=
  map (fun p => Motion.MouseMove (Motion.px p) (Motion.py p) 1) path.

(** The pause [move_direct] makes for a delay: none unless it is positive. *)
Definition pause_of (delay : option Q) : list Motion.page_call :=
  match delay with
  | Some d => if Qle_bool d 0 then [] else [Motion.AsyncSleep d]
  | None => []
  end.

(** What replaying one point costs on a placed pointer. *)
Definition replay_of (point : Q * Q * option Q) : list Motion.page_call :=
  match point with
  | (x, y, delay) => pause_of delay ++ [Motion.MouseMove x y 1]
  end.

(** Within [r] of each other on both axes. *)
Definition near (r : Q) (x y x0 y0 : Q) : Prop :=
  - r <= x - x0 /\ x - x0 <= r /\ - r <= y - y0 /\ y - y0 <= r.

(** A generator that draws the middle of the range. *)
Definition draw_middle (k : nat) (a b : Q) : Q := (a + b) / 2.

(** A page whose third call raises. *)
Definition third_call_raises (k : nat) : bool := (k =? 2)%nat.

(** A canvas the solver passes over: it has no box, or its box is under 100
    units wide or high. *)
Definition passed_over (e : Solver.element) : Prop :=
  match Solver.bounding_box e with
  | None => True
  | Some b => Solver.bw b < 100 \/ Solver.bh b < 100
  end.

(** The centre of a box. *)
Definition centre (b : Solver.box) : Q * Q :=
  (Solver.bx b + Solver.bw b / 2, Solver.by_ b + Solver.bh b / 2).

(** The point lies on the box, its edges included. *)
Definition holds (b : Solver.box) (x y : Q) : Prop :=
  Solver.bx b <= x /\ x <= Solver.bx b + Solver.bw b
  /\ Solver.by_ b <= y /\ y <= Solver.by_ b + Solver.bh b.

(** A tile that does not hold the point, or has no box. *)
Definition misses (x y : Q) (tile : option Solver.box) : Prop :=
  match tile with
  | Some b => ~ holds b x y
  | None => True
  end.

(** One single-step move to a point, button down, button up. *)
Definition click_at (t : Q * Q) : list Motion.page_call :=
  [Motion.MouseMove (fst t) (snd t) 1; Motion.MouseDown; Motion.MouseUp].


(** A converter that reads two numbers as they are. *)
Definition plain_converter (vx vy : value) : result (Q * Q) :=
  rbind (to_float no_parse vx) (fun x =>
  rbind (to_float no_parse vy) (fun y => Ok (x, y))).

(** The solver's pointer after a gesture: placed at [pos], with [k] more
    draws and the calls [cs] appended. *)
Definition pointer_after (st : Solver.solver) (pos : option Motion.Point)
    (k : nat) (cs : list Motion.page_call) : Motion.motion :=
  Motion.mkMotion pos (Motion._human_trace (Solver.motion_state st))
    (Motion.draws (Solver.motion_state st) + k)
    (Motion.calls (Solver.motion_state st) ++ cs).

(** The element [_click_submit_button] and [_build_human_move_payload]
    take for the submit control: [.button-submit], and
    [button[type=submit]] only when there is no [.button-submit]. *)
Definition submit_control (fr : Solver.frame) (e : Solver.element) : Prop :=
  Solver.button_submit fr = Some e
  \/ (Solver.button_submit fr = None /\ Solver.submit_fallback fr = Some e).

(** No submit control, or one without a box. *)
Definition no_submit_box (fr : Solver.frame) : Prop :=
  (Solver.button_submit fr = None /\ Solver.submit_fallback fr = None)
  \/ exists e, submit_control fr e /\ Solver.bounding_box e = None.

(** A frame with no [.button-submit] but a [button[type=submit]] at
    (200, 400), 80 by 30, a grid and a canvas. *)
Definition fallback_frame : Solver.frame :=
  Solver.mkFrame
    (Some demo_grid)
    [Solver.mkElement (Some (Solver.mkBox 10 20 300 200)) []]
    None
    (Some (Solver.mkElement (Some demo_submit_box) []))
    (Ok (Some (Solver.mkBox 3 4 400 600))).

(** Rounding that keeps the number as it is. *)
Definition keep (q : Q) : Q := q.

(** A screenshot that always succeeds. *)
Definition shot (e : Solver.element) (quality : Z) : option string :=
  Some "aGVsbG8=".

Definition no_examples (selector : string) : list string := [].

(** A challenge frame with nine grid images, a canvas and a header. *)
Definition demo_challenge (question : string) (images : nat)
  : SolverPage.challenge :=
  SolverPage.mkChallenge demo_frame (Some question) images true shot
    no_examples.

(** [random.random()] drawing one half. *)
Definition draw_half (k : nat) : Q := 1 # 2.

(** A service that answers every request with HTTP 500. *)
Definition down_service (k : nat) (r : request) : result response :=
  Ok (mkResponse false 500 (Raise ValueError)).

(** An unchecked checkbox, 30 by 30 at (10, 20). *)
Definition demo_checkbox : SolverPage.checkbox :=
  SolverPage.mkCheckbox (Some "false") (Some (Solver.mkBox 10 20 30 30)).

(** The demo solver and a client that has not posted yet. *)
Definition demo_world : SolverPage.world :=
  SolverPage.mkWorld demo_solver (mkNet 0 []).

(** A round whose language is already English and whose last crumb is
    lit. *)
Definition english_view : SolverPage.round_view :=
  SolverPage.mkRoundView (Ok (Some "EN")) (Ok tt) (Ok true).

(** A route handler that never fires. *)
Definition silent (k : nat) (st : Solver.solver) : Solver.solver := st.

Definition no_str (v : value) : string := "".

End Claims.

(** ** Runs that complete *)

Module EffFacts.

(** A sequence completes only if its first part does. *)
Lemma bind_ok_inv {S A B : Type} (m : Eff S A) (f : A -> Eff S B)
    (st st' : S) (b : B) :
  bind m f st = (Ok b, st') ->
  exists a st1, m st = (Ok a, st1) /\ f a st1 = (Ok b, st').
Proof.
  unfold bind. destruct (m st) as [[a | e] st1]; intros H.
  - exists a, st1. auto.
  - discriminate.
Qed.

Lemma ret_ok_inv {S A : Type} (a b : A) (st st' : S) :
  ret a st = (Ok b, st') -> b = a /\ st' = st.
Proof. unfold ret. intros H. inversion H. auto. Qed.

Ltac bind_inv H :=
  let a := fresh "a" in
  let s := fresh "s" in
  let H1 := fresh "Hrun" in
  apply bind_ok_inv in H; destruct H as (a & s & H1 & H).

End EffFacts.

(** ** The polling client *)

Module ApiFacts.

Import ApiService Claims.

Section Polling.
Variable transport : nat -> request -> result response.
Variable api_key : string.
Variable base_url : string.
Variable poll_interval : Q.
Variable max_wait_time : Q.









End Polling.





End ApiFacts.
(** ** Task creation and the natural-path request *)

Module ClientFacts.

Import ApiService Claims.


Section Normalisation.
Variable str_to_float : string -> option Q.






End Normalisation.



Section CreateTask.
Variable transport : nat -> request -> result response.
Variable api_key : string.
Variable base_url : string.

(** The failures that [create_task] turns into none, each with its log
    line, and the one way it returns an identifier. *)
Lemma create_task_listed_outcomes (payload : value) (task_type : string)
    (st : net) :
  let req := create_request api_key base_url task_type payload in
  let st1 := mkNet (S (posts st)) (trace st ++ [Post req]) in
  let logged msg := mkNet (posts st1) (trace st1 ++ [LogFailure msg]) in
  match transport (posts st) req with
  | Raise _ =>
      create_task transport api_key base_url payload task_type st
      = (Ok None, logged "Failed to create task")
  | Ok resp =>
      if negb (resp_ok resp) then
        create_task transport api_key base_url payload task_type st
        = (Ok None, logged "Multibot API returned HTTP")
      else
        match resp_json resp with
        | Ok (VDict d) =>
            if truthy (dict_get d "errorId") then
              create_task transport api_key base_url payload task_type st
              = (Ok None, logged "createTask error")
            else if truthy (dict_get d "taskId") then
              create_task transport api_key base_url payload task_type st
              = (Ok (Some (dict_get d "taskId")), st1)
            else
              create_task transport api_key base_url payload task_type st
              = (Ok None, logged "Multibot API response did not include taskId")
        | Ok _ =>
            create_task transport api_key base_url payload task_type st
            = (Raise AttributeError, st1)
        | Raise e =>
            create_task transport api_key base_url payload task_type st
            = (Raise e, st1)
        end
  end.
Proof.
  cbv zeta. unfold create_task, post.
  destruct (transport (posts st) (create_request api_key base_url task_type payload))
    as [[ok code [data | e]] | e]; cbn [resp_ok resp_json]; try reflexivity;
    destruct ok; cbn [negb]; try reflexivity.
  destruct data; try reflexivity.
  unfold bind, lift, ret. cbn [get].
  destruct (truthy (dict_get d "errorId")); [reflexivity |].
  destruct (truthy (dict_get d "taskId")); reflexivity.
Qed.

End CreateTask.

(** C2 at a failing input: a successful response whose JSON body is not an
    object makes [create_task] raise, where the claim has it return none. *)
Theorem create_task_raises_on_list_body :
  create_task list_body_service "key" "https://api.multibot.in"
    (VDict [("question", VStr "q")]) "hCaptchaBase64" (mkNet 0 [])
  = (Raise AttributeError,
     mkNet 1 [Post (create_request "key" "https://api.multibot.in"
                      "hCaptchaBase64" (VDict [("question", VStr "q")]))]).
Proof. reflexivity. Qed.

End ClientFacts.
(** ** The pointer controller *)

Module MotionFacts.

Import Motion Claims EffFacts.

Section Controller.
Variable viewport : option (Q * Q).
Variable uniform : nat -> Q -> Q -> Q.
Variable page_raises : nat -> bool.
Variable math_dist : Q -> Q -> Q -> Q -> Q.
Variable math_cos : Q -> Q.
Variable math_sin : Q -> Q.
Variable math_atan2 : Q -> Q -> Q.

Lemma range_length (lo hi : Z) : List.length (range lo hi) = Z.to_nat (hi - lo).
Proof. unfold range. rewrite length_map, length_seq. reflexivity. Qed.

(** The sampling loop never raises and adds one point per index. *)
Lemma sample_points_appends (distance : Q) (step_count : Z)
    (start control1 control2 end_ : Point) (indices : list Z) :
  forall path st,
  exists sampled st',
    sample_points uniform distance step_count start control1 control2 end_
      indices path st = (Ok (path ++ sampled), st')
    /\ List.length sampled = List.length indices.
Proof.
  induction indices as [| i rest IH]; intros path st.
  - exists [], st. cbn. rewrite app_nil_r. auto.
  - cbn [sample_points]. unfold bind at 1. unfold random_uniform at 1.
    unfold bind at 1. unfold random_uniform at 1.
    match goal with
    | |- context [sample_points _ _ _ _ _ _ _ rest (path ++ [?p]) ?s] =>
        destruct (IH (path ++ [p]) s) as (sampled & st' & Hrun & Hlen);
        exists (p :: sampled), st'
    end.
    rewrite Hrun, <- app_assoc. cbn. auto.
Qed.

Lemma build_path_shape (start end_ : Point) (steps : option Z) (st : motion) :
  exists sampled st',
    _build_path uniform math_dist math_cos math_sin math_atan2 start end_ steps st
    = (Ok (sampled ++ [end_]), st')
    /\ List.length sampled
       = Z.to_nat (step_count_of steps
                     (math_dist (px start) (py start) (px end_) (py end_))).
Proof.
  unfold _build_path. cbv zeta. unfold bind at 1. unfold random_uniform at 1.
  cbv beta iota.
  match goal with
  | |- context [sample_points _ ?d ?n ?a ?c1 ?c2 ?b ?idx []] =>
      destruct (sample_points_appends d n a c1 c2 b idx []
                  (mkMotion (_position st) (_human_trace st) (S (draws st))
                     (calls st)))
        as (sampled & st' & Hrun & Hlen)
  end.
  exists sampled, st'. unfold bind. rewrite Hrun. cbn [app]. split.
  - reflexivity.
  - rewrite Hlen, range_length. f_equal. lia.
Qed.

End Controller.

(** C5: the path of [_build_path] ends with the end point itself, and
    without an explicit step count it has [clamp(int(distance / 12), 12, 45)]
    sampled points before it, hence 13 to 46 points in all. *)
Theorem build_path_ends_on_target
    (uniform : nat -> Q -> Q -> Q) (math_dist : Q -> Q -> Q -> Q -> Q)
    (math_cos math_sin : Q -> Q) (math_atan2 : Q -> Q -> Q)
    (start end_ : Point) (st : motion) :
  let distance := math_dist (px start) (py start) (px end_) (py end_) in
  (forall steps : option Z,
     exists sampled st',
       _build_path uniform math_dist math_cos math_sin math_atan2
         start end_ steps st = (Ok (sampled ++ [end_]), st')
       /\ last_opt (sampled ++ [end_]) = Some end_
       /\ List.length sampled = Z.to_nat (step_count_of steps distance))
  /\ (exists sampled st',
        _build_path uniform math_dist math_cos math_sin math_atan2
          start end_ None st = (Ok (sampled ++ [end_]), st')
        /\ Z.of_nat (List.length sampled) = clamp (trunc (distance / 12)) 12 45
        /\ (13 <= List.length (sampled ++ [end_]) <= 46)%nat).
Proof.
  intros distance.
  assert (Hlast : forall sampled : list Point,
            last_opt (sampled ++ [end_]) = Some end_).
  { intros sampled. unfold last_opt.
    destruct sampled as [| p ps]; [reflexivity |].
    cbn [app]. f_equal.
    rewrite last_last. reflexivity. }
  split.
  - intros steps.
    destruct (build_path_shape uniform math_dist math_cos math_sin math_atan2
                start end_ steps st) as (sampled & st' & Hrun & Hlen).
    exists sampled, st'. auto.
  - destruct (build_path_shape uniform math_dist math_cos math_sin math_atan2
                start end_ None st) as (sampled & st' & Hrun & Hlen).
    exists sampled, st'. split; [exact Hrun |].
    cbn [step_count_of] in Hlen. fold distance in Hlen.
    unfold default_step_count in Hlen. unfold clamp.
    rewrite length_app, Hlen. cbn [List.length]. lia.
Qed.

Section Position.
Variable viewport : option (Q * Q).
Variable uniform : nat -> Q -> Q -> Q.
Variable page_raises : nat -> bool.
Variable math_dist : Q -> Q -> Q -> Q -> Q.
Variable math_cos : Q -> Q.
Variable math_sin : Q -> Q.
Variable math_atan2 : Q -> Q -> Q.

Lemma set_position_sets (x y : Q) (st st' : motion) (u : unit) :
  set_position x y st = (Ok u, st') -> _position st' = Some (mkPoint x y).
Proof. unfold set_position. intros H. inversion H. reflexivity. Qed.

Lemma page_keeps_position (c : page_call) (st st' : motion) (u : unit) :
  page page_raises c st = (Ok u, st') -> _position st' = _position st.
Proof.
  unfold page. destruct (page_raises _); intros H; inversion H. reflexivity.
Qed.

Lemma pause_keeps_position (d : Q) (st st' : motion) (u : unit) :
  (if Qle_bool d 0 then ret tt else asyncio_sleep d) st = (Ok u, st') ->
  _position st' = _position st.
Proof.
  destruct (Qle_bool d 0); unfold ret, asyncio_sleep; intros H;
    inversion H; reflexivity.
Qed.

Lemma move_direct_reaches (x y : Q) (delay : option Q) (steps : option Z)
    (st st' : motion) :
  move_direct viewport uniform page_raises x y delay steps st = (Ok tt, st') ->
  _position st' = Some (mkPoint x y).
Proof.
  unfold move_direct. intros H.
  bind_inv H. bind_inv H. bind_inv H. bind_inv H.
  cbn [px py] in H. eapply set_position_sets. exact H.
Qed.

Lemma move_to_reaches (x y : Q) (record_trace : bool) (st st' : motion) :
  move_to viewport uniform page_raises math_dist math_cos math_sin math_atan2
    x y record_trace st = (Ok tt, st') ->
  _position st' = Some (mkPoint x y).
Proof.
  unfold move_to. intros H.
  bind_inv H. bind_inv H. bind_inv H. bind_inv H. bind_inv H.
  cbn [px py] in H. eapply set_position_sets. exact H.
Qed.

Lemma last_cons_default {A : Type} (l : list A) :
  forall a p : A, last (p :: l) a = last l p.
Proof.
  induction l as [| q l IH]; intros a p; [reflexivity |].
  change (last (p :: q :: l) a) with (last (q :: l) a).
  rewrite (IH a q), (IH p q). reflexivity.
Qed.

Lemma move_points_reaches (points : list (Q * Q * option Q)) :
  forall (st st' : motion) (x y : Q) (delay : option Q),
    move_points viewport uniform page_raises points st = (Ok tt, st') ->
    last_opt points = Some (x, y, delay) ->
    _position st' = Some (mkPoint x y).
Proof.
  induction points as [| [[x0 y0] d0] rest IH]; intros st st' x y delay H Hlast.
  - discriminate.
  - cbn [move_points] in H. bind_inv H.
    destruct a. apply move_direct_reaches in Hrun.
    destruct rest as [| p rest'].
    + cbn in Hlast. inversion Hlast; subst.
      cbn in H. unfold ret in H. inversion H; subst. exact Hrun.
    + eapply IH; [exact H |].
      unfold last_opt in *. rewrite last_cons_default in Hlast. exact Hlast.
Qed.

Lemma click_reaches (x y delay_before delay_after : Q) (record_trace : bool)
    (st st' : motion) :
  click viewport uniform page_raises math_dist math_cos math_sin math_atan2
    x y delay_before delay_after record_trace st = (Ok tt, st') ->
  _position st' = Some (mkPoint x y).
Proof.
  unfold click. intros H.
  bind_inv H. bind_inv H. bind_inv H. bind_inv H.
  repeat match goal with u : unit |- _ => destruct u end.
  apply move_to_reaches in Hrun.
  apply pause_keeps_position in Hrun0.
  apply page_keeps_position in Hrun1, Hrun2.
  apply pause_keeps_position in H.
  congruence.
Qed.

Lemma drag_and_drop_reaches (start end_ : Point) (steps : Z)
    (st st' : motion) :
  drag_and_drop viewport uniform page_raises math_dist math_cos math_sin
    math_atan2 start end_ steps st = (Ok tt, st') ->
  _position st' = Some end_.
Proof.
  unfold drag_and_drop. intros H.
  bind_inv H. bind_inv H. bind_inv H. bind_inv H. bind_inv H.
  apply set_position_sets in H. destruct end_. exact H.
Qed.

End Position.

(** C9: when a pointer operation ([move_to], [move_direct], [drag_and_drop],
    and [click] and [move_points], which are composed from them) completes,
    the controller's position is the target the operation was given: the
    point, the end of the drag, the last of the replayed points. *)
Theorem pointer_position_is_target
    (viewport : option (Q * Q)) (uniform : nat -> Q -> Q -> Q)
    (page_raises : nat -> bool) (math_dist : Q -> Q -> Q -> Q -> Q)
    (math_cos math_sin : Q -> Q) (math_atan2 : Q -> Q -> Q)
    (op : pointer_op) (st st' : motion) (target : Point) :
  run_op viewport uniform page_raises math_dist math_cos math_sin math_atan2
    op st = (Ok tt, st') ->
  target_of op = Some target ->
  _position st' = Some target.
Proof.
  destruct op; cbn [run_op target_of]; intros Hrun Htarget.
  - inversion Htarget; subst. eapply move_to_reaches; eauto.
  - inversion Htarget; subst. eapply move_direct_reaches; eauto.
  - destruct (last_opt points) as [[[x y] d] |] eqn:E; [| discriminate].
    inversion Htarget; subst. eapply move_points_reaches; eauto.
  - inversion Htarget; subst. eapply click_reaches; eauto.
  - inversion Htarget; subst. eapply drag_and_drop_reaches; eauto.
Qed.

(** A drag from (10, 10) to (300, 200) on a page that never raises, the
    pointer not yet placed. *)
Lemma pointer_position_is_target_witness :
  exists st',
    run_op (Some (1280, 720)) draw_low calm_page manhattan flat flat flat2
      (OpDragAndDrop (mkPoint 10 10) (mkPoint 300 200) 30)
      (mkMotion None None 0 [])
    = (Ok tt, st')
    /\ _position st' = Some (mkPoint 300 200).
Proof.
  eexists. split.
  - vm_compute. reflexivity.
  - eapply (pointer_position_is_target (Some (1280, 720)) draw_low calm_page
              manhattan flat flat flat2
              (OpDragAndDrop (mkPoint 10 10) (mkPoint 300 200) 30)
              (mkMotion None None 0 [])).
    + vm_compute. reflexivity.
    + reflexivity.
Defined.

End MotionFacts.
(** ** Answer interpretation *)

Module InterpretationFacts.

Import Motion Solver Claims.

Section Classifier.
Variable str_to_float : string -> option Q.










End Classifier.




(** C4: in a Grid batch each coordinate is converted on its own: as
    grid-relative (the grid's origin added) when it lies within the grid's
    bounds expanded on each side by 25% of the dimension plus 40 units, as
    frame-relative otherwise, whatever the batch-wide flag. *)
Theorem grid_coordinate_classified_alone
    (str_to_float : string -> option Q) (grid : box)
    (frame_offset_x frame_offset_y : Q) (canvas_relative : bool)
    (vx vy : value) (x y : Q) :
  float str_to_float vx = Ok x ->
  float str_to_float vy = Ok y ->
  (in_expanded_grid grid x y ->
   point_converter str_to_float "Grid" grid frame_offset_x frame_offset_y
     canvas_relative vx vy = Ok (bx grid + x, by_ grid + y))
  /\ (~ in_expanded_grid grid x y ->
      point_converter str_to_float "Grid" grid frame_offset_x frame_offset_y
        canvas_relative vx vy = Ok (frame_offset_x + x, frame_offset_y + y)).
Proof.
  intros Hx Hy.
  unfold point_converter. rewrite Hx, Hy. cbn [rbind].
  unfold convert_point. cbn [String.eqb Ascii.eqb Bool.eqb].
  unfold in_expanded_grid.
  destruct (Qle_bool (- (bw grid * 0.25 + 40)) x) eqn:E1;
  destruct (Qle_bool x (bw grid + (bw grid * 0.25 + 40))) eqn:E2;
  destruct (Qle_bool (- (bh grid * 0.25 + 40)) y) eqn:E3;
  destruct (Qle_bool y (bh grid + (bh grid * 0.25 + 40))) eqn:E4;
  cbn [andb];
  repeat match goal with
         | H : Qle_bool _ _ = true |- _ => apply Qle_bool_iff in H
         | H : Qle_bool ?a ?b = false |- _ =>
             assert (~ a <= b)
               by (intros Hle; apply Qle_bool_iff in Hle; congruence);
             clear H
         end;
  split; intros Hin; try reflexivity;
  try (exfalso; destruct Hin as (H1 & H2 & H3 & H4);
       first [ match goal with Hn : ~ _ |- _ => apply Hn; lra end ]);
  try (exfalso; apply Hin; repeat split; lra).
Qed.

(** On a 300 by 300 grid at (20, 100), frame at (5, 7): the point
    (330, 150) is within the margin, the point (600, 600) is not. *)
Lemma grid_coordinate_classified_alone_witness :
  point_converter (fun _ => None) "Grid" (mkBox 20 100 300 300) 5 7 false
    (VInt 330) (VInt 150) = Ok (20 + 330, 100 + 150)
  /\ point_converter (fun _ => None) "Grid" (mkBox 20 100 300 300) 5 7 false
       (VInt 600) (VInt 600) = Ok (5 + 600, 7 + 600).
Proof.
  split.
  - apply (proj1 (grid_coordinate_classified_alone (fun _ => None)
                    (mkBox 20 100 300 300) 5 7 false (VInt 330) (VInt 150)
                    (inject_Z 330) (inject_Z 150) eq_refl eq_refl)).
    unfold in_expanded_grid, inject_Z. cbn [bw bh]. repeat split; lra.
  - apply (proj2 (grid_coordinate_classified_alone (fun _ => None)
                    (mkBox 20 100 300 300) 5 7 false (VInt 600) (VInt 600)
                    (inject_Z 600) (inject_Z 600) eq_refl eq_refl)).
    unfold in_expanded_grid, inject_Z. cbn [bw bh].
    intros (H1 & H2 & H3 & H4). lra.
Defined.

End InterpretationFacts.
(** ** Executing structured actions *)

Module ActionFacts.

Import Motion Solver Claims EffFacts.

Lemma on_motion_ok_inv {A : Type} (m : Motion.M A) (st st' : solver) (a : A) :
  on_motion m st = (Ok a, st') ->
  exists ms, m (motion_state st) = (Ok a, ms) /\ st' = with_motion ms st.
Proof.
  unfold on_motion. destruct (m (motion_state st)) as [r ms]. intros H.
  inversion H; subst. exists ms. auto.
Qed.

Section Clicks.
Variable viewport : option (Q * Q).
Variable uniform : nat -> Q -> Q -> Q.
Variable page_raises : nat -> bool.

Lemma page_appends (c : page_call) (st st' : motion) (u : unit) :
  page page_raises c st = (Ok u, st') ->
  calls st' = calls st ++ [c] /\ _position st' = _position st.
Proof.
  unfold page. destruct (page_raises _); intros H; inversion H. auto.
Qed.

(** With the pointer already placed and no delay, [move_direct] is the one
    low-level move. *)
Lemma move_direct_placed (x y : Q) (p : Point) (st st' : motion) :
  _position st = Some p ->
  move_direct viewport uniform page_raises x y None None st = (Ok tt, st') ->
  calls st' = calls st ++ [MouseMove x y 1]
  /\ _position st' = Some (mkPoint x y).
Proof.
  intros Hp H. unfold move_direct in H.
  bind_inv H. unfold get_position in Hrun. inversion Hrun; subst. clear Hrun.
  rewrite Hp in H.
  bind_inv H. apply ret_ok_inv in Hrun as [_ ->].
  bind_inv H. cbn in Hrun. apply ret_ok_inv in Hrun as [_ ->].
  bind_inv H. cbn [px py] in *.
  apply page_appends in Hrun as [Hc _].
  unfold set_position in H. inversion H; subst. cbn [calls _position].
  auto.
Qed.

Lemma click_here_now (st st' : motion) :
  click_here page_raises 0 0 st = (Ok tt, st') ->
  calls st' = calls st ++ [MouseDown; MouseUp]
  /\ _position st' = _position st.
Proof.
  intros H. unfold click_here in H.
  bind_inv H. cbn in Hrun. apply ret_ok_inv in Hrun as [_ ->].
  bind_inv H. apply page_appends in Hrun as [Hc1 Hp1].
  bind_inv H. apply page_appends in Hrun as [Hc2 Hp2].
  cbn in H. apply ret_ok_inv in H as [_ ->].
  rewrite Hc2, Hc1, <- app_assoc. split; [reflexivity | congruence].
Qed.

End Clicks.

(** C6, as amended: when the last converted point of an action that is not
    a drag lands inside the submit control's box, the action ends, after the
    replay of its path, with a direct click at that very point: one move to
    it, button down, button up; the last known position becomes that
    point. This holds for every request type, so for a Grid batch the point
    is not snapped to a tile. *)
Theorem submit_point_clicked_directly
    (str_to_float : string -> option Q) (viewport : option (Q * Q))
    (uniform : nat -> Q -> Q -> Q) (page_raises : nat -> bool)
    (request_type : string) (target_root : element) (submit_box : box)
    (converter : value -> value -> result (Q * Q)) (action : value)
    (vars vars' : bool * option (Q * Q))
    (converted_path : list (Q * Q * option Q))
    (last_x last_y : Q) (last_delay : option Q) (st st' : solver) :
  converted_path_of str_to_float converter action = Ok (false, converted_path) ->
  last_opt converted_path = Some (last_x, last_y, last_delay) ->
  _point_inside_box submit_box last_x last_y = true ->
  execute_action str_to_float viewport uniform page_raises request_type
    target_root submit_box converter action vars st = (Ok vars', st') ->
  exists st1,
    motion_move_points viewport uniform page_raises converted_path st
    = (Ok tt, st1)
    /\ calls (motion_state st')
       = calls (motion_state st1)
         ++ [MouseMove last_x last_y 1; MouseDown; MouseUp]
    /\ _position (motion_state st') = Some (mkPoint last_x last_y)
    /\ last_mouse_position st' = (last_x, last_y)
    /\ vars' = (true, Some (last_x, last_y)).
Proof.
  intros Hconv Hlast Hinside Hrun.
  unfold execute_action in Hrun.
  bind_inv Hrun. unfold lift in Hrun0. rewrite Hconv in Hrun0.
  inversion Hrun0; subst. clear Hrun0.
  cbn iota beta in Hrun. rewrite Hlast, Hinside in Hrun.
  bind_inv Hrun. destruct a.
  exists s0. split; [exact Hrun0 |].
  unfold motion_move_points in Hrun0.
  apply on_motion_ok_inv in Hrun0 as (ms1 & Hpoints & ->).
  pose proof (MotionFacts.move_points_reaches viewport uniform page_raises
                converted_path _ _ _ _ _ Hpoints Hlast) as Hplaced.
  bind_inv Hrun. destruct a.
  unfold motion_move_direct in Hrun0.
  apply on_motion_ok_inv in Hrun0 as (ms2 & Hdirect & ->).
  cbn [motion_state with_motion] in Hdirect.
  apply (move_direct_placed viewport uniform page_raises _ _ _ _ _ Hplaced)
    in Hdirect as [Hc2 Hp2].
  bind_inv Hrun. destruct a.
  unfold motion_click_here in Hrun0.
  apply on_motion_ok_inv in Hrun0 as (ms3 & Hclick & ->).
  cbn [motion_state with_motion] in Hclick.
  apply click_here_now in Hclick as [Hc3 Hp3].
  bind_inv Hrun. unfold _set_last_mouse_position in Hrun0.
  inversion Hrun0; subst. clear Hrun0.
  apply ret_ok_inv in Hrun as [-> ->].
  cbn [motion_state with_motion last_mouse_position].
  rewrite Hc3, Hc2, <- app_assoc. cbn [app].
  repeat split; congruence.
Qed.

(** The click onto the submit control in a Grid batch: the first point is
    grid-relative, the last one frame-relative and inside the submit box. *)
Lemma submit_point_clicked_directly_witness :
  calls (motion_state
           (snd (execute_action no_parse None draw_low calm_page "Grid"
                   demo_grid demo_submit_box
                   (point_converter no_parse "Grid" (mkBox 10 20 100 100)
                      3 4 false)
                   click_onto_submit (false, None) demo_solver)))
  = [MouseMove 15 25 1; MouseMove 210 410 1;
     MouseMove 210 410 1; MouseDown; MouseUp].
Proof.
  destruct (submit_point_clicked_directly no_parse None draw_low calm_page
              "Grid" demo_grid demo_submit_box
              (point_converter no_parse "Grid" (mkBox 10 20 100 100) 3 4 false)
              click_onto_submit (false, None) (true, Some (210, 410))
              [(15, 25, None); (210, 410, None)] 210 410 None demo_solver
              (snd (execute_action no_parse None draw_low calm_page "Grid"
                      demo_grid demo_submit_box
                      (point_converter no_parse "Grid" (mkBox 10 20 100 100)
                         3 4 false)
                      click_onto_submit (false, None) demo_solver)))
    as (st1 & Hpoints & Hcalls & _).
  - vm_compute. reflexivity.
  - reflexivity.
  - vm_compute. reflexivity.
  - vm_compute. reflexivity.
  - rewrite Hcalls. vm_compute in Hpoints. inversion Hpoints; subst.
    vm_compute. reflexivity.
Defined.

(** C6 as stated fails on a drag: the last converted point of the drag
    lies inside the submit box, and the action is a press at the first
    point, a move and a release, with no click at the last point. *)
Lemma drag_onto_submit_is_not_clicked :
  exists st',
    _execute_actions no_parse None draw_low calm_page demo_frame "Canvas"
      [drag_onto_submit] demo_solver = (Ok true, st')
    /\ calls (motion_state st')
       = [MouseMove 8 9 1; MouseDown; MouseMove 210 410 1; MouseUp]
    /\ _point_inside_box demo_submit_box 210 410 = true
    /\ ~ (exists before,
            calls (motion_state st')
            = before ++ [MouseMove 210 410 1; MouseDown; MouseUp]).
Proof.
  eexists. split; [vm_compute; reflexivity |].
  cbn [motion_state calls]. split; [reflexivity |].
  split; [vm_compute; reflexivity |].
  intros [before H].
  destruct before as [| c1 [| c2 before]]; cbn in H; try discriminate.
  apply (f_equal (@List.length page_call)) in H.
  cbn in H. rewrite length_app in H. cbn in H. lia.
Qed.


End ActionFacts.
(** ** The attempt loop and the flat Grid answers *)

Module LoopFacts.

Import Motion Solver Claims EffFacts.




Section Loop.
Variable api_key : string.
Variable attempt : Z.
Variable intercept_token : bool.
Variable checkbox_frame : Type.
Variable page_route : S unit.
Variable await_token_event : option Q -> S unit.
Variable page_wait_for_token : Z -> S (option string).
Variable race_sleep_token : Q -> S unit.
Variable _find_challenge_visual_frame : S (option frame).
Variable _find_checkbox_frame : S (option checkbox_frame).
Variable checkbox_click : checkbox_frame -> S unit.
Variable _handle_challenge_round : frame -> S bool.
Variable _click_submit_button : frame -> S unit.


End Loop.








(** Through [_apply_answers]: the flat Grid answer [[-1]] clicks the last
    tile (centre (60, 35), offset by the draws of -10: (50, 25), here the
    unreduced fractions 100/2 and 50/2), and the answer [[-3]] on
    two tiles raises inside, which [_apply_answers] turns into [False]. *)
Lemma apply_answers_negative_index :
  (exists st',
     _apply_answers no_parse no_parse_int None draw_low calm_page manhattan
       flat flat flat2 demo_frame "Grid" (VList [VInt (-1)]) demo_solver
     = (Ok true, st')
     /\ calls (motion_state st')
        = [MouseMove (100 # 2) (50 # 2) 1; MouseDown; MouseUp])
  /\ _apply_answers no_parse no_parse_int None draw_low calm_page manhattan
       flat flat flat2 demo_frame "Grid" (VList [VInt (-3)]) demo_solver
     = (Ok false, demo_solver).
Proof.
  split.
  - eexists. split; vm_compute; reflexivity.
  - vm_compute. reflexivity.
Qed.

End LoopFacts.
(** ** More on the polling client *)

Module ApiMoreFacts.

Import ApiService Claims.

Section Client.
Variable transport : nat -> request -> result response.
Variable api_key : string.
Variable base_url : string.
Variable poll_interval : Q.
Variable max_wait_time : Q.

(** Whatever the answer, [_fetch_result] sends one request and then only
    logs. *)
Lemma fetch_result_one_post (task_id : value) (st : net) :
  exists r log,
    _fetch_result transport api_key base_url task_id st
    = (r, mkNet (S (posts st))
            (trace st ++ Post (fetch_request api_key base_url task_id) :: log))
    /\ forallb is_log log = true.
Proof.
  unfold _fetch_result, post.
  destruct (transport (posts st) (fetch_request api_key base_url task_id))
    as [[ok code body] | e]; cbn [resp_ok resp_json].
  - destruct ok; cbn [negb].
    + unfold bind, lift, ret.
      destruct body as [data | e].
      * destruct (get data "errorId") as [error_id | e].
        -- destruct (truthy error_id).
           ++ eexists. exists [LogFailure "getTaskResult error"].
              cbn. rewrite <- app_assoc. split; reflexivity.
           ++ eexists. exists []. split; reflexivity.
        -- eexists. exists []. split; reflexivity.
      * eexists. exists []. split; reflexivity.
    + eexists. exists [LogFailure "HTTP error while retrieving result"].
      cbn. rewrite <- app_assoc. split; reflexivity.
  - eexists. exists [LogFailure "Failed to fetch task result"].
    cbn. rewrite <- app_assoc. split; reflexivity.
Qed.




End Client.





(** X3: on a [ready] answer the raw mode returns the whole decoded
    response, with answers or without, while the default mode returns its
    [answers] field and, when that field is missing or null, none with a
    log line. *)
Theorem ready_answer_raw_or_answers
    (transport : nat -> request -> result response)
    (api_key base_url : string) (poll_interval max_wait_time : Q)
    (task_id : value) (st : net) (fuel : nat) :
  let req := fetch_request api_key base_url task_id in
  let st1 := mkNet (S (posts st)) (trace st ++ [Post req]) in
  0 <= max_wait_time ->
  reports_ready (transport (posts st) req) = true ->
  wait_for_result transport api_key base_url poll_interval max_wait_time
    (S fuel) task_id true st
  = Some (Ok (Some (body_of (transport (posts st) req))), st1)
  /\ wait_for_result transport api_key base_url poll_interval max_wait_time
       (S fuel) task_id false st
     = Some (match answers_of (transport (posts st) req) with
             | VNone =>
                 (Ok None,
                  mkNet (posts st1)
                    (trace st1
                     ++ [LogFailure "Multibot returned an empty answers payload"]))
             | answers => (Ok (Some answers), st1)
             end).
Proof.
  intros req st1 Hmw. subst req st1.
  assert (Hle : Qle_bool 0 max_wait_time = true) by (apply Qle_bool_iff; exact Hmw).
  unfold wait_for_result. cbn [wait_loop]. rewrite Hle.
  unfold reports_ready, body_of, answers_of, _fetch_result, post.
  destruct (transport (posts st) (fetch_request api_key base_url task_id))
    as [[ok code [data | e]] | e]; cbn [resp_ok resp_json]; try discriminate;
    destruct ok; cbn [negb andb]; try discriminate.
  destruct data; try discriminate.
  unfold bind, lift, ret. cbn [get].
  destruct (truthy (dict_get d "errorId")); cbn [negb andb]; try discriminate.
  cbn [get]. intros Hready. rewrite Hready.
  split; [reflexivity |].
  destruct (dict_get d "answers"); reflexivity.
Qed.

Lemma ready_answer_raw_or_answers_witness :
  wait_for_result ready_without_answers "key" "https://api.multibot.in" 1 15
    1 (VStr "t1") true (mkNet 0 [])
  = Some (Ok (Some (VDict [("status", VStr "ready")])),
          mkNet 1 [Post (fetch_request "key" "https://api.multibot.in"
                           (VStr "t1"))])
  /\ wait_for_result ready_without_answers "key" "https://api.multibot.in" 1 15
       1 (VStr "t1") false (mkNet 0 [])
     = Some (Ok None,
             mkNet 1 [Post (fetch_request "key" "https://api.multibot.in"
                              (VStr "t1"));
                      LogFailure "Multibot returned an empty answers payload"]).
Proof.
  assert (Hmw : 0 <= 15) by discriminate.
  exact (ready_answer_raw_or_answers ready_without_answers "key"
           "https://api.multibot.in" 1 15 (VStr "t1") (mkNet 0 []) 0
           Hmw eq_refl).
Defined.

(** X4: when [create_task] returns an identifier, it is a truthy [taskId]
    of a successful response without error id, exactly one request was
    sent and nothing was logged. *)
Theorem create_task_returns_service_id
    (transport : nat -> request -> result response)
    (api_key base_url : string) (payload : value) (task_type : string)
    (st st' : net) (task_id : value) :
  create_task transport api_key base_url payload task_type st
    = (Ok (Some task_id), st') ->
  truthy task_id = true
  /\ st' = mkNet (S (posts st))
             (trace st ++ [Post (create_request api_key base_url task_type payload)])
  /\ exists code d,
       transport (posts st) (create_request api_key base_url task_type payload)
       = Ok (mkResponse true code (Ok (VDict d)))
       /\ truthy (dict_get d "errorId") = false
       /\ dict_get d "taskId" = task_id.
Proof.
  unfold create_task, post.
  destruct (transport (posts st) (create_request api_key base_url task_type payload))
    as [[ok code [data | e]] | e]; cbn [resp_ok resp_json];
    try (unfold bind, lift, ret, log_failure, emit; discriminate);
    destruct ok; cbn [negb];
    try (unfold bind, lift, ret, log_failure, emit; cbn; discriminate).
  unfold bind, lift, ret.
  destruct data; cbn [get]; try discriminate.
  destruct (truthy (dict_get d "errorId")) eqn:Eerr;
    [unfold log_failure, emit; discriminate |].
  destruct (truthy (dict_get d "taskId")) eqn:Eid; cbn [negb];
    [| unfold log_failure, emit; discriminate].
  intros H. inversion H; subst.
  split; [exact Eid |]. split; [reflexivity |].
  exists code, d. auto.
Qed.

Lemma create_task_returns_service_id_witness :
  truthy (VStr "t1") = true
  /\ create_task failing_service "key" "https://api.multibot.in"
       (VDict [("question", VStr "q")]) "hCaptchaBase64" (mkNet 0 [])
     = (Ok (Some (VStr "t1")),
        mkNet 1 [Post (create_request "key" "https://api.multibot.in"
                         "hCaptchaBase64" (VDict [("question", VStr "q")]))]).
Proof.
  split.
  - exact (proj1 (create_task_returns_service_id failing_service "key"
                    "https://api.multibot.in" (VDict [("question", VStr "q")])
                    "hCaptchaBase64" (mkNet 0 []) _ (VStr "t1") eq_refl)).
  - reflexivity.
Defined.

Section HumanMove.
Variable transport : nat -> request -> result response.
Variable api_key : string.
Variable base_url : string.
Variable poll_interval : Q.
Variable max_wait_time : Q.
Variable str_to_float : string -> option Q.

Lemma create_task_one_post (payload : value) (task_type : string)
    (st st1 : net) (r : result (option value)) :
  create_task transport api_key base_url payload task_type st = (r, st1) ->
  posts st1 = S (posts st)
  /\ exists log,
       trace st1
       = trace st
         ++ Post (create_request api_key base_url task_type payload) :: log.
Proof.
  pose proof (ClientFacts.create_task_listed_outcomes transport api_key
                base_url payload task_type st) as H.
  cbv zeta in H. intros Hrun.
  destruct (transport (posts st)
              (create_request api_key base_url task_type payload))
    as [resp | e].
  - destruct (negb (resp_ok resp)).
    + rewrite H in Hrun. inversion Hrun; subst. cbn [posts trace].
      split; [reflexivity |]. rewrite <- app_assoc. eexists. reflexivity.
    + destruct (resp_json resp) as [data | e].
      * destruct data;
          try (rewrite H in Hrun; inversion Hrun; subst; cbn [posts trace];
               split; [reflexivity | exists []; reflexivity]).
        destruct (truthy (dict_get d "errorId")).
        { rewrite H in Hrun. inversion Hrun; subst. cbn [posts trace].
          split; [reflexivity |]. rewrite <- app_assoc. eexists.
          reflexivity. }
        destruct (truthy (dict_get d "taskId")).
        { rewrite H in Hrun. inversion Hrun; subst. cbn [posts trace].
          split; [reflexivity | exists []; reflexivity]. }
        rewrite H in Hrun. inversion Hrun; subst. cbn [posts trace].
        split; [reflexivity |]. rewrite <- app_assoc. eexists. reflexivity.
      * rewrite H in Hrun. inversion Hrun; subst. cbn [posts trace].
        split; [reflexivity | exists []; reflexivity].
  - rewrite H in Hrun. inversion Hrun; subst. cbn [posts trace].
    split; [reflexivity |]. rewrite <- app_assoc. eexists. reflexivity.
Qed.

(** A poll loop that hands back a result has asked the service at least
    once. *)
Lemma wait_loop_result_posts (fuel : nat) :
  forall (task_id : value) (raw : bool) (elapsed : Q) (st st' : net)
         (r : value),
    wait_loop transport api_key base_url poll_interval max_wait_time fuel
      task_id raw elapsed st = Some (Ok (Some r), st') ->
    (posts st < posts st')%nat
    /\ exists ext, trace st' = trace st ++ ext.
Proof.
  induction fuel as [| fuel IH]; intros task_id raw elapsed st st' r H;
    [discriminate |].
  cbn [wait_loop] in H.
  destruct (Qle_bool elapsed max_wait_time); [| discriminate].
  destruct (fetch_result_one_post transport api_key base_url task_id st)
    as (fr & log & Hf & _).
  rewrite Hf in H.
  destruct fr as [[result |] | e]; try discriminate.
  destruct (get result "status") as [status | e]; [| discriminate].
  destruct (is_str status "ready").
  { destruct raw.
    - inversion H; subst. cbn [posts trace].
      split; [lia | eexists; reflexivity].
    - destruct (get result "answers") as [[] | e]; try discriminate;
        inversion H; subst; cbn [posts trace];
        (split; [lia | eexists; reflexivity]). }
  destruct (is_str status "failed"); [discriminate |].
  unfold sleep, emit in H. cbn [posts trace] in H.
  apply IH in H. cbn [posts trace] in H. destruct H as [Hp [ext He]].
  split; [lia |]. rewrite He, <- !app_assoc. eexists. reflexivity.
Qed.

Lemma human_move_result_some (result : option value) (st st' : net)
    (path : list (Q * Q * Q)) :
  human_move_result str_to_float result st = (Ok (Some path), st') ->
  path <> [] /\ st' = st.
Proof.
  unfold human_move_result.
  destruct result as [result |]; [| discriminate].
  destruct (truthy result); cbn [negb]; [| discriminate].
  destruct (is_dict result); cbn [negb]; [| discriminate].
  unfold bind, lift.
  destruct (get result "answers") as [answers | e]; [| discriminate].
  destruct answers as [| | | | | [| segment rest] |]; try discriminate.
  destruct (normalize_segments str_to_float (segment :: rest) [])
    as [[| q normalized] | e]; try discriminate.
  intros H. inversion H; subst. split; [discriminate | reflexivity].
Qed.

Lemma request_human_move_not_empty (fuel : nat) (route : list (Q * Q))
    (st st' : net) (path : list (Q * Q * Q)) :
  request_human_move transport api_key base_url poll_interval max_wait_time
    str_to_float fuel route st = Some (Ok (Some path), st') ->
  path <> [].
Proof.
  unfold request_human_move. intros H.
  destruct (create_task transport api_key base_url (move_payload route)
              "humanMove" st) as [[[task_id |] | e] st1];
    try discriminate.
  destruct (wait_for_result transport api_key base_url poll_interval
              max_wait_time fuel task_id true st1)
    as [[[result | e] st2] |]; try discriminate.
  inversion H as [Hres].
  apply human_move_result_some in Hres as [Hne _]. exact Hne.
Qed.

(** X18: a trajectory returned by [request_human_move] is never empty,
    so its last point exists; by then the client has posted the
    [humanMove] task built from the route first and has polled at least
    once. *)
Theorem human_move_path_not_empty (fuel : nat) (route : list (Q * Q))
    (st st' : net) (path : list (Q * Q * Q)) :
  request_human_move transport api_key base_url poll_interval max_wait_time
    str_to_float fuel route st = Some (Ok (Some path), st') ->
  path <> []
  /\ (posts st + 2 <= posts st')%nat
  /\ exists rest,
       trace st'
       = trace st
         ++ Post (create_request api_key base_url "humanMove"
                    (move_payload route)) :: rest.
Proof.
  unfold request_human_move. intros H.
  destruct (create_task transport api_key base_url (move_payload route)
              "humanMove" st) as [[[task_id |] | e] st1] eqn:Hcreate;
    try discriminate.
  apply create_task_one_post in Hcreate as [Hp1 [log Ht1]].
  unfold wait_for_result in H.
  destruct (wait_loop transport api_key base_url poll_interval max_wait_time
              fuel task_id true 0 st1) as [[[result | e] st2] |] eqn:Hwait;
    try discriminate.
  inversion H as [Hres]. clear H.
  destruct result as [result |]; [| discriminate].
  apply human_move_result_some in Hres as [Hne ->].
  apply wait_loop_result_posts in Hwait as [Hp2 [ext Ht2]].
  split; [exact Hne |]. split; [lia |].
  rewrite Ht2, Ht1, <- app_assoc. eexists. reflexivity.
Qed.

End HumanMove.

Lemma human_move_path_not_empty_witness :
  exists path st',
    request_human_move (human_move_service mixed_segments) "key"
      "https://api.multibot.in" 1 15 (fun _ => None) 5 [(0, 0); (50, 60)]
      (mkNet 0 []) = Some (Ok (Some path), st')
    /\ path <> [] /\ (2 <= posts st')%nat.
Proof.
  assert (Hrun : exists path st',
            request_human_move (human_move_service mixed_segments) "key"
              "https://api.multibot.in" 1 15 (fun _ => None) 5
              [(0, 0); (50, 60)] (mkNet 0 []) = Some (Ok (Some path), st'))
    by (do 2 eexists; vm_compute; reflexivity).
  destruct Hrun as (path & st' & Hrun).
  exists path, st'. split; [exact Hrun |].
  destruct (human_move_path_not_empty (human_move_service mixed_segments)
              "key" "https://api.multibot.in" 1 15 (fun _ => None) 5
              [(0, 0); (50, 60)] (mkNet 0 []) st' path Hrun)
    as (Hne & Hposts & _).
  split; [exact Hne | exact Hposts].
Defined.

End ApiMoreFacts.
(** ** More on the pointer controller *)

Module MotionMoreFacts.

Import Motion Claims EffFacts.

Section Controller.
Variable viewport : option (Q * Q).
Variable uniform : nat -> Q -> Q -> Q.
Variable page_raises : nat -> bool.
Variable math_dist : Q -> Q -> Q -> Q -> Q.
Variable math_cos : Q -> Q.
Variable math_sin : Q -> Q.
Variable math_atan2 : Q -> Q -> Q.

Lemma page_ok_inv (c : page_call) (st st' : motion) (u : unit) :
  page page_raises c st = (Ok u, st') ->
  st' = mkMotion (_position st) (_human_trace st) (draws st) (calls st ++ [c]).
Proof.
  unfold page. destruct (page_raises _); intros H; inversion H. reflexivity.
Qed.

Lemma page_raise_inv (c : page_call) (st st' : motion) (e : exn) :
  page page_raises c st = (Raise e, st') -> st' = st.
Proof.
  unfold page. destruct (page_raises _); intros H; inversion H. reflexivity.
Qed.

(** A sequence raises in its first part or, that part done, in the rest. *)
Lemma bind_raise_inv {S A B : Type} (m : Eff S A) (f : A -> Eff S B)
    (st st' : S) (e : exn) :
  bind m f st = (Raise e, st') ->
  m st = (Raise e, st')
  \/ exists a st1, m st = (Ok a, st1) /\ f a st1 = (Raise e, st').
Proof.
  unfold bind. destruct (m st) as [[a | e0] st1]; intros H.
  - right. exists a, st1. auto.
  - left. inversion H; subst. reflexivity.
Qed.

Lemma move_along_run (path : list Point) :
  forall st st',
    move_along page_raises path st = (Ok tt, st') ->
    st' = mkMotion (_position st) (_human_trace st) (draws st)
            (calls st ++ moves_of path).
Proof.
  induction path as [| p path IH]; intros st st' H.
  - cbn in H. apply ret_ok_inv in H as [_ ->].
    cbn. rewrite app_nil_r. destruct st; reflexivity.
  - cbn [move_along] in H. bind_inv H.
    apply page_ok_inv in Hrun. subst s.
    apply IH in H. rewrite H. cbn [_position _human_trace draws calls].
    rewrite <- app_assoc. reflexivity.
Qed.

Lemma move_along_raise (path : list Point) :
  forall st st' e,
    move_along page_raises path st = (Raise e, st') ->
    _position st' = _position st.
Proof.
  induction path as [| p path IH]; intros st st' e H.
  - discriminate.
  - cbn [move_along] in H.
    apply bind_raise_inv in H as [H | (a & s & Hrun & H)].
    + apply page_raise_inv in H. subst. reflexivity.
    + apply page_ok_inv in Hrun. subst s.
      apply IH in H. exact H.
Qed.

(** The sampled points, exactly: the curve point of each index plus two
    draws from [-jitter, jitter]; the generator alone advances. *)
Lemma sample_points_exact (distance : Q) (step_count : Z)
    (start control1 control2 end_ : Point) (indices : list Z) :
  forall path st,
  exists sampled k,
    sample_points uniform distance step_count start control1 control2 end_
      indices path st
    = (Ok (path ++ sampled),
       mkMotion (_position st) (_human_trace st) (draws st + k) (calls st))
    /\ Forall2
         (fun i p =>
            let t := inject_Z i / inject_Z step_count in
            let jitter := fmin 6 (fmax 1.2 (distance / 60)) in
            exists k1 k2,
              p = mkPoint
                    (bezier t (px start) (px control1) (px control2) (px end_)
                     + uniform k1 (- jitter) jitter)
                    (bezier t (py start) (py control1) (py control2) (py end_)
                     + uniform k2 (- jitter) jitter))
         indices sampled.
Proof.
  induction indices as [| i rest IH]; intros path st.
  - exists [], 0%nat. cbn. rewrite app_nil_r, Nat.add_0_r.
    split; [destruct st; reflexivity | constructor].
  - cbn [sample_points]. unfold bind at 1. unfold random_uniform at 1.
    unfold bind at 1. unfold random_uniform at 1.
    cbn [_position _human_trace draws calls].
    match goal with
    | |- context [sample_points _ _ _ _ _ _ _ rest (path ++ [?p]) ?s] =>
        destruct (IH (path ++ [p]) s) as (sampled & k & Hrun & Hall);
        exists (p :: sampled), (2 + k)%nat
    end.
    rewrite Hrun, <- app_assoc. cbn [_position _human_trace draws calls app].
    split.
    + replace (draws st + (2 + k))%nat with (S (S (draws st)) + k)%nat by lia.
      reflexivity.
    + constructor; [| exact Hall]. cbv zeta. eauto.
Qed.

Lemma build_path_exact (start end_ : Point) (steps : option Z) (st : motion) :
  let distance := math_dist (px start) (py start) (px end_) (py end_) in
  let step_count := step_count_of steps distance in
  exists sampled k control1 control2,
    _build_path uniform math_dist math_cos math_sin math_atan2 start end_
      steps st
    = (Ok (sampled ++ [end_]),
       mkMotion (_position st) (_human_trace st) (draws st + k) (calls st))
    /\ List.length sampled = Z.to_nat step_count
    /\ Forall2
         (fun i p =>
            let t := inject_Z i / inject_Z step_count in
            let jitter := fmin 6 (fmax 1.2 (distance / 60)) in
            exists k1 k2,
              p = mkPoint
                    (bezier t (px start) (px control1) (px control2) (px end_)
                     + uniform k1 (- jitter) jitter)
                    (bezier t (py start) (py control1) (py control2) (py end_)
                     + uniform k2 (- jitter) jitter))
         (range 1 (step_count + 1)) sampled.
Proof.
  cbv zeta. unfold _build_path. cbv zeta.
  unfold bind at 1. unfold random_uniform at 1. cbv beta iota.
  match goal with
  | |- context [sample_points _ ?d ?n ?a ?c1 ?c2 ?b ?idx []] =>
      destruct (sample_points_exact d n a c1 c2 b idx []
                  (mkMotion (_position st) (_human_trace st) (S (draws st))
                     (calls st)))
        as (sampled & k & Hrun & Hall);
      exists sampled, (S k), c1, c2
  end.
  unfold bind. rewrite Hrun. cbn [app _position _human_trace draws calls].
  split; [| split].
  - unfold ret.
    replace (draws st + S k)%nat with (S (draws st) + k)%nat by lia.
    reflexivity.
  - apply Forall2_length in Hall. rewrite <- Hall.
    rewrite MotionFacts.range_length. f_equal. lia.
  - exact Hall.
Qed.

Lemma build_path_ok_inv (start end_ : Point) (steps : option Z)
    (st st' : motion) (path : list Point) :
  _build_path uniform math_dist math_cos math_sin math_atan2 start end_ steps st
    = (Ok path, st') ->
  exists sampled,
    path = sampled ++ [end_]
    /\ List.length sampled
       = Z.to_nat (step_count_of steps
                     (math_dist (px start) (py start) (px end_) (py end_)))
    /\ _position st' = _position st
    /\ _human_trace st' = _human_trace st
    /\ calls st' = calls st.
Proof.
  intros H.
  destruct (build_path_exact start end_ steps st)
    as (sampled & k & c1 & c2 & Hrun & Hlen & _).
  rewrite Hrun in H. inversion H; subst.
  exists sampled. cbn. auto.
Qed.

Lemma build_path_never_raises (start end_ : Point) (steps : option Z)
    (st st' : motion) (e : exn) :
  _build_path uniform math_dist math_cos math_sin math_atan2 start end_ steps st
    <> (Raise e, st').
Proof.
  destruct (build_path_exact start end_ steps st)
    as (sampled & k & c1 & c2 & Hrun & _).
  rewrite Hrun. discriminate.
Qed.

(** [move_direct] on a placed pointer: the pause of the delay, then one
    move. *)
Lemma move_direct_placed_run (x y : Q) (delay : option Q) (p : Point)
    (st st' : motion) :
  _position st = Some p ->
  move_direct viewport uniform page_raises x y delay None st = (Ok tt, st') ->
  st' = mkMotion (Some (mkPoint x y)) (_human_trace st) (draws st)
          (calls st ++ pause_of delay ++ [MouseMove x y 1]).
Proof.
  intros Hp H. unfold move_direct in H.
  bind_inv H. unfold get_position in Hrun. inversion Hrun; subst. clear Hrun.
  rewrite Hp in H.
  bind_inv H. apply ret_ok_inv in Hrun as [_ ->].
  bind_inv H. bind_inv H. cbn [px py] in *.
  apply page_ok_inv in Hrun0. subst s1.
  unfold set_position in H. inversion H; subst. clear H.
  cbn [_position _human_trace draws calls].
  assert (Hs : s0 = mkMotion (_position s) (_human_trace s) (draws s)
                      (calls s ++ pause_of delay)).
  { unfold pause_of, fmax in *.
    destruct delay as [d |].
    - unfold Qnonzero in Hrun.
      destruct (Qeq_bool d 0) eqn:Ez; cbn [negb] in Hrun.
      + apply Qeq_bool_iff in Ez.
        assert (Ed : Qle_bool d 0 = true) by (apply Qle_bool_iff; lra).
        rewrite Ed. cbn in Hrun. apply ret_ok_inv in Hrun as [_ ->].
        rewrite app_nil_r. destruct s; reflexivity.
      + destruct (Qle_bool d 0) eqn:Ed.
        * cbn in Hrun. apply ret_ok_inv in Hrun as [_ ->].
          rewrite app_nil_r. destruct s; reflexivity.
        * rewrite Ed in Hrun. unfold asyncio_sleep in Hrun.
          inversion Hrun. reflexivity.
    - cbn in Hrun. apply ret_ok_inv in Hrun as [_ ->].
      rewrite app_nil_r. destruct s; reflexivity. }
  rewrite Hs. cbn [_position _human_trace draws calls].
  rewrite <- app_assoc. reflexivity.
Qed.

Lemma jitter_range (distance : Q) :
  let jitter := fmin 6 (fmax 1.2 (distance / 60)) in
  0 <= jitter /\ jitter <= 6.
Proof.
  cbv zeta. unfold fmin, fmax.
  destruct (Qle_bool (distance / 60) 1.2) eqn:E1.
  - destruct (Qle_bool 6 1.2) eqn:E2; split;
      first [lra | apply Qle_bool_iff in E2; lra].
  - assert (H1 : ~ distance / 60 <= 1.2)
      by (intros H; apply Qle_bool_iff in H; congruence).
    destruct (Qle_bool 6 (distance / 60)) eqn:E2; split; try lra;
      assert (H2 : ~ 6 <= distance / 60)
        by (intros H; apply Qle_bool_iff in H; congruence);
      lra.
Qed.

(** [move_to] on a placed pointer: the path is built from the held
    position and replayed one single-step move per point. *)
Lemma move_to_placed_run (x y : Q) (record_trace : bool)
    (start : Point) (st st' : motion) :
  _position st = Some start ->
  move_to viewport uniform page_raises math_dist math_cos math_sin math_atan2
    x y record_trace st = (Ok tt, st') ->
  exists sampled,
    calls st' = calls st ++ moves_of (sampled ++ [mkPoint x y])
    /\ List.length sampled
       = Z.to_nat (default_step_count
                     (math_dist (px start) (py start) x y))
    /\ _human_trace st'
       = (if record_trace
          then Some ((px start, py start)
                     :: map (fun p => (px p, py p))
                          (sampled ++ [mkPoint x y]))
          else None)
    /\ _position st' = Some (mkPoint x y).
Proof.
  intros Hp H. unfold move_to in H.
  bind_inv H. unfold get_position in Hrun. inversion Hrun; subst. clear Hrun.
  rewrite Hp in H.
  bind_inv H. apply ret_ok_inv in Hrun as [-> ->].
  bind_inv H.
  apply build_path_ok_inv in Hrun as (sampled & -> & Hlen & Hpos & Htrace & Hcalls).
  bind_inv H. unfold set_human_trace in Hrun. inversion Hrun; subst. clear Hrun.
  bind_inv H. destruct a. apply move_along_run in Hrun. subst.
  unfold set_position in H. inversion H; subst. clear H.
  cbn [_position _human_trace draws calls px py].
  exists sampled. rewrite Hcalls. cbn [step_count_of px py] in Hlen.
  repeat split; try reflexivity. exact Hlen.
Qed.

(** A pause made only when the delay is positive. *)
Lemma optional_sleep_run (d : Q) (st st' : motion) (u : unit) :
  (if Qle_bool d 0 then ret tt else asyncio_sleep d) st = (Ok u, st') ->
  st' = mkMotion (_position st) (_human_trace st) (draws st)
          (calls st ++ pause_of (Some d)).
Proof.
  unfold pause_of. destruct (Qle_bool d 0).
  - intros H. apply ret_ok_inv in H as [_ ->].
    rewrite app_nil_r. destruct st; reflexivity.
  - unfold asyncio_sleep. intros H. inversion H. reflexivity.
Qed.

(** [click] on a placed pointer: the move, then press and release between
    the two optional pauses. *)
Lemma click_placed_run (x y delay_before delay_after : Q)
    (record_trace : bool) (start : Point) (st st' : motion) :
  _position st = Some start ->
  click viewport uniform page_raises math_dist math_cos math_sin math_atan2
    x y delay_before delay_after record_trace st = (Ok tt, st') ->
  exists sampled,
    calls st'
    = calls st ++ moves_of (sampled ++ [mkPoint x y])
      ++ pause_of (Some delay_before) ++ [MouseDown; MouseUp]
      ++ pause_of (Some delay_after)
    /\ List.length sampled
       = Z.to_nat (default_step_count
                     (math_dist (px start) (py start) x y))
    /\ _position st' = Some (mkPoint x y).
Proof.
  intros Hp H. unfold click in H.
  bind_inv H. destruct a.
  destruct (move_to_placed_run _ _ _ _ _ _ Hp Hrun)
    as (sampled & Hc & Hlen & _ & Hq).
  clear Hrun.
  bind_inv H. apply optional_sleep_run in Hrun. subst.
  bind_inv H. apply page_ok_inv in Hrun. subst.
  bind_inv H. apply page_ok_inv in Hrun. subst.
  repeat match goal with u : unit |- _ => destruct u end.
  apply optional_sleep_run in H. subst.
  cbn [_position _human_trace draws calls].
  exists sampled. rewrite Hc, <- !app_assoc. cbn [app].
  repeat split; [exact Hlen | exact Hq].
Qed.

(** X19: [click] presses and releases exactly once, on the exact target:
    from a placed pointer it replays the path of [move_to], whose last move
    is to the target itself, sleeps before the press only when
    [delay_before] is positive, presses, releases, and sleeps after only
    when [delay_after] is positive; the position it records is the
    target. *)
Theorem click_presses_once_on_target (x y delay_before delay_after : Q)
    (record_trace : bool) (start : Point) (st st' : motion) :
  _position st = Some start ->
  click viewport uniform page_raises math_dist math_cos math_sin math_atan2
    x y delay_before delay_after record_trace st = (Ok tt, st') ->
  exists sampled,
    calls st'
    = calls st ++ moves_of sampled ++ [MouseMove x y 1]
      ++ pause_of (Some delay_before) ++ [MouseDown; MouseUp]
      ++ pause_of (Some delay_after)
    /\ (12 <= List.length sampled <= 45)%nat
    /\ _position st' = Some (mkPoint x y).
Proof.
  intros Hp H.
  destruct (click_placed_run _ _ _ _ _ _ _ _ Hp H)
    as (sampled & Hc & Hlen & Hq).
  exists sampled. split.
  - rewrite Hc. unfold moves_of. rewrite map_app, <- app_assoc. reflexivity.
  - split; [| exact Hq]. rewrite Hlen. unfold default_step_count. lia.
Qed.

(** X6: the jitter is bounded: when [random.uniform] stays within its
    bounds, every sampled point of [_build_path] lies within 6 units, on
    each axis, of the point of one cubic Bezier curve from the start to the
    end at the parameter [i / step_count], for [i] from 1 to
    [step_count]. *)
Theorem build_path_points_near_curve (start end_ : Point) (steps : option Z)
    (st : motion) :
  uniform_in_range uniform ->
  let step_count :=
    step_count_of steps (math_dist (px start) (py start) (px end_) (py end_)) in
  exists sampled st' control1 control2,
    _build_path uniform math_dist math_cos math_sin math_atan2 start end_
      steps st = (Ok (sampled ++ [end_]), st')
    /\ Forall2
         (fun i p =>
            let t := inject_Z i / inject_Z step_count in
            near 6 (px p) (py p)
              (bezier t (px start) (px control1) (px control2) (px end_))
              (bezier t (py start) (py control1) (py control2) (py end_)))
         (range 1 (step_count + 1)) sampled.
Proof.
  intros Huniform step_count.
  destruct (build_path_exact start end_ steps st)
    as (sampled & k & c1 & c2 & Hrun & _ & Hall).
  exists sampled. eexists. exists c1, c2. split; [exact Hrun |].
  fold step_count in Hall.
  eapply Forall2_impl; [| exact Hall].
  intros i p (k1 & k2 & ->). cbv zeta. cbn [px py].
  destruct (jitter_range
              (math_dist (px start) (py start) (px end_) (py end_)))
    as [Hlo Hhi].
  set (jitter := fmin 6 (fmax 1.2
         (math_dist (px start) (py start) (px end_) (py end_) / 60))) in *.
  destruct (Huniform k1 (- jitter) jitter) as [? ?]; [lra |].
  destruct (Huniform k2 (- jitter) jitter) as [? ?]; [lra |].
  unfold near. repeat split; lra.
Qed.

(** X7: [move_to] from a placed pointer issues one single-step low-level
    move per point of its path, the last one to the exact target, after 12
    to 45 sampled points; the recorded trace is the start followed by those
    points when asked for, and is cleared otherwise. *)
Theorem move_to_single_steps (x y : Q) (record_trace : bool)
    (start : Point) (st st' : motion) :
  _position st = Some start ->
  move_to viewport uniform page_raises math_dist math_cos math_sin math_atan2
    x y record_trace st = (Ok tt, st') ->
  exists sampled,
    calls st' = calls st ++ moves_of (sampled ++ [mkPoint x y])
    /\ (12 <= List.length sampled <= 45)%nat
    /\ _human_trace st'
       = if record_trace
         then Some ((px start, py start)
                    :: map (fun p => (px p, py p)) (sampled ++ [mkPoint x y]))
         else None.
Proof.
  intros Hp H.
  destruct (move_to_placed_run _ _ _ _ _ _ Hp H)
    as (sampled & Hc & Hlen & Ht & _).
  exists sampled. split; [exact Hc |]. split; [| exact Ht].
  rewrite Hlen. unfold default_step_count. lia.
Qed.

(** X8: a move that fails leaves the position as it was: when a page call
    raises during [move_to] or [move_direct] on a placed pointer, the
    controller still holds the old position, neither the target nor a
    point of the path. *)
Theorem failed_move_keeps_position (x y : Q) (p : Point) (st : motion) :
  _position st = Some p ->
  (forall record_trace e st',
     move_to viewport uniform page_raises math_dist math_cos math_sin
       math_atan2 x y record_trace st = (Raise e, st') ->
     _position st' = Some p)
  /\ (forall delay steps e st',
        move_direct viewport uniform page_raises x y delay steps st
          = (Raise e, st') ->
        _position st' = Some p).
Proof.
  intros Hp. split.
  - intros record_trace e st' H. unfold move_to in H.
    apply bind_raise_inv in H as [H | (a & s & Hrun & H)];
      [discriminate |].
    unfold get_position in Hrun. inversion Hrun; subst. clear Hrun.
    rewrite Hp in H.
    apply bind_raise_inv in H as [H | (a & s0 & Hrun & H)];
      [discriminate |].
    apply ret_ok_inv in Hrun as [-> ->].
    apply bind_raise_inv in H as [H | (path & s1 & Hrun & H)];
      [exfalso; eapply build_path_never_raises; exact H |].
    apply build_path_ok_inv in Hrun as (sampled & -> & _ & Hpos & _ & _).
    apply bind_raise_inv in H as [H | (u & s2 & Hrun & H)];
      [discriminate |].
    unfold set_human_trace in Hrun. inversion Hrun; subst. clear Hrun.
    apply bind_raise_inv in H as [H | (u' & s3 & Hrun & H)];
      [| discriminate].
    apply move_along_raise in H. cbn [_position] in H. congruence.
  - intros delay steps e st' H. unfold move_direct in H.
    apply bind_raise_inv in H as [H | (a & s & Hrun & H)];
      [discriminate |].
    unfold get_position in Hrun. inversion Hrun; subst. clear Hrun.
    rewrite Hp in H.
    apply bind_raise_inv in H as [H | (a & s0 & Hrun & H)];
      [discriminate |].
    apply ret_ok_inv in Hrun as [_ ->].
    apply bind_raise_inv in H as [H | (a0 & s1 & Hrun & H)].
    { destruct (Qle_bool _ 0) in H; discriminate. }
    assert (Hs1 : _position s1 = _position s).
    { destruct (Qle_bool _ 0) in Hrun.
      - apply ret_ok_inv in Hrun as [_ ->]. reflexivity.
      - unfold asyncio_sleep in Hrun. inversion Hrun. reflexivity. }
    apply bind_raise_inv in H as [H | (a1 & s2 & Hrun' & H)];
      [| discriminate].
    apply page_raise_inv in H. subst. congruence.
Qed.

(** X9: [move_points] on a placed pointer replays the points in order: for
    each one the pause of its delay, made only when the delay is positive,
    then one single-step move; it draws no random number, ends on the last
    point and, given no points, does nothing at all. *)
Theorem move_points_replays_in_order (points : list (Q * Q * option Q))
    (p : Point) (st st' : motion) :
  _position st = Some p ->
  move_points viewport uniform page_raises points st = (Ok tt, st') ->
  calls st' = calls st ++ flat_map replay_of points
  /\ draws st' = draws st
  /\ _human_trace st' = _human_trace st
  /\ (points = [] -> st' = st).
Proof.
  revert p st.
  induction points as [| [[x y] delay] rest IH]; intros p st Hp H.
  - cbn in H. apply ret_ok_inv in H as [_ ->].
    cbn. rewrite app_nil_r. auto.
  - cbn [move_points] in H. bind_inv H. destruct a.
    apply (move_direct_placed_run x y delay p st s Hp) in Hrun. subst s.
    apply (IH (mkPoint x y)) in H; [| reflexivity].
    destruct H as (Hc & Hd & Ht & _).
    cbn [_position _human_trace draws calls] in *.
    rewrite Hc, Hd, Ht. cbn [flat_map replay_of].
    rewrite <- !app_assoc.
    repeat split; try reflexivity. discriminate.
Qed.

(** X10: a drag presses once at the start and releases once at the end:
    [drag_and_drop] from a placed pointer is the approach path ending
    exactly on the start point, button down, the dragged path of
    [max(10, int(steps * 1.2))] sampled points ending exactly on the end
    point, button up. *)
Theorem drag_presses_at_start_releases_at_end (start end_ : Point)
    (steps : Z) (p : Point) (st st' : motion) :
  _position st = Some p ->
  drag_and_drop viewport uniform page_raises math_dist math_cos math_sin
    math_atan2 start end_ steps st = (Ok tt, st') ->
  exists approach dragged,
    calls st'
    = calls st ++ moves_of (approach ++ [start]) ++ [MouseDown]
      ++ moves_of (dragged ++ [end_]) ++ [MouseUp]
    /\ List.length dragged
       = Z.to_nat (Z.max 10 (trunc (inject_Z steps * 1.2))).
Proof.
  intros Hp H. unfold drag_and_drop in H.
  bind_inv H. destruct a.
  destruct (move_to_placed_run _ _ _ _ _ _ Hp Hrun)
    as (approach & Hc1 & _ & _ & _).
  clear Hrun.
  bind_inv H. apply page_ok_inv in Hrun. subst s0.
  bind_inv H.
  apply build_path_ok_inv in Hrun as (dragged & -> & Hlen & _ & _ & Hc2).
  bind_inv H. repeat match goal with u : unit |- _ => destruct u end.
  apply move_along_run in Hrun. subst.
  bind_inv H. apply page_ok_inv in Hrun. subst.
  unfold set_position in H. inversion H; subst. clear H.
  cbn [_position _human_trace draws calls] in *.
  exists approach, dragged. split.
  - rewrite Hc2. cbn [calls]. rewrite Hc1.
    destruct start as [sx sy]. cbn [px py].
    rewrite <- !app_assoc. reflexivity.
  - rewrite Hlen. cbn [step_count_of].
    destruct (Z.max 10 (trunc (inject_Z steps * 1.2)) =? 0)%Z eqn:E;
      [apply Z.eqb_eq in E; lia | reflexivity].
Qed.

End Controller.

(** X5: a pointer that was never placed starts inside the visible surface:
    when [random.uniform] stays within its bounds, [_init_position] picks a
    point between 20% and 80% of the viewport's width and height (between
    200 and 600, and 200 and 500, when the viewport is unknown), moves the
    real pointer there once and records it. *)
Theorem init_position_in_visible_band
    (viewport : option (Q * Q)) (uniform : nat -> Q -> Q -> Q)
    (page_raises : nat -> bool) (st st' : motion) (start : Point) :
  uniform_in_range uniform ->
  match viewport with
  | Some (width, height) => 0 <= width /\ 0 <= height
  | None => True
  end ->
  _init_position viewport uniform page_raises st = (Ok start, st') ->
  match viewport with
  | Some (width, height) =>
      width * 0.2 <= px start /\ px start <= width * 0.8
      /\ height * 0.2 <= py start /\ py start <= height * 0.8
  | None =>
      200 <= px start /\ px start <= 600
      /\ 200 <= py start /\ py start <= 500
  end
  /\ _position st' = Some start
  /\ calls st' = calls st ++ [MouseMove (px start) (py start) 1].
Proof.
  intros Huniform Hview H. unfold _init_position in H.
  bind_inv H. bind_inv H. bind_inv H.
  apply ret_ok_inv in H as [-> ->].
  apply page_ok_inv in Hrun0. subst s0.
  unfold set_position in Hrun1. inversion Hrun1; subst. clear Hrun1.
  cbn [_position calls].
  assert (Hcalls : calls s = calls st
          /\ match viewport with
             | Some (width, height) =>
                 width * 0.2 <= px a /\ px a <= width * 0.8
                 /\ height * 0.2 <= py a /\ py a <= height * 0.8
             | None =>
                 200 <= px a /\ px a <= 600 /\ 200 <= py a /\ py a <= 500
             end).
  { destruct viewport as [[width height] |].
    - destruct Hview as [Hw Hh].
      bind_inv Hrun. bind_inv Hrun.
      apply ret_ok_inv in Hrun as [-> ->].
      unfold random_uniform in Hrun0, Hrun1.
      inversion Hrun0; subst. inversion Hrun1; subst. cbn [calls px py].
      destruct (Huniform (draws st) (width * 0.2) (width * 0.8)) as [? ?];
        [lra |].
      destruct (Huniform (S (draws st)) (height * 0.2) (height * 0.8))
        as [? ?]; [lra |].
      cbn [draws]. auto.
    - bind_inv Hrun. bind_inv Hrun.
      apply ret_ok_inv in Hrun as [-> ->].
      unfold random_uniform in Hrun0, Hrun1.
      inversion Hrun0; subst. inversion Hrun1; subst. cbn [calls px py].
      destruct (Huniform (draws st) 200 600) as [? ?]; [lra |].
      destruct (Huniform (S (draws st)) 200 500) as [? ?]; [lra |].
      cbn [draws]. auto. }
  destruct Hcalls as [Hc Hband]. rewrite Hc.
  split; [exact Hband |]. split; [destruct a; reflexivity | reflexivity].
Qed.

Lemma draw_middle_in_range : uniform_in_range draw_middle.
Proof.
  intros k a b Hab. unfold draw_middle. split.
  - apply Qle_shift_div_l; [reflexivity | lra].
  - apply Qle_shift_div_r; [reflexivity | lra].
Defined.

Lemma init_position_in_visible_band_witness :
  exists start st',
    _init_position (Some (1280, 720)) draw_middle calm_page
      (mkMotion None None 0 []) = (Ok start, st')
    /\ 1280 * 0.2 <= px start /\ px start <= 1280 * 0.8.
Proof.
  assert (Hview : 0 <= 1280 /\ 0 <= 720) by (split; discriminate).
  assert (Hrun : exists start st',
            _init_position (Some (1280, 720)) draw_middle calm_page
              (mkMotion None None 0 []) = (Ok start, st'))
    by (do 2 eexists; vm_compute; reflexivity).
  destruct Hrun as (start & st' & Hrun).
  exists start, st'. split; [exact Hrun |].
  destruct (init_position_in_visible_band (Some (1280, 720)) draw_middle
              calm_page (mkMotion None None 0 []) st' start
              draw_middle_in_range Hview Hrun) as ((Hx1 & Hx2 & _) & _).
  split; [exact Hx1 | exact Hx2].
Defined.

Lemma build_path_points_near_curve_witness :
  uniform_in_range draw_middle
  /\ exists sampled st' control1 control2,
       _build_path draw_middle manhattan flat flat flat2
         (mkPoint 0 0) (mkPoint 120 0) (Some 2%Z) (mkMotion None None 0 [])
       = (Ok (sampled ++ [mkPoint 120 0]), st')
       /\ Forall2
            (fun i p =>
               near 6 (px p) (py p)
                 (bezier (inject_Z i / inject_Z 2)
                    0 (px control1) (px control2) 120)
                 (bezier (inject_Z i / inject_Z 2)
                    0 (py control1) (py control2) 0))
            (range 1 3) sampled.
Proof.
  split; [exact draw_middle_in_range |].
  exact (build_path_points_near_curve draw_middle manhattan flat flat flat2
           (mkPoint 0 0) (mkPoint 120 0) (Some 2%Z) (mkMotion None None 0 [])
           draw_middle_in_range).
Defined.

Lemma move_to_single_steps_witness :
  exists st' sampled,
    move_to None draw_middle calm_page manhattan flat flat flat2 120 0 true
      (mkMotion (Some (mkPoint 0 0)) None 0 []) = (Ok tt, st')
    /\ calls st' = moves_of (sampled ++ [mkPoint 120 0])
    /\ (12 <= List.length sampled <= 45)%nat.
Proof.
  assert (Hrun : exists st',
            move_to None draw_middle calm_page manhattan flat flat flat2
              120 0 true (mkMotion (Some (mkPoint 0 0)) None 0 [])
            = (Ok tt, st'))
    by (eexists; vm_compute; reflexivity).
  destruct Hrun as (st' & Hrun).
  destruct (move_to_single_steps None draw_middle calm_page manhattan flat
              flat flat2 120 0 true (mkPoint 0 0)
              (mkMotion (Some (mkPoint 0 0)) None 0 []) st' eq_refl Hrun)
    as (sampled & Hc & Hlen & _).
  exists st', sampled. split; [exact Hrun |]. split; [exact Hc | exact Hlen].
Defined.

Lemma failed_move_keeps_position_witness :
  exists e st',
    move_to None draw_middle third_call_raises manhattan flat flat flat2
      120 0 false (mkMotion (Some (mkPoint 10 10)) None 0 [])
    = (Raise e, st')
    /\ _position st' = Some (mkPoint 10 10).
Proof.
  assert (Hrun : exists e st',
            move_to None draw_middle third_call_raises manhattan flat flat
              flat2 120 0 false (mkMotion (Some (mkPoint 10 10)) None 0 [])
            = (Raise e, st'))
    by (do 2 eexists; vm_compute; reflexivity).
  destruct Hrun as (e & st' & Hrun).
  exists e, st'. split; [exact Hrun |].
  exact (proj1 (failed_move_keeps_position None draw_middle
                  third_call_raises manhattan flat flat flat2 120 0
                  (mkPoint 10 10) (mkMotion (Some (mkPoint 10 10)) None 0 [])
                  eq_refl) false e st' Hrun).
Defined.

Lemma move_points_replays_in_order_witness :
  exists st',
    move_points None draw_middle calm_page
      [(1, 2, None); (3, 4, Some 0.5); (5, 6, Some 0)]
      (mkMotion (Some (mkPoint 0 0)) None 0 []) = (Ok tt, st')
    /\ calls st'
       = [MouseMove 1 2 1; AsyncSleep 0.5; MouseMove 3 4 1; MouseMove 5 6 1].
Proof.
  assert (Hrun : exists st',
            move_points None draw_middle calm_page
              [(1, 2, None); (3, 4, Some 0.5); (5, 6, Some 0)]
              (mkMotion (Some (mkPoint 0 0)) None 0 []) = (Ok tt, st'))
    by (eexists; vm_compute; reflexivity).
  destruct Hrun as (st' & Hrun).
  exists st'. split; [exact Hrun |].
  exact (proj1 (move_points_replays_in_order None draw_middle calm_page
                  [(1, 2, None); (3, 4, Some 0.5); (5, 6, Some 0)]
                  (mkPoint 0 0) (mkMotion (Some (mkPoint 0 0)) None 0 [])
                  st' eq_refl Hrun)).
Defined.

Lemma drag_presses_at_start_releases_at_end_witness :
  exists st' approach dragged,
    drag_and_drop None draw_middle calm_page manhattan flat flat flat2
      (mkPoint 10 10) (mkPoint 200 50) 30
      (mkMotion (Some (mkPoint 0 0)) None 0 []) = (Ok tt, st')
    /\ calls st'
       = moves_of (approach ++ [mkPoint 10 10]) ++ [MouseDown]
         ++ moves_of (dragged ++ [mkPoint 200 50]) ++ [MouseUp]
    /\ List.length dragged = 36%nat.
Proof.
  assert (Hrun : exists st',
            drag_and_drop None draw_middle calm_page manhattan flat flat
              flat2 (mkPoint 10 10) (mkPoint 200 50) 30
              (mkMotion (Some (mkPoint 0 0)) None 0 []) = (Ok tt, st'))
    by (eexists; vm_compute; reflexivity).
  destruct Hrun as (st' & Hrun).
  destruct (drag_presses_at_start_releases_at_end None draw_middle calm_page
              manhattan flat flat flat2 (mkPoint 10 10) (mkPoint 200 50) 30
              (mkPoint 0 0) (mkMotion (Some (mkPoint 0 0)) None 0 []) st'
              eq_refl Hrun)
    as (approach & dragged & Hc & Hlen).
  exists st', approach, dragged.
  split; [exact Hrun |]. split; [exact Hc | exact Hlen].
Defined.

Lemma click_presses_once_on_target_witness :
  exists st' sampled,
    click None draw_middle calm_page manhattan flat flat flat2 120 0 0 0.3
      false (mkMotion (Some (mkPoint 0 0)) None 0 []) = (Ok tt, st')
    /\ calls st'
       = moves_of sampled ++ [MouseMove 120 0 1] ++ []
         ++ [MouseDown; MouseUp] ++ [AsyncSleep 0.3].
Proof.
  assert (Hrun : exists st',
            click None draw_middle calm_page manhattan flat flat flat2
              120 0 0 0.3 false (mkMotion (Some (mkPoint 0 0)) None 0 [])
            = (Ok tt, st'))
    by (eexists; vm_compute; reflexivity).
  destruct Hrun as (st' & Hrun).
  destruct (click_presses_once_on_target None draw_middle calm_page manhattan
              flat flat flat2 120 0 0 0.3 false (mkPoint 0 0)
              (mkMotion (Some (mkPoint 0 0)) None 0 []) st' eq_refl Hrun)
    as (sampled & Hc & _).
  exists st', sampled. split; [exact Hrun | exact Hc].
Defined.

End MotionMoreFacts.
(** ** More of core/solver.py: answers turned into pointer gestures *)

Module SolverMoreFacts.

Import Motion Solver Claims EffFacts.

Lemma Qlt_bool_true (a b : Q) : Qlt_bool a b = true -> a < b.
Proof.
  unfold Qlt_bool. intros H. apply negb_true_iff in H.
  destruct (Qlt_le_dec a b) as [Hlt | Hle]; [exact Hlt |].
  apply Qle_bool_iff in Hle. congruence.
Qed.

Lemma Qlt_bool_false (a b : Q) : Qlt_bool a b = false -> b <= a.
Proof.
  unfold Qlt_bool. intros H. apply negb_false_iff in H.
  apply Qle_bool_iff. exact H.
Qed.



Lemma index_in {A : Type} (xs : list A) (i : Z) (a : A) :
  index xs i = Ok a -> In a xs.
Proof.
  unfold index. cbv zeta.
  destruct (_ && _)%bool; [| discriminate].
  destruct (nth_error xs _) eqn:E; [| discriminate].
  intros H. inversion H; subst. eapply nth_error_In. exact E.
Qed.

(** X11: [_find_primary_canvas] returns the first canvas whose box is at
    least 100 by 100: every canvas before it has no box or is smaller, and
    no canvas is returned only when all of them are passed over. *)
Theorem find_primary_canvas_first_fit (cs : list element) :
  match _find_primary_canvas cs with
  | Some c =>
      exists pre post b,
        cs = pre ++ c :: post
        /\ Forall passed_over pre
        /\ bounding_box c = Some b /\ 100 <= bw b /\ 100 <= bh b
  | None => Forall passed_over cs
  end.
Proof.
  induction cs as [| canvas rest IH]; cbn [_find_primary_canvas].
  - constructor.
  - destruct (bounding_box canvas) as [b |] eqn:Hb.
    + destruct (Qlt_bool (bw b) 100) eqn:Ew; cbn [orb].
      * assert (Hp : passed_over canvas).
        { unfold passed_over. rewrite Hb. left.
          apply Qlt_bool_true. exact Ew. }
        destruct (_find_primary_canvas rest) as [c |].
        -- destruct IH as (pre & post & b' & -> & Hpre & Hrest).
           exists (canvas :: pre), post, b'. split; [reflexivity |].
           split; [constructor; assumption | exact Hrest].
        -- constructor; assumption.
      * destruct (Qlt_bool (bh b) 100) eqn:Eh.
        -- assert (Hp : passed_over canvas).
           { unfold passed_over. rewrite Hb. right.
             apply Qlt_bool_true. exact Eh. }
           destruct (_find_primary_canvas rest) as [c |].
           ++ destruct IH as (pre & post & b' & -> & Hpre & Hrest).
              exists (canvas :: pre), post, b'. split; [reflexivity |].
              split; [constructor; assumption | exact Hrest].
           ++ constructor; assumption.
        -- exists [], rest, b. split; [reflexivity |].
           split; [constructor |]. split; [exact Hb |].
           split; apply Qlt_bool_false; assumption.
    + assert (Hp : passed_over canvas)
        by (unfold passed_over; rewrite Hb; exact I).
      destruct (_find_primary_canvas rest) as [c |].
      * destruct IH as (pre & post & b' & -> & Hpre & Hrest).
        exists (canvas :: pre), post, b'. split; [reflexivity |].
        split; [constructor; assumption | exact Hrest].
      * constructor; assumption.
Qed.

Section Paths.
Variable str_to_float : string -> option Q.



End Paths.

Section Gestures.
Variable viewport : option (Q * Q).
Variable uniform : nat -> Q -> Q -> Q.
Variable page_raises : nat -> bool.

Lemma pointer_after_nothing (st : solver) :
  with_motion (pointer_after st (_position (motion_state st)) 0 []) st = st.
Proof.
  unfold pointer_after, with_motion. rewrite Nat.add_0_r, app_nil_r.
  destruct st as [[? ? ? ?] ? ? ? ? ?]. reflexivity.
Qed.

Lemma motion_move_direct_run (x y : Q) (delay : option Q) (p : Point)
    (st st' : solver) :
  _position (motion_state st) = Some p ->
  motion_move_direct viewport uniform page_raises x y delay st = (Ok tt, st') ->
  st' = with_motion
          (pointer_after st (Some (mkPoint x y)) 0
             (pause_of delay ++ [MouseMove x y 1])) st.
Proof.
  intros Hp H. unfold motion_move_direct in H.
  apply ActionFacts.on_motion_ok_inv in H as (ms & H & ->).
  apply (MotionMoreFacts.move_direct_placed_run _ _ _ _ _ _ _ _ _ Hp) in H.
  subst ms. unfold pointer_after. rewrite Nat.add_0_r. reflexivity.
Qed.

Lemma page_run (c : page_call) (st st' : solver) (u : unit) :
  on_motion (page page_raises c) st = (Ok u, st') ->
  st' = with_motion
          (pointer_after st (_position (motion_state st)) 0 [c]) st.
Proof.
  intros H. apply ActionFacts.on_motion_ok_inv in H as (ms & H & ->).
  apply MotionMoreFacts.page_ok_inv in H. subst ms.
  unfold pointer_after. rewrite Nat.add_0_r. reflexivity.
Qed.

Lemma motion_click_here_run (st st' : solver) :
  motion_click_here page_raises st = (Ok tt, st') ->
  st' = with_motion
          (pointer_after st (_position (motion_state st)) 0
             [MouseDown; MouseUp]) st.
Proof.
  intros H. unfold motion_click_here in H.
  apply ActionFacts.on_motion_ok_inv in H as (ms & H & ->).
  unfold click_here in H.
  bind_inv H. cbn in Hrun. apply ret_ok_inv in Hrun as [_ ->].
  bind_inv H. apply MotionMoreFacts.page_ok_inv in Hrun. subst.
  bind_inv H. apply MotionMoreFacts.page_ok_inv in Hrun. subst.
  cbn in H. apply ret_ok_inv in H as [_ ->].
  unfold pointer_after. cbn [_position _human_trace draws calls].
  rewrite Nat.add_0_r, <- app_assoc. reflexivity.
Qed.

(** A direct move with no delay followed by a click in place. *)
Lemma click_at_run (x y : Q) (p : Point) (st st' : solver) :
  _position (motion_state st) = Some p ->
  (motion_move_direct viewport uniform page_raises x y None ;;;
   motion_click_here page_raises) st = (Ok tt, st') ->
  st' = with_motion
          (pointer_after st (Some (mkPoint x y)) 0 (click_at (x, y))) st.
Proof.
  intros Hp H. bind_inv H. destruct a.
  apply (motion_move_direct_run _ _ _ _ _ _ Hp) in Hrun. subst s.
  apply motion_click_here_run in H. subst st'.
  unfold pointer_after, with_motion, click_at, pause_of.
  cbn [motion_state _position _human_trace draws calls last_mouse_position
       token _token_event _response_listener_attached failures fst snd app].
  rewrite !Nat.add_0_r, <- app_assoc. reflexivity.
Qed.

Lemma move_points_run (points : list (Q * Q * option Q)) :
  forall (p : Point) (m m' : motion),
    _position m = Some p ->
    move_points viewport uniform page_raises points m = (Ok tt, m') ->
    calls m' = calls m ++ flat_map replay_of points
    /\ _position m'
       = Some (match last_opt points with
               | Some (x, y, _) => mkPoint x y
               | None => p
               end).
Proof.
  induction points as [| [[x y] delay] rest IH]; intros p m m' Hp H.
  - cbn in H. apply ret_ok_inv in H as [_ ->].
    cbn. rewrite app_nil_r. rewrite Hp. auto.
  - cbn [move_points] in H. bind_inv H. destruct a.
    apply (MotionMoreFacts.move_direct_placed_run _ _ _ _ _ _ _ _ _ Hp)
      in Hrun. subst s.
    apply (IH (mkPoint x y)) in H; [| reflexivity].
    destruct H as (Hc & Hq).
    cbn [_position _human_trace draws calls] in Hc.
    rewrite Hc, Hq. cbn [flat_map replay_of]. rewrite <- !app_assoc.
    split; [reflexivity |].
    f_equal. cbn [last_opt].
    destruct rest as [| q rest']; [reflexivity |].
    cbn [last_opt].
    rewrite (MotionFacts.last_cons_default rest' (x, y, delay) q).
    reflexivity.
Qed.

Lemma motion_move_points_run (points : list (Q * Q * option Q)) (p : Point)
    (st st' : solver) :
  _position (motion_state st) = Some p ->
  motion_move_points viewport uniform page_raises points st = (Ok tt, st') ->
  calls (motion_state st')
  = calls (motion_state st) ++ flat_map replay_of points
  /\ _position (motion_state st')
     = Some (match last_opt points with
             | Some (x, y, _) => mkPoint x y
             | None => p
             end)
  /\ last_mouse_position st' = last_mouse_position st.
Proof.
  intros Hp H. unfold motion_move_points in H.
  apply ActionFacts.on_motion_ok_inv in H as (ms & H & ->).
  cbn [with_motion motion_state last_mouse_position].
  destruct (move_points_run points p _ _ Hp H) as [Hc Hq].
  auto.
Qed.

(** X13: a drag replayed from a path presses once and releases once:
    [_perform_drag_action] on a placed pointer moves to the first point
    after its delay, presses, replays the other points in order, releases,
    and leaves the pointer and the last known position on the last point.
    An empty path does nothing. *)
Theorem drag_action_presses_once (first_x first_y : Q) (first_delay : option Q)
    (rest : list (Q * Q * option Q)) (p : Point) (st st' : solver) :
  _position (motion_state st) = Some p ->
  _perform_drag_action viewport uniform page_raises
    ((first_x, first_y, first_delay) :: rest) st = (Ok tt, st') ->
  let '(last_x, last_y, _) := last rest (first_x, first_y, first_delay) in
  calls (motion_state st')
  = calls (motion_state st)
    ++ replay_of (first_x, first_y, first_delay) ++ [MouseDown]
    ++ flat_map replay_of rest ++ [MouseUp]
  /\ _position (motion_state st') = Some (mkPoint last_x last_y)
  /\ last_mouse_position st' = (last_x, last_y)
  /\ _perform_drag_action viewport uniform page_raises [] st = (Ok tt, st).
Proof.
  intros Hp H. cbn [_perform_drag_action] in H.
  bind_inv H. destruct a.
  apply (motion_move_direct_run _ _ _ _ _ _ Hp) in Hrun. subst s.
  bind_inv H. unfold page_mouse_down, mouse_down in Hrun.
  apply page_run in Hrun. subst.
  bind_inv H. repeat match goal with u : unit |- _ => destruct u end.
  apply (motion_move_points_run rest (mkPoint first_x first_y)) in Hrun;
    [| reflexivity].
  destruct Hrun as (Hc & Hq & Hl).
  bind_inv H. unfold page_mouse_up, mouse_up in Hrun.
  apply page_run in Hrun. subst.
  assert (Hpause : pause_of (Some match first_delay with
                                  | Some d => d
                                  | None => 0
                                  end) = pause_of first_delay).
  { destruct first_delay; reflexivity. }
  destruct (last rest (first_x, first_y, first_delay))
    as [[last_x last_y] last_delay] eqn:Hlast.
  unfold _set_last_mouse_position in H. inversion H; subst. clear H.
  cbn [motion_state with_motion pointer_after _position _human_trace draws
       calls last_mouse_position] in *.
  rewrite Hc, Hq, Hpause. cbn [replay_of].
  rewrite <- !app_assoc. cbn [app].
  split; [reflexivity |]. split; [| split; reflexivity].
  f_equal. destruct rest as [| q rest']; cbn [last_opt].
  - cbn in Hlast. inversion Hlast. reflexivity.
  - rewrite (MotionFacts.last_cons_default rest'
               (first_x, first_y, first_delay) q) in Hlast.
    rewrite Hlast. reflexivity.
Qed.

Lemma find_grid_tile_first (tiles : list (option box)) (x y : Q) :
  match _find_grid_tile tiles x y with
  | Some b =>
      exists pre post,
        tiles = pre ++ Some b :: post
        /\ Forall (misses x y) pre /\ holds b x y
  | None => Forall (misses x y) tiles
  end.
Proof.
  induction tiles as [| [b |] rest IH]; cbn [_find_grid_tile].
  - constructor.
  - cbv zeta.
    destruct (Qle_bool (bx b) x && Qle_bool x (bx b + bw b)
              && (Qle_bool (by_ b) y && Qle_bool y (by_ b + bh b)))%bool
      eqn:E.
    + exists [], rest. split; [reflexivity |]. split; [constructor |].
      apply andb_true_iff in E as [E1 E2].
      apply andb_true_iff in E1 as [? ?].
      apply andb_true_iff in E2 as [? ?].
      unfold holds. repeat split; apply Qle_bool_iff; assumption.
    + assert (Hm : misses x y (Some b)).
      { cbn. intros (H1 & H2 & H3 & H4).
        apply Qle_bool_iff in H1, H2, H3, H4.
        rewrite H1, H2, H3, H4 in E. discriminate. }
      destruct (_find_grid_tile rest x y) as [b' |].
      * destruct IH as (pre & post & -> & Hpre & Hb).
        exists (Some b :: pre), post. split; [reflexivity |].
        split; [constructor; assumption | exact Hb].
      * constructor; assumption.
  - destruct (_find_grid_tile rest x y) as [b' |].
    + destruct IH as (pre & post & -> & Hpre & Hb).
      exists (None :: pre), post. split; [reflexivity |].
      split; [constructor; [exact I | assumption] | exact Hb].
    + constructor; [exact I | assumption].
Qed.

(** X14: a coordinate answer on a grid snaps to the tile under it:
    [_click_grid_coordinate] on a placed pointer makes one move, press and
    release at the centre of the first tile whose box holds the point, and
    at the point itself when no tile holds it; the last known position is
    where it clicked. *)
Theorem grid_coordinate_snaps_to_tile (grid : element) (x y : Q) (p : Point)
    (st st' : solver) :
  _position (motion_state st) = Some p ->
  _click_grid_coordinate viewport uniform page_raises grid x y st
    = (Ok tt, st') ->
  exists t,
    calls (motion_state st') = calls (motion_state st) ++ click_at t
    /\ _position (motion_state st') = Some (mkPoint (fst t) (snd t))
    /\ last_mouse_position st' = t
    /\ ((exists pre b post,
           tile_boxes grid = pre ++ Some b :: post
           /\ Forall (misses x y) pre /\ holds b x y /\ t = centre b)
        \/ (Forall (misses x y) (tile_boxes grid) /\ t = (x, y))).
Proof.
  intros Hp H. unfold _click_grid_coordinate in H.
  pose proof (find_grid_tile_first (tile_boxes grid) x y) as Hfind.
  destruct (_find_grid_tile (tile_boxes grid) x y) as [b |].
  - cbv zeta in H. exists (centre b).
    apply bind_ok_inv in H as (u & s & Hmove & H).
    apply bind_ok_inv in H as (u' & s' & Hclick & H).
    destruct u, u'.
    assert (Hboth : (motion_move_direct viewport uniform page_raises
                       (bx b + bw b / 2) (by_ b + bh b / 2) None ;;;
                     motion_click_here page_raises) st = (Ok tt, s')).
    { unfold bind. rewrite Hmove. exact Hclick. }
    apply (click_at_run _ _ _ _ _ Hp) in Hboth. subst s'.
    unfold _set_last_mouse_position in H. inversion H; subst. clear H.
    cbn [motion_state with_motion pointer_after _position calls
         last_mouse_position centre fst snd].
    repeat split; try reflexivity.
    left. destruct Hfind as (pre & post & Ht & Hpre & Hb).
    exists pre, b, post. auto.
  - exists (x, y).
    apply bind_ok_inv in H as (u & s & Hmove & H).
    apply bind_ok_inv in H as (u' & s' & Hclick & H).
    destruct u, u'.
    assert (Hboth : (motion_move_direct viewport uniform page_raises
                       x y None ;;;
                     motion_click_here page_raises) st = (Ok tt, s')).
    { unfold bind. rewrite Hmove. exact Hclick. }
    apply (click_at_run _ _ _ _ _ Hp) in Hboth. subst s'.
    unfold _set_last_mouse_position in H. inversion H; subst. clear H.
    cbn [motion_state with_motion pointer_after _position calls
         last_mouse_position fst snd].
    repeat split; try reflexivity.
    right. auto.
Qed.

Lemma click_tiles_run (tiles : list (option box)) (indices : list Z) :
  uniform_in_range uniform ->
  forall (p : Point) (st st' : solver),
    _position (motion_state st) = Some p ->
    click_tiles viewport uniform page_raises tiles indices st = (Ok tt, st') ->
    exists targets,
      calls (motion_state st')
      = calls (motion_state st) ++ flat_map click_at targets
      /\ (List.length targets <= List.length indices)%nat
      /\ Forall (fun t =>
                   exists b,
                     In (Some b) tiles
                     /\ near 10 (fst t) (snd t)
                          (fst (centre b)) (snd (centre b))) targets
      /\ last_mouse_position st' = last targets (last_mouse_position st)
      /\ draws (motion_state st')
         = (draws (motion_state st) + 2 * List.length targets)%nat
      /\ exists q, _position (motion_state st') = Some q.
Proof.
  intros Huniform.
  induction indices as [| i rest IH]; intros p st st' Hp H.
  - cbn in H. apply ret_ok_inv in H as [_ ->].
    exists []. cbn. rewrite app_nil_r, Nat.add_0_r.
    repeat split; eauto.
  - cbn [click_tiles] in H.
    destruct (Z.of_nat (List.length tiles) <=? i)%Z.
    { destruct (IH p st st' Hp H) as (targets & Hc & Hlen & Hrest).
      exists targets. split; [exact Hc |].
      split; [cbn [List.length]; lia | exact Hrest]. }
    apply bind_ok_inv in H as (tile & s & Htile & H).
    unfold lift in Htile. inversion Htile as [[Hidx Hs]]. subst s.
    destruct tile as [b |].
    2:{ destruct (IH p st st' Hp H) as (targets & Hc & Hlen & Hrest).
        exists targets. split; [exact Hc |].
        split; [cbn [List.length]; lia | exact Hrest]. }
    apply index_in in Hidx.
    apply bind_ok_inv in H as (offset_x & s1 & Hx & H).
    apply bind_ok_inv in H as (offset_y & s2 & Hy & H).
    unfold random_uniform in Hx, Hy.
    apply ActionFacts.on_motion_ok_inv in Hx as (m1 & Hx & ->).
    apply ActionFacts.on_motion_ok_inv in Hy as (m2 & Hy & ->).
    unfold Motion.random_uniform in Hx, Hy.
    inversion Hx; subst; clear Hx. inversion Hy; subst; clear Hy.
    cbv zeta in H.
    apply bind_ok_inv in H as (u & s3 & Hmove & H).
    apply bind_ok_inv in H as (u' & s4 & Hclick & H).
    destruct u, u'.
    match type of Hmove with
    | motion_move_direct _ _ _ ?tx ?ty None ?s0 = _ =>
        assert (Hboth : (motion_move_direct viewport uniform page_raises
                           tx ty None ;;;
                         motion_click_here page_raises) s0 = (Ok tt, s4))
          by (unfold bind; rewrite Hmove; exact Hclick);
        apply (click_at_run tx ty p) in Hboth; [| exact Hp]
    end.
    subst s4. clear Hmove Hclick.
    apply bind_ok_inv in H as (u & s5 & Hset & H).
    unfold _set_last_mouse_position in Hset. inversion Hset; subst.
    clear Hset.
    eapply IH in H; [| cbn [motion_state with_motion pointer_after _position];
                       reflexivity].
    destruct H as (targets & Hc & Hlen & Hall & Hl & Hd & Hq).
    cbn [motion_state with_motion pointer_after _position _human_trace draws
         calls last_mouse_position] in Hc, Hl, Hd.
    match type of Hl with
    | _ = last targets ?t => exists (t :: targets)
    end.
    cbn [flat_map List.length fst snd centre].
    split; [rewrite Hc, <- !app_assoc; reflexivity |].
    split; [lia |]. split.
    { constructor; [| exact Hall].
      exists b. split; [exact Hidx |]. cbn [fst snd centre].
      destruct (Huniform (draws (motion_state st)) (-10) 10) as [? ?];
        [lra |].
      destruct (Huniform (Datatypes.S (draws (motion_state st))) (-10) 10)
        as [? ?]; [lra |].
      unfold near. repeat split; lra. }
    split.
    { rewrite Hl. symmetry. apply MotionFacts.last_cons_default. }
    split; [rewrite Hd; lia | exact Hq].
Qed.

(** X15: index answers on a grid click near the middle of their tiles:
    when [random.uniform] stays within its bounds, [_click_grid_tiles] on a
    placed pointer makes, for each index it does not skip, one move, press
    and release within 10 units, on each axis, of the centre of a tile of
    the grid; it makes at most one click per index, draws two random
    numbers per click, and leaves the last known position on the last
    click. Without a grid it does nothing. *)
Theorem grid_tiles_clicked_near_centre (fr : frame) (indices : list Z)
    (p : Point) (st st' : solver) :
  uniform_in_range uniform ->
  _position (motion_state st) = Some p ->
  _click_grid_tiles viewport uniform page_raises fr indices st
    = (Ok tt, st') ->
  match task_grid fr with
  | Some grid =>
      exists targets,
        calls (motion_state st')
        = calls (motion_state st) ++ flat_map click_at targets
        /\ (List.length targets <= List.length indices)%nat
        /\ Forall (fun t =>
                     exists b,
                       In (Some b) (tile_boxes grid)
                       /\ near 10 (fst t) (snd t)
                            (fst (centre b)) (snd (centre b))) targets
        /\ last_mouse_position st' = last targets (last_mouse_position st)
        /\ draws (motion_state st')
           = (draws (motion_state st) + 2 * List.length targets)%nat
  | None => st' = st
  end.
Proof.
  intros Huniform Hp H. unfold _click_grid_tiles in H.
  destruct (task_grid fr) as [grid |].
  - destruct (click_tiles_run (tile_boxes grid) indices Huniform p st st'
                Hp H) as (targets & Hc & Hlen & Hall & Hl & Hd & _).
    exists targets. auto.
  - apply ret_ok_inv in H as [_ ->]. reflexivity.
Qed.

End Gestures.

Section Answers.
Variable str_to_float : string -> option Q.
Variable viewport : option (Q * Q).
Variable uniform : nat -> Q -> Q -> Q.
Variable page_raises : nat -> bool.
Variable math_dist : Q -> Q -> Q -> Q -> Q.
Variable math_cos : Q -> Q.
Variable math_sin : Q -> Q.
Variable math_atan2 : Q -> Q -> Q.

Lemma drag_pairs_odd_tail (b : box) (n : nat) :
  forall (coordinates : list value) (extra : value) (st : solver),
    List.length coordinates = (2 * n)%nat ->
    drag_pairs str_to_float viewport uniform page_raises math_dist math_cos
      math_sin math_atan2 b (coordinates ++ [extra]) st
    = drag_pairs str_to_float viewport uniform page_raises math_dist
        math_cos math_sin math_atan2 b coordinates st.
Proof.
  induction n as [| n IH]; intros coordinates extra st Hlen.
  - destruct coordinates; [reflexivity | discriminate].
  - destruct coordinates as [| start_point [| end_point rest]];
      [discriminate | cbn in Hlen; lia |].
    assert (Hrest : List.length rest = (2 * n)%nat)
      by (cbn [List.length] in Hlen; lia).
    cbn [app drag_pairs].
    destruct (pair_items start_point) as [[[s0 s1] ?] |];
      [| apply IH; exact Hrest].
    destruct (pair_items end_point) as [[[e0 e1] ?] |];
      [| apply IH; exact Hrest].
    unfold bind.
    destruct (lift (float str_to_float s0) st) as [[sx | ?] st1];
      [| reflexivity].
    destruct (lift (float str_to_float s1) st1) as [[sy | ?] st2];
      [| reflexivity].
    destruct (lift (float str_to_float e0) st2) as [[ex | ?] st3];
      [| reflexivity].
    destruct (lift (float str_to_float e1) st3) as [[ey | ?] st4];
      [| reflexivity].
    cbv zeta.
    destruct (motion_drag_and_drop _ _ _ _ _ _ _ _ _ _ st4)
      as [[u | ?] st5]; [| reflexivity].
    destruct (_set_last_mouse_position _ _ st5) as [[u' | ?] st6];
      [| reflexivity].
    apply IH. exact Hrest.
Qed.

(** X16: canvas drag answers are taken two at a time, and a last
    coordinate left without a partner is dropped: with an even number of
    coordinates before it, [_drag_canvas_pairs] behaves exactly as if the
    extra coordinate were not there, whatever that coordinate is. *)
Theorem unpaired_drag_coordinate_dropped (fr : frame)
    (coordinates : list value) (extra : value) (st : solver) :
  Nat.even (List.length coordinates) = true ->
  _drag_canvas_pairs str_to_float viewport uniform page_raises math_dist
    math_cos math_sin math_atan2 fr (coordinates ++ [extra]) st
  = _drag_canvas_pairs str_to_float viewport uniform page_raises math_dist
      math_cos math_sin math_atan2 fr coordinates st.
Proof.
  intros Heven. apply Nat.even_spec in Heven as [n Hn].
  unfold _drag_canvas_pairs.
  destruct (_find_primary_canvas (canvases fr)) as [canvas |];
    [| reflexivity].
  destruct (bounding_box canvas) as [b |]; [| reflexivity].
  apply (drag_pairs_odd_tail b n). exact Hn.
Qed.

Lemma execute_action_idle (request_type : string) (target_root : element)
    (submit_box : box) (converter : value -> value -> result (Q * Q))
    (action : value) (vars vars' : bool * option (Q * Q))
    (st st' : solver) :
  execute_action str_to_float viewport uniform page_raises request_type
    target_root submit_box converter action vars st = (Ok vars', st') ->
  (fst vars' = true /\ snd vars' <> None)
  \/ (vars' = vars /\ st' = st).
Proof.
  intros H. unfold execute_action in H.
  apply bind_ok_inv in H as ([is_drag converted_path] & s & Hconv & H).
  unfold lift in Hconv. inversion Hconv as [[Hc Hs]]. subst s. clear Hconv.
  destruct is_drag.
  - apply bind_ok_inv in H as (u & s & Hdrag & H).
    apply ret_ok_inv in H as [Hv ->]. subst vars'.
    destruct converted_path as [| q rest].
    + cbn in Hdrag. apply ret_ok_inv in Hdrag as [_ ->]. right. auto.
    + left. cbn [last_opt]. destruct (last rest q) as [[? ?] ?].
      split; [reflexivity | discriminate].
  - destruct (last_opt converted_path) as [[[last_x last_y] ?] |].
    + left. apply bind_ok_inv in H as (u & s & _ & H).
      destruct (_point_inside_box submit_box last_x last_y).
      * apply bind_ok_inv in H as (? & ? & _ & H).
        apply bind_ok_inv in H as (? & ? & _ & H).
        apply bind_ok_inv in H as (? & ? & _ & H).
        apply ret_ok_inv in H as [Hv _]; subst vars'.
        split; [reflexivity | discriminate].
      * destruct (String.eqb request_type "Grid").
        -- apply bind_ok_inv in H as (? & ? & _ & H).
           apply ret_ok_inv in H as [Hv _]; subst vars'.
           split; [reflexivity | discriminate].
        -- apply bind_ok_inv in H as (? & ? & _ & H).
           apply bind_ok_inv in H as (? & ? & _ & H).
           apply ret_ok_inv in H as [Hv _]; subst vars'.
           split; [reflexivity | discriminate].
    + apply bind_ok_inv in H as (target & s & Ht & H).
      unfold lift in Ht. inversion Ht; subst. clear Ht.
      destruct (pair_items target) as [[[t0 t1] ?] |].
      * left. apply bind_ok_inv in H as (? & ? & _ & H).
        apply bind_ok_inv in H as (? & ? & _ & H).
        apply bind_ok_inv in H as (? & ? & _ & H).
        apply ret_ok_inv in H as [Hv _]; subst vars'.
        split; [reflexivity | discriminate].
      * apply ret_ok_inv in H as [Hv ->]. subst vars'. right. auto.
Qed.

Lemma execute_loop_idle (request_type : string) (target_root : element)
    (submit_box : box) (converter : value -> value -> result (Q * Q))
    (actions : list value) :
  forall (vars vars' : bool * option (Q * Q)) (st st' : solver),
    execute_loop str_to_float viewport uniform page_raises request_type
      target_root submit_box converter actions vars st = (Ok vars', st') ->
    (fst vars = true /\ snd vars <> None
     -> fst vars' = true /\ snd vars' <> None)
    /\ ((fst vars' = true /\ snd vars' <> None)
        \/ (vars' = vars /\ st' = st)).
Proof.
  induction actions as [| action rest IH]; intros vars vars' st st' H.
  - apply ret_ok_inv in H as [Hv ->]. subst vars'.
    split; [auto | right; auto].
  - cbn [execute_loop] in H.
    apply bind_ok_inv in H as (vars1 & s1 & Hact & H).
    apply execute_action_idle in Hact.
    apply IH in H. destruct H as [Hkeep Hend].
    destruct Hact as [Hdid | [-> ->]].
    + split; [intros _ |]; [| left]; apply Hkeep; exact Hdid.
    + split; [exact Hkeep | exact Hend].
Qed.

(** X17: a batch of structured actions that reports [False] has not
    touched anything: when [_execute_actions] returns [False] the solver,
    its pointer and its last known position are exactly as before, also
    when the batch was not empty and its elements were found. *)
Theorem execute_actions_false_untouched (fr : frame) (request_type : string)
    (actions : list value) (st st' : solver) :
  _execute_actions str_to_float viewport uniform page_raises fr request_type
    actions st = (Ok false, st') ->
  st' = st.
Proof.
  intros H. unfold _execute_actions in H.
  destruct actions as [| action rest];
    [apply ret_ok_inv in H as [_ ->]; reflexivity |].
  destruct (if String.eqb request_type "Grid" then task_grid fr
            else _find_primary_canvas (canvases fr)) as [root |];
    [| apply ret_ok_inv in H as [_ ->]; reflexivity].
  destruct (button_submit fr) as [submit |];
    [| apply ret_ok_inv in H as [_ ->]; reflexivity].
  destruct (bounding_box root) as [root_box |];
    [| apply ret_ok_inv in H as [_ ->]; reflexivity].
  destruct (bounding_box submit) as [submit_box |];
    [| apply ret_ok_inv in H as [_ ->]; reflexivity].
  cbv zeta in H.
  apply bind_ok_inv in H as (canvas_relative & s & Hrel & H).
  unfold lift in Hrel. inversion Hrel; subst. clear Hrel.
  apply bind_ok_inv in H as (vars & s1 & Hloop & H).
  apply execute_loop_idle in Hloop as [_ Hend].
  apply bind_ok_inv in H as (u & s2 & Hset & H).
  apply ret_ok_inv in H as [Hfalse ->].
  destruct Hend as [[Htrue _] | [-> ->]]; [congruence |].
  cbn [snd] in Hset. apply ret_ok_inv in Hset as [_ ->]. reflexivity.
Qed.

End Answers.

Section Flat.
Variable str_to_float : string -> option Q.
Variable str_to_int : string -> option Z.
Variable viewport : option (Q * Q).
Variable uniform : nat -> Q -> Q -> Q.
Variable page_raises : nat -> bool.
Variable math_dist : Q -> Q -> Q -> Q -> Q.
Variable math_cos : Q -> Q.
Variable math_sin : Q -> Q.
Variable math_atan2 : Q -> Q -> Q.

(** X29: for flat answers [True] does not mean that something was
    clicked. With a request type of Grid, Canvas or Drag, [_apply_answers]
    reports [True] and leaves the solver untouched for an empty list, also
    when it comes wrapped as the [answers] of an object, and, for Canvas
    and Drag, for any list not starting with an object when the frame has
    no canvas of at least 100 by 100. *)
Theorem flat_answers_reported_applied (fr : frame) (request_type : string)
    (items : list value) (st : solver) :
  request_type = "Grid" \/ request_type = "Canvas" \/ request_type = "Drag" ->
  _apply_answers str_to_float str_to_int viewport uniform page_raises
    math_dist math_cos math_sin math_atan2 fr request_type (VList []) st
  = (Ok true, st)
  /\ _apply_answers str_to_float str_to_int viewport uniform page_raises
       math_dist math_cos math_sin math_atan2 fr request_type
       (VDict [("answers", VList [])]) st
     = (Ok true, st)
  /\ (request_type <> "Grid" ->
      _find_primary_canvas (canvases fr) = None ->
      match items with
      | first :: _ => is_dict first = false
      | [] => True
      end ->
      _apply_answers str_to_float str_to_int viewport uniform page_raises
        math_dist math_cos math_sin math_atan2 fr request_type (VList items)
        st
      = (Ok true, st)).
Proof.
  intros Htype.
  assert (Hempty : apply_sequence str_to_float str_to_int viewport uniform
                     page_raises math_dist math_cos math_sin math_atan2 fr
                     request_type (VList []) st = (Ok true, st)).
  { unfold apply_sequence. cbn [is_sequence negb iterate].
    unfold bind, lift.
    destruct Htype as [-> | [-> | ->]];
      cbn [String.eqb Ascii.eqb Bool.eqb to_indices].
    - unfold _click_grid_tiles. destruct (task_grid fr); reflexivity.
    - unfold _click_canvas_points.
      destruct (_find_primary_canvas (canvases fr)) as [canvas |];
        [| reflexivity].
      destruct (bounding_box canvas); reflexivity.
    - unfold _drag_canvas_pairs.
      destruct (_find_primary_canvas (canvases fr)) as [canvas |];
        [| reflexivity].
      destruct (bounding_box canvas); reflexivity. }
  split; [| split].
  - unfold _apply_answers, try_except. rewrite Hempty. reflexivity.
  - unfold _apply_answers, try_except.
    cbn [dict_get assoc String.eqb Ascii.eqb Bool.eqb or_else truthy
         is_sequence iterate].
    unfold bind, lift. rewrite Hempty. reflexivity.
  - intros Hgrid Hcanvas Hfirst.
    unfold _apply_answers, try_except, apply_sequence.
    cbn [is_sequence negb iterate]. unfold bind, lift.
    assert (Hdict : match items with
                    | first :: _ => is_dict first
                    | [] => false
                    end = false)
      by (destruct items; [reflexivity | exact Hfirst]).
    rewrite Hdict.
    destruct Htype as [-> | [-> | ->]]; [congruence | |];
      cbn [String.eqb Ascii.eqb Bool.eqb];
      unfold _click_canvas_points, _drag_canvas_pairs; rewrite Hcanvas;
      reflexivity.
Qed.

End Flat.

Lemma drag_action_presses_once_witness :
  exists st',
    _perform_drag_action None draw_low calm_page
      [(5, 5, Some 0.02); (50, 60, None); (70, 80, Some 0.01)] demo_solver
    = (Ok tt, st')
    /\ calls (motion_state st')
       = [AsyncSleep 0.02; MouseMove 5 5 1; MouseDown; MouseMove 50 60 1;
          AsyncSleep 0.01; MouseMove 70 80 1; MouseUp]
    /\ last_mouse_position st' = (70, 80).
Proof.
  assert (Hrun : exists st',
            _perform_drag_action None draw_low calm_page
              [(5, 5, Some 0.02); (50, 60, None); (70, 80, Some 0.01)]
              demo_solver = (Ok tt, st'))
    by (eexists; vm_compute; reflexivity).
  destruct Hrun as (st' & Hrun).
  exists st'. split; [exact Hrun |].
  pose proof (drag_action_presses_once None draw_low calm_page 5 5
                (Some 0.02) [(50, 60, None); (70, 80, Some 0.01)]
                (mkPoint 1 1) demo_solver st' eq_refl Hrun) as H.
  cbn [last] in H. destruct H as (Hc & _ & Hl & _).
  split; [exact Hc | exact Hl].
Defined.

Lemma grid_coordinate_snaps_to_tile_witness :
  exists st' t,
    _click_grid_coordinate None draw_low calm_page demo_grid 50 30
      demo_solver = (Ok tt, st')
    /\ calls (motion_state st') = click_at t
    /\ last_mouse_position st' = t.
Proof.
  assert (Hrun : exists st',
            _click_grid_coordinate None draw_low calm_page demo_grid 50 30
              demo_solver = (Ok tt, st'))
    by (eexists; vm_compute; reflexivity).
  destruct Hrun as (st' & Hrun).
  destruct (grid_coordinate_snaps_to_tile None draw_low calm_page demo_grid
              50 30 (mkPoint 1 1) demo_solver st' eq_refl Hrun)
    as (t & Hc & _ & Hl & _).
  exists st', t. split; [exact Hrun |]. split; [exact Hc | exact Hl].
Defined.

Lemma grid_tiles_clicked_near_centre_witness :
  exists st' targets,
    _click_grid_tiles None draw_middle calm_page demo_frame [0; 5; -1]%Z
      demo_solver = (Ok tt, st')
    /\ calls (motion_state st') = flat_map click_at targets
    /\ (List.length targets <= 3)%nat.
Proof.
  assert (Hrun : exists st',
            _click_grid_tiles None draw_middle calm_page demo_frame
              [0; 5; -1]%Z demo_solver = (Ok tt, st'))
    by (eexists; vm_compute; reflexivity).
  destruct Hrun as (st' & Hrun).
  destruct (grid_tiles_clicked_near_centre None draw_middle calm_page
              demo_frame [0; 5; -1]%Z (mkPoint 1 1) demo_solver st'
              MotionMoreFacts.draw_middle_in_range eq_refl Hrun)
    as (targets & Hc & Hlen & _).
  exists st', targets. split; [exact Hrun |]. split; [exact Hc | exact Hlen].
Defined.

Lemma unpaired_drag_coordinate_dropped_witness :
  _drag_canvas_pairs no_parse None draw_low calm_page manhattan flat flat
    flat2 demo_frame
    ([VList [VInt 10; VInt 10]; VList [VInt 90; VInt 40]]
     ++ [VList [VInt 7; VInt 7]]) demo_solver
  = _drag_canvas_pairs no_parse None draw_low calm_page manhattan flat flat
      flat2 demo_frame
      [VList [VInt 10; VInt 10]; VList [VInt 90; VInt 40]] demo_solver.
Proof.
  exact (unpaired_drag_coordinate_dropped no_parse None draw_low calm_page
           manhattan flat flat flat2 demo_frame
           [VList [VInt 10; VInt 10]; VList [VInt 90; VInt 40]]
           (VList [VInt 7; VInt 7]) demo_solver eq_refl).
Defined.

Lemma execute_actions_false_untouched_witness :
  exists st',
    _execute_actions no_parse None draw_low calm_page demo_frame "Canvas"
      [VDict [("type", VStr "click")]; VDict [("type", VStr "drag")]]
      demo_solver = (Ok false, st')
    /\ st' = demo_solver.
Proof.
  assert (Hrun : exists st',
            _execute_actions no_parse None draw_low calm_page demo_frame
              "Canvas"
              [VDict [("type", VStr "click")]; VDict [("type", VStr "drag")]]
              demo_solver = (Ok false, st'))
    by (eexists; vm_compute; reflexivity).
  destruct Hrun as (st' & Hrun).
  exists st'. split; [exact Hrun |].
  exact (execute_actions_false_untouched no_parse None draw_low calm_page
           demo_frame "Canvas"
           [VDict [("type", VStr "click")]; VDict [("type", VStr "drag")]]
           demo_solver st' Hrun).
Defined.

Lemma flat_answers_reported_applied_witness :
  _apply_answers no_parse no_parse_int None draw_low calm_page manhattan flat
    flat flat2 demo_frame "Grid" (VDict [("answers", VList [])]) demo_solver
  = (Ok true, demo_solver).
Proof.
  exact (proj1 (proj2 (flat_answers_reported_applied no_parse no_parse_int
                         None draw_low calm_page manhattan flat flat flat2
                         demo_frame "Grid" [] demo_solver
                         (or_introl eq_refl)))).
Defined.

End SolverMoreFacts.
(** ** More of core/solver.py: what the solver reads off the page *)

Module PageFacts.

Import Motion Solver SolverPage Claims EffFacts.






Section Submit.
Variable viewport : option (Q * Q).
Variable uniform : nat -> Q -> Q -> Q.
Variable page_raises : nat -> bool.
Variable math_dist : Q -> Q -> Q -> Q -> Q.
Variable math_cos : Q -> Q.
Variable math_sin : Q -> Q.
Variable math_atan2 : Q -> Q -> Q.

(** The solver's [motion.click(x, y)] on a placed pointer. *)
Lemma motion_click_run (x y : Q) (p : Point) (st st' : solver) :
  _position (motion_state st) = Some p ->
  motion_click viewport uniform page_raises math_dist math_cos math_sin
    math_atan2 x y st = (Ok tt, st') ->
  exists sampled,
    calls (motion_state st')
    = calls (motion_state st) ++ moves_of sampled ++ click_at (x, y)
    /\ (12 <= List.length sampled <= 45)%nat
    /\ _position (motion_state st') = Some (mkPoint x y)
    /\ last_mouse_position st' = last_mouse_position st.
Proof.
  intros Hp H. unfold motion_click in H.
  apply ActionFacts.on_motion_ok_inv in H as (ms & H & ->).
  eapply MotionMoreFacts.click_placed_run in H; [| exact Hp].
  destruct H as (sampled & Hc & Hlen & Hq).
  exists sampled. cbn [motion_state with_motion last_mouse_position].
  split.
  - rewrite Hc. unfold moves_of. rewrite map_app, <- app_assoc.
    reflexivity.
  - split; [| auto]. rewrite Hlen. unfold default_step_count. lia.
Qed.

(** X20: [_click_submit_button] clicks the middle of the submit control:
    it takes [.button-submit], and [button[type=submit]] only when there is
    no [.button-submit]; on a placed pointer it replays a path of 12 to 45
    sampled points, moves to the exact centre of the control's box, presses
    and releases once, and records the centre as the last known position.
    With no control, or a control without a box, it does nothing. *)
Theorem submit_button_clicked_at_centre (fr : frame) (p : Point)
    (st st' : solver) :
  _position (motion_state st) = Some p ->
  _click_submit_button viewport uniform page_raises math_dist math_cos
    math_sin math_atan2 fr st = (Ok tt, st') ->
  (exists e b sampled,
     submit_control fr e /\ bounding_box e = Some b
     /\ calls (motion_state st')
        = calls (motion_state st) ++ moves_of sampled ++ click_at (centre b)
     /\ (12 <= List.length sampled <= 45)%nat
     /\ _position (motion_state st')
        = Some (mkPoint (fst (centre b)) (snd (centre b)))
     /\ last_mouse_position st' = centre b)
  \/ (no_submit_box fr /\ st' = st).
Proof.
  intros Hp H. unfold _click_submit_button in H. cbv zeta in H.
  destruct (match button_submit fr with
            | Some e => Some e
            | None => submit_fallback fr
            end) as [e |] eqn:He.
  - assert (Hctl : submit_control fr e).
    { unfold submit_control. destruct (button_submit fr) as [e' |].
      - left. exact He.
      - right. auto. }
    destruct (bounding_box e) as [b |] eqn:Hb.
    + left. bind_inv H. destruct a.
      destruct (motion_click_run _ _ _ _ _ Hp Hrun)
        as (sampled & Hc & Hlen & Hq & _).
      unfold _set_last_mouse_position in H. inversion H; subst. clear H.
      exists e, b, sampled.
      cbn [motion_state last_mouse_position centre fst snd].
      repeat split; try assumption; try lia.
    + right. apply ret_ok_inv in H as [_ ->].
      split; [| reflexivity]. right. exists e. auto.
  - right. apply ret_ok_inv in H as [_ ->].
    split; [| reflexivity]. left.
    destruct (button_submit fr); [discriminate | auto].
Qed.

End Submit.

Section Collect.
Variable round2 : Q -> Q.







End Collect.

(** X24: the route handler never lets a [checkcaptcha] response reach the
    page: a request whose URL contains [checkcaptcha] is never continued,
    every outcome it returns is an abort with [failed], and a request to
    any other URL is continued with the solver untouched. Whatever
    happens, only the token and its event change, and a token it stores is
    never empty and comes with the event set. *)
Theorem checkcaptcha_never_continued (url : option string)
    (fetched : result (result value)) (st : solver) :
  let text := match url with Some u => u | None => "" end in
  let '(r, st') := _route_handler url fetched st in
  (contains "checkcaptcha" text = false -> r = Ok RouteContinue /\ st' = st)
  /\ (contains "checkcaptcha" text = true ->
      r <> Ok RouteContinue
      /\ forall a, r = Ok a -> a = RouteAbort "failed")
  /\ motion_state st' = motion_state st
  /\ last_mouse_position st' = last_mouse_position st
  /\ failures st' = failures st
  /\ _response_listener_attached st' = _response_listener_attached st
  /\ ((token st' = token st /\ _token_event st' = _token_event st)
      \/ (token_truthy (token st') = true /\ _token_event st' = true)).
Proof.
  cbv zeta. unfold _route_handler.
  destruct (contains "checkcaptcha"
              match url with Some u => u | None => "" end) eqn:E;
    cbn [negb].
  2:{ cbn. repeat split; auto; discriminate. }
  destruct fetched as [[data | e] | e];
    try (cbn; repeat split; auto; try discriminate;
         intros a Ha; inversion Ha; reflexivity).
  unfold bind, lift.
  destruct (get data "generated_pass_UUID") as [token | e].
  2:{ repeat split; auto; discriminate. }
  destruct token as [| | | | text | |];
    try (cbn; repeat split; auto; try discriminate;
         intros a Ha; inversion Ha; reflexivity).
  destruct (String.eqb (strip text) "") eqn:Es; cbn [negb];
    [cbn; repeat split; auto; try discriminate;
     intros a Ha; inversion Ha; reflexivity |].
  cbn. repeat split; try discriminate;
    try (intros a Ha; inversion Ha; reflexivity).
  right. rewrite Es. auto.
Qed.

(** X25: a new solver holds no token, has no listener attached and an
    unplaced pointer. A supplied last mouse position is taken as given;
    without one, and with [random.random()] in [0, 1), the position lies
    between 45% and 55% of the viewport's width and height, a zero or
    missing dimension counting as 1920 by 1080. *)
Theorem init_position_central (viewport : option (Q * Q))
    (random_random : nat -> Q) (drawn : nat) :
  (forall k, 0 <= random_random k /\ random_random k < 1) ->
  match viewport with
  | Some (w, h) => 0 <= w /\ 0 <= h
  | None => True
  end ->
  (forall given,
     let st := __init__ viewport random_random drawn given in
     token st = None /\ _token_event st = false
     /\ _response_listener_attached st = false
     /\ _position (motion_state st) = None
     /\ calls (motion_state st) = [])
  /\ (forall x y,
        last_mouse_position
          (__init__ viewport random_random drawn (Some (Some x, Some y)))
        = (x, y))
  /\ exists width height,
       match viewport with
       | Some (w, h) =>
           (0 < w -> width = w) /\ (w == 0 -> width = 1920)
           /\ (0 < h -> height = h) /\ (h == 0 -> height = 1080)
       | None => width = 1920 /\ height = 1080
       end
       /\ let '(x, y) :=
            last_mouse_position (__init__ viewport random_random drawn None)
          in
          width * 0.45 <= x /\ x < width * 0.55
          /\ height * 0.45 <= y /\ y < height * 0.55.
Proof.
  intros Hrandom Hview.
  split; [intros given; cbn; auto |].
  split; [reflexivity |].
  unfold __init__. cbv zeta. cbn [last_mouse_position].
  set (width := match viewport with
                | Some (w, _) => if Qnonzero w then w else 1920
                | None => 1920
                end).
  set (height := match viewport with
                 | Some (_, h) => if Qnonzero h then h else 1080
                 | None => 1080
                 end).
  destruct (Hrandom drawn) as [Hx0 Hx1].
  destruct (Hrandom (Datatypes.S drawn)) as [Hy0 Hy1].
  assert (Hw : 0 < width).
  { subst width. destruct viewport as [[w h] |]; [| reflexivity].
    destruct Hview as [Hw0 _]. unfold Qnonzero.
    destruct (Qeq_bool w 0) eqn:E; cbn [negb]; [reflexivity |].
    apply Qeq_bool_neq in E. lra. }
  assert (Hh : 0 < height).
  { subst height. destruct viewport as [[w h] |]; [| reflexivity].
    destruct Hview as [_ Hh0]. unfold Qnonzero.
    destruct (Qeq_bool h 0) eqn:E; cbn [negb]; [reflexivity |].
    apply Qeq_bool_neq in E. lra. }
  exists width, height. split.
  - subst width height. destruct viewport as [[w h] |]; [| auto].
    unfold Qnonzero. repeat split.
    + intros H. destruct (Qeq_bool w 0) eqn:E; [| reflexivity].
      apply Qeq_bool_iff in E. lra.
    + intros H. apply Qeq_bool_iff in H. rewrite H. reflexivity.
    + intros H. destruct (Qeq_bool h 0) eqn:E; [| reflexivity].
      apply Qeq_bool_iff in E. lra.
    + intros H. apply Qeq_bool_iff in H. rewrite H. reflexivity.
  - repeat split; nra.
Qed.

Section Round.
Variable transport : nat -> ApiService.request -> result ApiService.response.
Variable api_key : string.
Variable base_url : string.
Variable poll_interval : Q.
Variable max_wait_time : Q.
Variable str_to_float : string -> option Q.
Variable str_to_int : string -> option Z.
Variable viewport : option (Q * Q).
Variable uniform : nat -> Q -> Q -> Q.
Variable page_raises : nat -> bool.
Variable math_dist : Q -> Q -> Q -> Q -> Q.
Variable math_cos : Q -> Q.
Variable math_sin : Q -> Q.
Variable math_atan2 : Q -> Q -> Q.
Variable round2 : Q -> Q.
Variable intercept_token : bool.
Variable race_sleep_token : Q -> S unit.
Variable py_str : value -> string.
Variable listener : nat -> solver -> solver.

Lemma in_solver_inv {A : Type} (m : S A) (w w' : world) (r : result A) :
  in_solver m w = (r, w') ->
  exists s, m (solver_of w) = (r, s) /\ w' = mkWorld s (net_of w).
Proof.
  unfold in_solver. destruct (m (solver_of w)) as [r0 s]. intros H.
  inversion H; subst. exists s. auto.
Qed.

Lemma in_net_inv {A : Type} (m : ApiService.M A) (w w' : world)
    (r : result A) :
  in_net m w = (r, w') ->
  exists n, m (net_of w) = (r, n) /\ w' = mkWorld (solver_of w) n.
Proof.
  unfold in_net. destruct (m (net_of w)) as [r0 n]. intros H.
  inversion H; subst. exists n. auto.
Qed.

(** X30: a round reports success only after the service has answered:
    when [_handle_challenge_round] returns [True] there was a challenge
    frame, a payload was collected from it, the first request of the round
    was the [hCaptchaBase64] task carrying exactly that payload, and at
    least one poll followed it. *)
Theorem round_succeeds_only_after_answer (fuel : nat)
    (challenge_frame : option challenge) (view : round_view)
    (w w' : world) :
  _handle_challenge_round transport api_key base_url poll_interval
    max_wait_time str_to_float str_to_int viewport uniform page_raises
    math_dist math_cos math_sin math_atan2 round2 intercept_token
    race_sleep_token py_str listener fuel challenge_frame view w
  = Some (Ok true, w') ->
  exists c task_payload s0 s1 rest,
    challenge_frame = Some c
    /\ _collect_challenge_data round2 challenge_frame s0
       = (Ok (Some task_payload), s1)
    /\ ApiService.trace (net_of w')
       = ApiService.trace (net_of w)
         ++ ApiService.Post
              (ApiService.create_request api_key base_url "hCaptchaBase64"
                 (VDict task_payload)) :: rest
    /\ (ApiService.posts (net_of w) + 2 <= ApiService.posts (net_of w'))%nat.
Proof.
  unfold _handle_challenge_round. intros H.
  destruct challenge_frame as [c |]; [| discriminate].
  destruct (in_solver
              (_ensure_english_language view ;;;
               _collect_challenge_data round2 (Some c)) w)
    as [[task_payload | e] w1] eqn:Hcollect; [| discriminate].
  destruct task_payload as [[| entry task_payload] |]; try discriminate.
  apply in_solver_inv in Hcollect as (s1 & Hcollect & ->).
  apply bind_ok_inv in Hcollect as (u & s0 & _ & Hcollect).
  cbv zeta in H.
  destruct (in_net
              (ApiService.create_task transport api_key base_url
                 (VDict (entry :: task_payload)) "hCaptchaBase64")
              (mkWorld s1 (net_of w)))
    as [[[task_id |] | e] w2] eqn:Hcreate; try discriminate.
  apply in_net_inv in Hcreate as (n2 & Hcreate & ->).
  cbn [solver_of net_of] in *.
  apply ApiMoreFacts.create_task_one_post in Hcreate as [Hp1 [log Ht1]].
  destruct (truthy task_id); cbn [negb] in H; [| discriminate].
  unfold ApiService.wait_for_result in H.
  destruct (ApiService.wait_loop transport api_key base_url poll_interval
              max_wait_time fuel task_id false 0 n2)
    as [[[[answers |] | e] n3] |] eqn:Hwait; try discriminate.
  apply ApiMoreFacts.wait_loop_result_posts in Hwait as [Hp2 [ext Ht2]].
  destruct (truthy answers); cbn [negb] in H; [| discriminate].
  inversion H as [Hrest]. clear H.
  apply in_solver_inv in Hrest as (s' & _ & ->).
  cbn [solver_of net_of].
  exists c, (entry :: task_payload), s0, s1. eexists.
  split; [reflexivity |]. split; [exact Hcollect |].
  split; [| lia].
  rewrite Ht2, Ht1, <- app_assoc. reflexivity.
Qed.

End Round.

Lemma submit_button_clicked_at_centre_witness :
  exists st' sampled,
    _click_submit_button None draw_middle calm_page manhattan flat flat flat2
      fallback_frame demo_solver = (Ok tt, st')
    /\ calls (motion_state st')
       = moves_of sampled ++ click_at (centre demo_submit_box)
    /\ last_mouse_position st' = centre demo_submit_box.
Proof.
  assert (Hrun : exists st',
            _click_submit_button None draw_middle calm_page manhattan flat
              flat flat2 fallback_frame demo_solver = (Ok tt, st'))
    by (eexists; vm_compute; reflexivity).
  destruct Hrun as (st' & Hrun).
  destruct (submit_button_clicked_at_centre None draw_middle calm_page
              manhattan flat flat flat2 fallback_frame (mkPoint 1 1)
              demo_solver st' eq_refl Hrun)
    as [(e & b & sampled & Hctl & Hb & Hc & _ & _ & Hl)
       | ([[_ Hnone] | (e & Hctl & Hb)] & _)].
  - assert (Hbox : b = demo_submit_box).
    { destruct Hctl as [He | [_ He]]; [discriminate He |].
      inversion He; subst. inversion Hb. reflexivity. }
    subst b. exists st', sampled. split; [exact Hrun |].
    split; [exact Hc | exact Hl].
  - discriminate Hnone.
  - exfalso. destruct Hctl as [He | [_ He]]; [discriminate He |].
    inversion He; subst. discriminate Hb.
Defined.


Lemma init_position_central_witness :
  let '(x, y) :=
    last_mouse_position (__init__ (Some (1280, 0)) draw_half 0 None) in
  1280 * 0.45 <= x /\ x < 1280 * 0.55
  /\ 1080 * 0.45 <= y /\ y < 1080 * 0.55.
Proof.
  assert (Hrandom : forall k, 0 <= draw_half k /\ draw_half k < 1)
    by (intros k; unfold draw_half; split; [discriminate | reflexivity]).
  assert (Hview : 0 <= 1280 /\ 0 <= 0) by (split; discriminate).
  destruct (init_position_central (Some (1280, 0)) draw_half 0 Hrandom Hview)
    as (_ & _ & width & height & (Hw & _ & _ & Hh) & Hpos).
  rewrite (Hw eq_refl), (Hh (Qeq_refl 0)) in Hpos.
  exact Hpos.
Defined.

Section Checkbox.
Variable transport : nat -> ApiService.request -> result ApiService.response.
Variable api_key : string.
Variable base_url : string.
Variable poll_interval : Q.
Variable max_wait_time : Q.
Variable str_to_float : string -> option Q.
Variable viewport : option (Q * Q).
Variable uniform : nat -> Q -> Q -> Q.
Variable page_raises : nat -> bool.
Variable math_dist : Q -> Q -> Q -> Q -> Q.
Variable math_cos : Q -> Q.
Variable math_sin : Q -> Q.
Variable math_atan2 : Q -> Q -> Q.

Lemma in_solver_ok_inv {A : Type} (m : S A) (w w' : world) (a : A) :
  in_solver m w = (Ok a, w') ->
  exists s, m (solver_of w) = (Ok a, s) /\ w' = mkWorld s (net_of w).
Proof.
  unfold in_solver. destruct (m (solver_of w)) as [r s]. intros H.
  inversion H; subst. exists s. auto.
Qed.

Lemma asyncio_sleep_run (d : Q) (st : solver) :
  asyncio_sleep d st
  = (Ok tt,
     with_motion (pointer_after st (_position (motion_state st)) 0
                    [AsyncSleep d]) st).
Proof.
  unfold asyncio_sleep, on_motion, Motion.asyncio_sleep, pointer_after.
  rewrite Nat.add_0_r. reflexivity.
Qed.

Lemma move_points_state (points : list (Q * Q * option Q)) :
  forall (p : Point) (m m' : motion),
    _position m = Some p ->
    move_points viewport uniform page_raises points m = (Ok tt, m') ->
    m' = mkMotion
           (Some (match last_opt points with
                  | Some (x, y, _) => mkPoint x y
                  | None => p
                  end))
           (_human_trace m) (draws m) (calls m ++ flat_map replay_of points).
Proof.
  induction points as [| [[x y] delay] rest IH]; intros p m m' Hp H.
  - cbn in H. apply ret_ok_inv in H as [_ ->].
    cbn. rewrite app_nil_r, <- Hp. destruct m; reflexivity.
  - cbn [move_points] in H. bind_inv H. destruct a.
    apply (MotionMoreFacts.move_direct_placed_run _ _ _ _ _ _ _ _ _ Hp)
      in Hrun. subst s.
    apply (IH (mkPoint x y)) in H; [| reflexivity]. subst m'.
    cbn [_position _human_trace draws calls flat_map replay_of].
    rewrite <- !app_assoc. f_equal. f_equal.
    cbn [last_opt].
    destruct rest as [| q rest']; [reflexivity |].
    cbn [last_opt].
    rewrite (MotionFacts.last_cons_default rest' (x, y, delay) q).
    reflexivity.
Qed.

Lemma last_map {A B : Type} (f : A -> B) (l : list A) (d : A) :
  last (map f l) (f d) = f (last l d).
Proof.
  induction l as [| a l IH]; [reflexivity |].
  destruct l as [| a' l']; [reflexivity |].
  change (last (map f (a :: a' :: l')) (f d))
    with (last (map f (a' :: l')) (f d)).
  rewrite IH. reflexivity.
Qed.

(** X26: with a trajectory from the service, [_handle_checkbox] follows
    it: it first moves the real pointer to the last known position, then
    replays every point of the trajectory in order, the delays taken as
    milliseconds, presses and releases once in place and sleeps 0.8
    seconds. It draws no random number, the last known position becomes
    the last point of the trajectory, and it returns [True]. *)
Theorem checkbox_follows_human_path (fuel : nat) (cb : checkbox) (b : box)
    (w w' : world) (path : list (Q * Q * Q)) (n : ApiService.net)
    (r : bool) :
  aria_checked cb <> Some "true" ->
  checkbox_box cb = Some b ->
  ApiService.request_human_move transport api_key base_url poll_interval
    max_wait_time str_to_float fuel
    [last_mouse_position (solver_of w); centre b] (net_of w)
  = Some (Ok (Some path), n) ->
  _handle_checkbox transport api_key base_url poll_interval max_wait_time
    str_to_float viewport uniform page_raises math_dist math_cos math_sin
    math_atan2 fuel (Some (Some cb)) w = Some (Ok r, w') ->
  r = true
  /\ net_of w' = n
  /\ calls (motion_state (solver_of w'))
     = calls (motion_state (solver_of w))
       ++ [MouseMove (fst (last_mouse_position (solver_of w)))
             (snd (last_mouse_position (solver_of w))) 1]
       ++ flat_map replay_of (trace_of path)
       ++ [MouseDown; MouseUp; AsyncSleep 0.8]
  /\ draws (motion_state (solver_of w')) = draws (motion_state (solver_of w))
  /\ let '(last_x, last_y, _) := last path (0, 0, 0) in
     last_mouse_position (solver_of w') = (last_x, last_y)
     /\ _position (motion_state (solver_of w'))
        = Some (mkPoint last_x last_y).
Proof.
  intros Haria Hbox Hmove H.
  pose proof (ApiMoreFacts.request_human_move_not_empty _ _ _ _ _ _ _ _ _ _ _
                Hmove) as Hne.
  unfold _handle_checkbox in H.
  assert (Hcond : match aria_checked cb with
                  | Some a => String.eqb a "true"
                  | None => false
                  end = false).
  { destruct (aria_checked cb) as [a |]; [| reflexivity].
    destruct (String.eqb a "true") eqn:E; [| reflexivity].
    apply String.eqb_eq in E. subst a. congruence. }
  rewrite Hcond, Hbox in H. cbv zeta in H.
  destruct (last_mouse_position (solver_of w)) as [start_x start_y] eqn:El.
  unfold centre in Hmove. cbn [fst snd] in *. rewrite Hmove in H.
  destruct path as [| first rest]; [congruence |].
  inversion H as [Hrun]. clear H.
  apply bind_ok_inv in Hrun as (u & w1 & Hrun & Hret).
  apply ret_ok_inv in Hret as [<- ->].
  apply in_solver_ok_inv in Hrun as (s & Hrun & ->).
  cbn [solver_of net_of] in *.
  apply bind_ok_inv in Hrun as (u0 & s1 & Hrun & Hsleep).
  rewrite asyncio_sleep_run in Hsleep. inversion Hsleep; subst. clear Hsleep.
  apply bind_ok_inv in Hrun as (u1 & s2 & Hstep & Hrun).
  unfold mouse_move in Hstep. apply SolverMoreFacts.page_run in Hstep.
  subst s2.
  apply bind_ok_inv in Hrun as (u2 & s3 & Hstep & Hrun).
  apply ActionFacts.on_motion_ok_inv in Hstep as (m3 & Hstep & ->).
  unfold set_position in Hstep. inversion Hstep; subst. clear Hstep.
  apply bind_ok_inv in Hrun as (u3 & s4 & Hstep & Hrun). destruct u3.
  unfold motion_move_points in Hstep.
  apply ActionFacts.on_motion_ok_inv in Hstep as (m4 & Hstep & ->).
  apply (move_points_state _ (mkPoint start_x start_y)) in Hstep;
    [| reflexivity].
  subst m4.
  apply bind_ok_inv in Hrun as (u4 & s5 & Hstep & Hrun). destruct u4.
  apply SolverMoreFacts.motion_click_here_run in Hstep. subst s5.
  destruct (last rest first) as [[last_x last_y] last_delay] eqn:Hlast.
  unfold _set_last_mouse_position in Hrun. inversion Hrun; subst. clear Hrun.
  rewrite (MotionFacts.last_cons_default rest (0, 0, 0) first), Hlast.
  cbn [motion_state with_motion pointer_after _position _human_trace draws
       calls last_mouse_position solver_of net_of].
  rewrite !Nat.add_0_r, <- !app_assoc. cbn [app].
  split; [reflexivity |]. split; [reflexivity |].
  split.
  { cbn [trace_of map flat_map]. rewrite <- ?app_assoc. reflexivity. }
  split; [reflexivity |]. split; [reflexivity |].
  f_equal. cbn [trace_of map last_opt].
  destruct first as [[fx fy] fd]. unfold trace_of.
  rewrite (last_map
             (fun entry : Q * Q * Q =>
                let '(px, py, delay_ms) := entry in
                (px, py,
                 Some ((if Qnonzero delay_ms then delay_ms else 0) / 1000)))
             rest (fx, fy, fd)).
  rewrite Hlast. reflexivity.
Qed.

(** X27: without a trajectory from the service, [_handle_checkbox] falls
    back to the controller's own click: on a placed pointer it replays a
    path of 12 to 45 sampled points, moves to the exact centre of the
    checkbox, presses and releases once and sleeps 0.8 seconds; the last
    known position becomes the centre and it returns [True]. *)
Theorem checkbox_clicked_without_path (fuel : nat) (cb : checkbox) (b : box)
    (p : Point) (w w' : world) (n : ApiService.net) (r : bool) :
  aria_checked cb <> Some "true" ->
  checkbox_box cb = Some b ->
  _position (motion_state (solver_of w)) = Some p ->
  ApiService.request_human_move transport api_key base_url poll_interval
    max_wait_time str_to_float fuel
    [last_mouse_position (solver_of w); centre b] (net_of w)
  = Some (Ok None, n) ->
  _handle_checkbox transport api_key base_url poll_interval max_wait_time
    str_to_float viewport uniform page_raises math_dist math_cos math_sin
    math_atan2 fuel (Some (Some cb)) w = Some (Ok r, w') ->
  r = true
  /\ net_of w' = n
  /\ last_mouse_position (solver_of w') = centre b
  /\ exists sampled,
       calls (motion_state (solver_of w'))
       = calls (motion_state (solver_of w))
         ++ moves_of sampled ++ click_at (centre b) ++ [AsyncSleep 0.8]
       /\ (12 <= List.length sampled <= 45)%nat.
Proof.
  intros Haria Hbox Hp Hmove H.
  unfold _handle_checkbox in H.
  assert (Hcond : match aria_checked cb with
                  | Some a => String.eqb a "true"
                  | None => false
                  end = false).
  { destruct (aria_checked cb) as [a |]; [| reflexivity].
    destruct (String.eqb a "true") eqn:E; [| reflexivity].
    apply String.eqb_eq in E. subst a. congruence. }
  rewrite Hcond, Hbox in H. cbv zeta in H.
  destruct (last_mouse_position (solver_of w)) as [start_x start_y] eqn:El.
  unfold centre in Hmove. cbn [fst snd] in *. rewrite Hmove in H.
  inversion H as [Hrun]. clear H.
  apply bind_ok_inv in Hrun as (u & w1 & Hrun & Hret).
  apply ret_ok_inv in Hret as [<- ->].
  apply in_solver_ok_inv in Hrun as (s & Hrun & ->).
  cbn [solver_of net_of] in *.
  apply bind_ok_inv in Hrun as (u0 & s1 & Hrun & Hsleep).
  rewrite asyncio_sleep_run in Hsleep. inversion Hsleep; subst. clear Hsleep.
  apply bind_ok_inv in Hrun as (u1 & s2 & Hstep & Hrun). destruct u1.
  destruct (motion_click_run viewport uniform page_raises math_dist math_cos
              math_sin math_atan2 _ _ _ _ _ Hp Hstep)
    as (sampled & Hc & Hlen & Hq & _).
  unfold _set_last_mouse_position in Hrun. inversion Hrun; subst. clear Hrun.
  cbn [motion_state with_motion pointer_after _position _human_trace draws
       calls last_mouse_position solver_of net_of centre].
  split; [reflexivity |]. split; [reflexivity |]. split; [reflexivity |].
  exists sampled. split; [| exact Hlen].
  rewrite Hc, <- !app_assoc. reflexivity.
Qed.

(** X28: [_handle_checkbox] leaves the service and the pointer alone
    unless there is something to click: with a frame whose [#checkbox] is
    missing, is already checked ([aria-checked] reads [true]) or has no
    box, it only sleeps 0.5 seconds, posts nothing and returns [True],
    and with no frame at all it returns [False] at once. *)
Theorem checkbox_skipped_without_request (fuel : nat)
    (frame_checkbox : option checkbox) (w : world) :
  match frame_checkbox with
  | None => True
  | Some cb => aria_checked cb = Some "true" \/ checkbox_box cb = None
  end ->
  _handle_checkbox transport api_key base_url poll_interval max_wait_time
    str_to_float viewport uniform page_raises math_dist math_cos math_sin
    math_atan2 fuel (Some frame_checkbox) w
  = Some (Ok true,
          mkWorld
            (with_motion
               (pointer_after (solver_of w)
                  (_position (motion_state (solver_of w))) 0
                  [AsyncSleep 0.5]) (solver_of w))
            (net_of w))
  /\ _handle_checkbox transport api_key base_url poll_interval max_wait_time
       str_to_float viewport uniform page_raises math_dist math_cos math_sin
       math_atan2 fuel None w
     = Some (Ok false, w).
Proof.
  intros Hskip. split; [| reflexivity].
  assert (Hsleep : (in_solver (asyncio_sleep 0.5) ;;; ret true) w
                   = (Ok true,
                      mkWorld
                        (with_motion
                           (pointer_after (solver_of w)
                              (_position (motion_state (solver_of w))) 0
                              [AsyncSleep 0.5]) (solver_of w))
                        (net_of w))).
  { unfold bind, in_solver. rewrite asyncio_sleep_run. reflexivity. }
  unfold _handle_checkbox.
  destruct frame_checkbox as [cb |]; [| rewrite Hsleep; reflexivity].
  destruct Hskip as [Ha | Hb].
  - rewrite Ha. cbn [String.eqb Ascii.eqb Bool.eqb]. rewrite Hsleep.
    reflexivity.
  - destruct (match aria_checked cb with
              | Some a => String.eqb a "true"
              | None => false
              end); rewrite ?Hb, Hsleep; reflexivity.
Qed.

End Checkbox.

Lemma checkbox_follows_human_path_witness :
  exists w',
    _handle_checkbox (human_move_service mixed_segments) "key"
      "https://api.multibot.in" 1 15 no_parse None draw_low calm_page
      manhattan flat flat flat2 5 (Some (Some demo_checkbox)) demo_world
    = Some (Ok true, w')
    /\ calls (motion_state (solver_of w'))
       = [MouseMove 1 1 1; MouseMove 10 10 1; AsyncSleep (120 / 1000);
          MouseMove 50 60 1; MouseDown; MouseUp; AsyncSleep 0.8]
    /\ last_mouse_position (solver_of w') = (50, 60).
Proof.
  assert (Hmove : exists n,
            ApiService.request_human_move (human_move_service mixed_segments)
              "key" "https://api.multibot.in" 1 15 no_parse 5
              [last_mouse_position (solver_of demo_world);
               centre (mkBox 10 20 30 30)] (net_of demo_world)
            = Some (Ok (Some [(10, 10, 0); (50, 60, 120)]), n))
    by (eexists; vm_compute; reflexivity).
  destruct Hmove as (n & Hmove).
  assert (Hrun : exists w',
            _handle_checkbox (human_move_service mixed_segments) "key"
              "https://api.multibot.in" 1 15 no_parse None draw_low calm_page
              manhattan flat flat flat2 5 (Some (Some demo_checkbox))
              demo_world = Some (Ok true, w'))
    by (eexists; vm_compute; reflexivity).
  destruct Hrun as (w' & Hrun).
  assert (Haria : aria_checked demo_checkbox <> Some "true")
    by discriminate.
  destruct (checkbox_follows_human_path (human_move_service mixed_segments)
              "key" "https://api.multibot.in" 1 15 no_parse None draw_low
              calm_page manhattan flat flat flat2 5 demo_checkbox
              (mkBox 10 20 30 30) demo_world w'
              [(10, 10, 0); (50, 60, 120)] n true Haria eq_refl Hmove Hrun)
    as (_ & _ & Hc & _ & Hl & _).
  exists w'. split; [exact Hrun |]. split; [exact Hc | exact Hl].
Defined.

Lemma checkbox_clicked_without_path_witness :
  exists w' sampled,
    _handle_checkbox down_service "key" "https://api.multibot.in" 1 15
      no_parse None draw_middle calm_page manhattan flat flat flat2 5
      (Some (Some demo_checkbox)) demo_world = Some (Ok true, w')
    /\ calls (motion_state (solver_of w'))
       = moves_of sampled ++ click_at (centre (mkBox 10 20 30 30))
         ++ [AsyncSleep 0.8]
    /\ last_mouse_position (solver_of w') = centre (mkBox 10 20 30 30).
Proof.
  assert (Hmove : exists n,
            ApiService.request_human_move down_service "key"
              "https://api.multibot.in" 1 15 no_parse 5
              [last_mouse_position (solver_of demo_world);
               centre (mkBox 10 20 30 30)] (net_of demo_world)
            = Some (Ok None, n))
    by (eexists; vm_compute; reflexivity).
  destruct Hmove as (n & Hmove).
  assert (Hrun : exists w',
            _handle_checkbox down_service "key" "https://api.multibot.in"
              1 15 no_parse None draw_middle calm_page manhattan flat flat
              flat2 5 (Some (Some demo_checkbox)) demo_world
            = Some (Ok true, w'))
    by (eexists; vm_compute; reflexivity).
  destruct Hrun as (w' & Hrun).
  assert (Haria : aria_checked demo_checkbox <> Some "true")
    by discriminate.
  destruct (checkbox_clicked_without_path down_service "key"
              "https://api.multibot.in" 1 15 no_parse None draw_middle
              calm_page manhattan flat flat flat2 5 demo_checkbox
              (mkBox 10 20 30 30) (mkPoint 1 1) demo_world w' n true
              Haria eq_refl eq_refl Hmove Hrun)
    as (_ & _ & Hl & sampled & Hc & _).
  exists w', sampled. split; [exact Hrun |]. split; [exact Hc | exact Hl].
Defined.

Lemma checkbox_skipped_without_request_witness :
  exists w',
    _handle_checkbox down_service "key" "https://api.multibot.in" 1 15
      no_parse None draw_middle calm_page manhattan flat flat flat2 0
      (Some (Some (mkCheckbox (Some "true") (Some (mkBox 10 20 30 30)))))
      demo_world = Some (Ok true, w')
    /\ net_of w' = net_of demo_world.
Proof.
  eexists. split.
  - exact (proj1 (checkbox_skipped_without_request down_service "key"
                    "https://api.multibot.in" 1 15 no_parse None draw_middle
                    calm_page manhattan flat flat flat2 0
                    (Some (mkCheckbox (Some "true")
                             (Some (mkBox 10 20 30 30))))
                    demo_world (or_introl eq_refl))).
  - reflexivity.
Defined.

Lemma round_succeeds_only_after_answer_witness :
  exists w',
    _handle_challenge_round (human_move_service [VInt 0]) "key"
      "https://api.multibot.in" 1 15 no_parse no_parse_int None draw_middle
      calm_page manhattan flat flat flat2 keep false idle_for no_str silent
      5 (Some (demo_challenge "Pick the cats" 9)) english_view demo_world
    = Some (Ok true, w')
    /\ (2 <= ApiService.posts (net_of w'))%nat.
Proof.
  assert (Hrun : exists w',
            _handle_challenge_round (human_move_service [VInt 0]) "key"
              "https://api.multibot.in" 1 15 no_parse no_parse_int None
              draw_middle calm_page manhattan flat flat flat2 keep false
              idle_for no_str silent 5
              (Some (demo_challenge "Pick the cats" 9)) english_view
              demo_world = Some (Ok true, w'))
    by (eexists; vm_compute; reflexivity).
  destruct Hrun as (w' & Hrun).
  exists w'. split; [exact Hrun |].
  destruct (round_succeeds_only_after_answer (human_move_service [VInt 0])
              "key" "https://api.multibot.in" 1 15 no_parse no_parse_int
              None draw_middle calm_page manhattan flat flat flat2 keep
              false idle_for no_str silent 5
              (Some (demo_challenge "Pick the cats" 9)) english_view
              demo_world w' Hrun)
    as (c & payload & s0 & s1 & rest & _ & _ & _ & Hposts).
  exact Hposts.
Defined.

End PageFacts.
